(** * Crypto-bot: signal evaluation engine and alert cooldown ledger

    A shallow embedding of the parts of [crypto_agent] that decide what the
    agent reports: the indicator guards of [data_fetcher.py], the scorer and
    the three pattern detectors of [signal_scoring.py], the detector state of
    [state_manager.py] and the alert senders of [discord_alert.py].

    Numbers.  Python floats are read as exact rationals ([Q]); comparisons are
    the boolean comparisons of [Q].  Timestamps ([datetime.now()]) are integer
    microseconds.  Python dictionaries used as stores are [gmap]s. *)

From Stdlib Require Import QArith Qabs Qcanon Lqa ZArith Lia List String.
From stdpp Require Import base option gmap strings countable.

Open Scope Q_scope.
Open Scope string_scope.

(** ** Python values *)

Module Py.

(** Exceptions the modelled code can raise. *)
Inductive exn : Type :=
| TypeError
| AttributeError
| ZeroDivisionError
| ValueError.

(** Outcome of a call that may raise. *)
Inductive result (A : Type) : Type :=
| Return (a : A)
| Raise (e : exn).
Arguments Return {A} a.
Arguments Raise {A} e.

Definition bind {A B} (r : result A) (k : A -> result B) : result B :=
  match r with
  | Return a => k a
  | Raise e => Raise e
  end.

(** [x < y], [x <= y], [x > y], [x >= y] on numbers. *)
Definition lt (x y : Q) : bool := negb (Qle_bool y x).
Definition le (x y : Q) : bool := Qle_bool x y.
Definition gt (x y : Q) : bool := lt y x.
Definition ge (x y : Q) : bool := le y x.

(** The built-ins [min(a, b)] and [max(a, b)]: the first argument is kept
    unless the second is strictly smaller (resp. larger). *)
Definition min (a b : Q) : Q := if lt b a then b else a.
Definition max (a b : Q) : Q := if gt b a then b else a.

(** A dictionary entry whose value is itself a dictionary: the key may be
    missing, or bound to [None], or bound to a dictionary.  [get] without a
    default merges the first two; [get(key, {})] does not. *)
Inductive entry (A : Type) : Type :=
| KeyMissing
| IsNone
| Bound (a : A).
Arguments KeyMissing {A}.
Arguments IsNone {A}.
Arguments Bound {A} a.

(** A float that may be NaN; only the rolling statistics produce one. *)
Inductive float : Type :=
| Num (q : Q)
| NaN.

(** [f"{x:.2f}"]: formatting [None] with a float format raises. *)
Definition format_float (x : option Q) : result unit :=
  match x with
  | Some _ => Return tt
  | None => Raise TypeError
  end.

(** [x / y] on values that may be [None]: a [None] operand raises
    [TypeError], a zero divisor raises [ZeroDivisionError]. *)
Definition truediv (x y : option Q) : result Q :=
  match x, y with
  | Some x, Some y => if Qeq_bool y 0 then Raise ZeroDivisionError else Return (x / y)
  | _, _ => Raise TypeError
  end.

End Py.

#[global] Instance result_ret : MRet Py.result := @Py.Return.
#[global] Instance result_bind : MBind Py.result := fun A B k r => Py.bind r k.

Abbreviation Return := Py.Return.
Abbreviation Raise := Py.Raise.

(** ** config.py *)

Module Config.

Record Weights : Type := {
  w_rsi : Q;
  w_ema_crossover : Q;
  w_ema_price_position : Q;
  w_bollinger_bands : Q;
  w_volume_spike : Q;
  w_fgi_sentiment : Q;
  w_google_trends : Q;
  w_btc_eth_ath_proximity : Q;
  w_btc_dominance : Q
}.

Record PriceTargets : Type := {
  buy : option Q;
  sell : option Q
}.

Record TrailingStop : Type := {
  percent_drop_from_ath : option Q;
  close_below_50d_ema : option bool
}.

Record t : Type := {
  DISCORD_WEBHOOK_URL : string;
  ALERT_SCORE_THRESHOLD : Q;
  ALERT_COOLDOWN_HOURS : Q;
  SIGNAL_SCORING_WEIGHTS : Weights;
  VOLUME_SPIKE_MULTIPLIER : Q;
  PRICE_ALERTS : gmap string PriceTargets;
  PRICE_ALERT_COOLDOWN_HOURS : Q;
  PROFIT_TAKING_ALERT_COOLDOWN_HOURS : Q;
  TRAILING_STOP_ALERTS : gmap string TrailingStop;
  TRAILING_STOP_ALERT_COOLDOWN_HOURS : Q
}.

(** The values written in config.py (the webhook address without its
    identifier and token). *)
Definition default_weights : Weights := {|
  w_rsi := 15 # 100;
  w_ema_crossover := 20 # 100;
  w_ema_price_position := 20 # 100;
  w_bollinger_bands := 10 # 100;
  w_volume_spike := 10 # 100;
  w_fgi_sentiment := 10 # 100;
  w_google_trends := 5 # 100;
  w_btc_eth_ath_proximity := 5 # 100;
  w_btc_dominance := 5 # 100
|}.

Definition default : t := {|
  DISCORD_WEBHOOK_URL := "https://discordapp.com/api/webhooks/";
  ALERT_SCORE_THRESHOLD := 80;
  ALERT_COOLDOWN_HOURS := 6;
  SIGNAL_SCORING_WEIGHTS := default_weights;
  VOLUME_SPIKE_MULTIPLIER := 15 # 10;
  PRICE_ALERTS :=
    <["solana" := {| buy := Some 130; sell := Some 230 |}]>
    (<["chainlink" := {| buy := Some 13; sell := Some 25 |}]>
    (<["sui" := {| buy := Some (25 # 10); sell := Some 5 |}]>
    (<["sei-network" := {| buy := Some (2 # 10); sell := Some (5 # 10) |}]> ∅)));
  PRICE_ALERT_COOLDOWN_HOURS := 6;
  PROFIT_TAKING_ALERT_COOLDOWN_HOURS := 24;
  TRAILING_STOP_ALERTS :=
    <["solana" := {| percent_drop_from_ath := Some 20; close_below_50d_ema := Some true |}]>
    (<["chainlink" := {| percent_drop_from_ath := Some 20; close_below_50d_ema := Some true |}]>
    (<["sui" := {| percent_drop_from_ath := Some 25; close_below_50d_ema := Some true |}]>
    (<["sei-network" := {| percent_drop_from_ath := Some 30; close_below_50d_ema := Some true |}]> ∅)));
  TRAILING_STOP_ALERT_COOLDOWN_HOURS := 48
|}.

End Config.

(** ** The dictionaries exchanged between the modules *)

Record BollingerBands : Type := {
  upper : option Q;
  middle : option Q;
  lower : option Q
}.

(** The [data] dictionary built by [fetch_data]. *)
Record IndicatorData : Type := {
  price : option Q;
  volume : option Q;
  rsi : option Q;
  ema20 : option Q;
  ema50 : option Q;
  ema200 : option Q;
  bollinger_bands : Py.entry BollingerBands;
  price_change_7d_percent : option Q;
  price_change_30d_percent : option Q
}.

(** The [sentiment] dictionary built by [analyze_sentiment]. *)
Record Sentiment : Type := {
  fgi_score : option Q;
  fgi_category : option string;
  google_trends_interest : option Q
}.

(** The [macro_trends] dictionary built by the analysis loop. *)
Record MacroTrends : Type := {
  btc_current_price : option Q;
  btc_ath : option Q;
  eth_current_price : option Q;
  eth_ath : option Q;
  btc_dominance : option Q
}.

(** The historical data frame, as far as the scorer looks at it: whether it
    has a ['volume'] column and the values of that column. *)
Record DataFrame : Type := {
  volume_column : option (list Q)
}.

(** ** data_fetcher.py: the indicators *)

Module DataFetcher.

(** [series.ewm(alpha, adjust=False).mean()]: seeded by the first value,
    then [y = (1 - alpha) * y_prev + alpha * x]. *)
Fixpoint ewm_from (alpha y_prev : Q) (xs : list Q) : list Q :=
  match xs with
  | [] => []
  | x :: rest =>
      let y := (1 - alpha) * y_prev + alpha * x in
      y :: ewm_from alpha y rest
  end.

Definition ewm_mean (alpha : Q) (xs : list Q) : list Q :=
  match xs with
  | [] => []
  | x :: rest => x :: ewm_from alpha x rest
  end.

(** [prices.diff()]: the first difference is NaN, here [None]. *)
Fixpoint diff_from (prev : Q) (xs : list Q) : list (option Q) :=
  match xs with
  | [] => []
  | x :: rest => Some (x - prev) :: diff_from x rest
  end.

Definition diff (prices : list Q) : list (option Q) :=
  match prices with
  | [] => []
  | x :: rest => None :: diff_from x rest
  end.

(** [delta.where(delta > 0, 0)] and [-delta.where(delta < 0, 0)]; a
    comparison with NaN is false. *)
Definition gain_of (d : option Q) : Q :=
  match d with
  | Some d => if Py.gt d 0 then d else 0
  | None => 0
  end.

Definition loss_of (d : option Q) : Q :=
  match d with
  | Some d => if Py.lt d 0 then - d else - 0
  | None => - 0
  end.

Definition len (prices : list Q) : Z := Z.of_nat (length prices).

Definition _calculate_rsi (prices : list Q) (window : Z) : Py.result (option Q) :=
  if (len prices <? window + 1)%Z then Return None
  else
    let delta := diff prices in
    let gain := map gain_of delta in
    let loss := map loss_of delta in
    (* ewm(com=window - 1) refuses a negative centre of mass *)
    if (window - 1 <? 0)%Z then Raise Py.ValueError
    else
      let alpha := 1 / (1 + inject_Z (window - 1)) in
      let avg_gain := ewm_mean alpha gain in
      let avg_loss := ewm_mean alpha loss in
      match avg_loss with
      | [] => Return None
      | _ =>
          let rsi :=
            if Qeq_bool (last avg_loss 0) 0
            then 100 - 0 (* 100 / (1 + inf) *)
            else 100 - 100 / (1 + last avg_gain 0 / last avg_loss 0) in
          Return (Some rsi)
      end.

Definition _calculate_ema (prices : list Q) (window : Z) : Py.result (option Q) :=
  if (len prices <? window)%Z then Return None
  else
    (* ewm(span=window) refuses a span below 1 *)
    if (window <? 1)%Z then Raise Py.ValueError
    else
      let alpha := 2 / (inject_Z window + 1) in
      let ema := ewm_mean alpha prices in
      match ema with
      | [] => Return None
      | _ => Return (Some (last ema 0))
      end.

Record Bands : Type := {
  band_upper : Py.float;
  band_middle : Py.float;
  band_lower : Py.float
}.

Section Rolling.
(** The square root of the floating-point library. *)
Variable sqrt : Q -> Q.

Definition sum (xs : list Q) : Q := fold_right Qplus 0 xs.

(** The window that ends at the last sample. *)
Definition last_window (window : Z) (prices : list Q) : list Q :=
  skipn (length prices - Z.to_nat window) prices.

(** Last value of [prices.rolling(window).mean()]. *)
Definition rolling_mean_last (window : Z) (prices : list Q) : Py.float :=
  if (window <? 1)%Z then Py.NaN
  else
    let xs := last_window window prices in
    Py.Num (sum xs / inject_Z window).

(** Last value of [prices.rolling(window).std()], the sample standard
    deviation (one degree of freedom removed). *)
Definition rolling_std_last (window : Z) (prices : list Q) : Py.float :=
  if (window <? 2)%Z then Py.NaN
  else
    let xs := last_window window prices in
    let m := sum xs / inject_Z window in
    Py.Num (sqrt (sum (map (fun x => (x - m) * (x - m)) xs) / inject_Z (window - 1))).

Definition float_add (a b : Py.float) : Py.float :=
  match a, b with
  | Py.Num a, Py.Num b => Py.Num (a + b)
  | _, _ => Py.NaN
  end.

Definition float_sub (a b : Py.float) : Py.float :=
  match a, b with
  | Py.Num a, Py.Num b => Py.Num (a - b)
  | _, _ => Py.NaN
  end.

Definition float_scale (a : Py.float) (k : Q) : Py.float :=
  match a with
  | Py.Num a => Py.Num (a * k)
  | Py.NaN => Py.NaN
  end.

Definition _calculate_bollinger_bands (prices : list Q) (window : Z)
    (num_std_dev : Q) : Py.result (option Bands) :=
  if (len prices <? window)%Z then Return None
  else
    (* rolling(window) refuses a negative window *)
    if (window <? 0)%Z then Raise Py.ValueError
    else
      let sma := rolling_mean_last window prices in
      let std_dev := rolling_std_last window prices in
      let upper_band := float_add sma (float_scale std_dev num_std_dev) in
      let lower_band := float_sub sma (float_scale std_dev num_std_dev) in
      let middle_band := sma in
      match prices with
      | [] => Return None
      | _ =>
          Return (Some {| band_upper := upper_band;
                          band_middle := middle_band;
                          band_lower := lower_band |})
      end.

End Rolling.

End DataFetcher.

(** ** signal_scoring.py: the composite scorer *)

Module SignalScoring.
Import Config.

(** [series.iloc[-n:]]: the last [n] values, or all of them if fewer. *)
Definition iloc_last (n : nat) (l : list Q) : list Q :=
  skipn (length l - n) l.

(** [series.mean()]; the mean of an empty series is NaN, here [None]. *)
Definition mean (l : list Q) : option Q :=
  match l with
  | [] => None
  | _ => Some (fold_right Qplus 0 l / inject_Z (Z.of_nat (length l)))
  end.

(** 1. RSI: distance from the neutral 50 mark. *)
Definition score_rsi (weights : Weights) (data : IndicatorData) (score : Q) : Q :=
  match rsi data with
  | Some rsi =>
      if Py.le rsi 50
      then score + ((50 - rsi) * (1 # 2)) * (w_rsi weights * 100) / 25
      else score - ((rsi - 50) * (1 # 2)) * (w_rsi weights * 100) / 25
  | None => score
  end.

(** 2. EMA crossover (20-period against 50-period). *)
Definition score_ema_crossover (weights : Weights) (data : IndicatorData) (score : Q) : Q :=
  match ema20 data, ema50 data with
  | Some ema20, Some ema50 =>
      if Py.gt ema20 ema50 then score + 15 * w_ema_crossover weights
      else if Py.lt ema20 ema50 then score - 15 * w_ema_crossover weights
      else score
  | _, _ => score
  end.

(** 3. Price position relative to both EMAs. *)
Definition score_ema_price_position (weights : Weights) (data : IndicatorData) (score : Q) : Q :=
  match price data, ema20 data, ema50 data with
  | Some price, Some ema20, Some ema50 =>
      if Py.gt price ema20 && Py.gt price ema50
      then score + 10 * w_ema_price_position weights
      else if Py.lt price ema20 && Py.lt price ema50
      then score - 10 * w_ema_price_position weights
      else score
  | _, _, _ => score
  end.

(** 4. Bollinger bands position.  [data.get('bollinger_bands')] is falsy
    when the key is missing or bound to [None]. *)
Definition score_bollinger (weights : Weights) (data : IndicatorData) (score : Q) : Q :=
  match bollinger_bands data, price data with
  | Py.Bound bb, Some price =>
      match upper bb, lower bb with
      | Some upper, Some lower =>
          let range_bb := upper - lower in
          if Py.gt range_bb 0 then
            let dist_from_lower := (price - lower) / range_bb in
            let dist_from_upper := (upper - price) / range_bb in
            if Py.lt dist_from_lower (1 # 10)
            then score + 15 * w_bollinger_bands weights
            else if Py.lt dist_from_upper (1 # 10)
            then score - 15 * w_bollinger_bands weights
            else score
          else score
      | _, _ => score
      end
  | _, _ => score
  end.

(** 5. Volume spike against the 20-sample average, with the absolute
    fallback when no volume history is passed. *)
Definition score_volume (cfg : Config.t) (data : IndicatorData)
    (historical_data : option DataFrame) (score : Q) : Q :=
  let weights := SIGNAL_SCORING_WEIGHTS cfg in
  let fallback :=
    match volume data with
    | Some volume =>
        if Py.gt volume 1000000000 then score + 5 * w_volume_spike weights else score
    | None => score
    end in
  match volume data, historical_data with
  | Some volume, Some df =>
      match volume_column df with
      | Some column =>
          match mean (iloc_last 20 column) with
          | Some volume_sma20 =>
              if Py.gt volume_sma20 0 then
                if Py.gt volume (volume_sma20 * VOLUME_SPIKE_MULTIPLIER cfg)
                then score + 10 * w_volume_spike weights
                else score
              else score
          | None => score
          end
      | None => fallback
      end
  | _, _ => fallback
  end.

(** 6. Fear and greed index (contrarian). *)
Definition score_fgi (weights : Weights) (sentiment : Sentiment) (score : Q) : Q :=
  match fgi_score sentiment with
  | Some fgi_score =>
      if Py.le fgi_score 20 then score + 15 * w_fgi_sentiment weights
      else if Py.le fgi_score 40 then score + 5 * w_fgi_sentiment weights
      else if Py.ge fgi_score 80 then score - 15 * w_fgi_sentiment weights
      else if Py.ge fgi_score 60 then score - 5 * w_fgi_sentiment weights
      else score
  | None => score
  end.

(** 7. Google Trends interest. *)
Definition score_google_trends (weights : Weights) (sentiment : Sentiment) (score : Q) : Q :=
  match google_trends_interest sentiment with
  | Some interest =>
      if Py.ge interest 70 then score + 10 * w_google_trends weights
      else if Py.ge interest 50 then score + 5 * w_google_trends weights
      else if Py.le interest 30 then score - 5 * w_google_trends weights
      else score
  | None => score
  end.

(** 8. Proximity of one reference asset to its all-time high. *)
Definition score_ath_proximity (weights : Weights)
    (current_price ath : option Q) (score : Q) : Q :=
  match current_price, ath with
  | Some current_price, Some ath =>
      if Py.gt ath 0 then
        let proximity := (current_price / ath) * 100 in
        if Py.ge proximity 98 then score + 10 * w_btc_eth_ath_proximity weights
        else if Py.ge proximity 90 then score + 5 * w_btc_eth_ath_proximity weights
        else score
      else score
  | _, _ => score
  end.

(** 9. BTC dominance. *)
Definition score_btc_dominance (weights : Weights) (macro_trends : MacroTrends) (score : Q) : Q :=
  match btc_dominance macro_trends with
  | Some btc_dominance =>
      if Py.lt btc_dominance 50 then score + 10 * w_btc_dominance weights
      else if Py.gt btc_dominance 60 then score - 10 * w_btc_dominance weights
      else score
  | None => score
  end.

Definition score_signal (cfg : Config.t) (data : IndicatorData) (sentiment : Sentiment)
    (macro_trends : MacroTrends) (historical_data : option DataFrame) : Q :=
  let score := 50 in
  let weights := SIGNAL_SCORING_WEIGHTS cfg in
  let score := score_rsi weights data score in
  let score := score_ema_crossover weights data score in
  let score := score_ema_price_position weights data score in
  let score := score_bollinger weights data score in
  let score := score_volume cfg data historical_data score in
  let score := score_fgi weights sentiment score in
  let score := score_google_trends weights sentiment score in
  let score :=
    score_ath_proximity weights (btc_current_price macro_trends) (btc_ath macro_trends) score in
  let score :=
    score_ath_proximity weights (eth_current_price macro_trends) (eth_ath macro_trends) score in
  let score := score_btc_dominance weights macro_trends score in
  Py.max 0 (Py.min 100 score).

(** The amount the RSI block adds to the running score. *)
Definition rsi_contribution (weights : Weights) (data : IndicatorData) : Q :=
  score_rsi weights data 0.

End SignalScoring.


(** ** signal_scoring.py: top detection and dip buy *)

Module Detectors.

(** Condition 1 of the top detector: RSI very overbought. *)
Definition is_rsi_overbought (data : IndicatorData) : bool :=
  match rsi data with
  | Some rsi => Py.gt rsi 80
  | None => false
  end.

(** Condition 2: price at least 50% above the 200-day EMA. *)
Definition is_above_ema200 (data : IndicatorData) : bool :=
  match price data, ema200 data with
  | Some price, Some ema200 =>
      if Py.gt ema200 0 then Py.ge (price / ema200) (150 # 100) else false
  | _, _ => false
  end.

(** Condition 3: parabolic move, with its factor. *)
Definition parabolic (data : IndicatorData) : bool * Q :=
  match price_change_7d_percent data, price_change_30d_percent data with
  | Some price_change_7d, Some price_change_30d =>
      if Py.gt price_change_7d 50 && Py.gt price_change_30d 100
      then (true, (price_change_7d + price_change_30d) / 200)
      else (false, 0)
  | _, _ => (false, 0)
  end.

Definition is_fgi_extreme_greed (sentiment : Sentiment) : bool :=
  match fgi_score sentiment with
  | Some fgi_score => Py.ge fgi_score 80
  | None => false
  end.

Definition check_for_top_detection (data : IndicatorData) (sentiment : Sentiment)
    : Py.result (bool * Q) :=
  let '(is_parabolic, parabolic_factor) := parabolic data in
  if is_rsi_overbought data && is_above_ema200 data && is_parabolic then
    (* the message printed on detection *)
    _ ← Py.format_float (rsi data);
    _ ← Py.truediv (price data) (ema200 data);
    _ ← Py.format_float (price_change_7d_percent data);
    _ ← Py.format_float (price_change_30d_percent data);
    if is_fgi_extreme_greed sentiment
    then Return (true, parabolic_factor)
    else Return (true, parabolic_factor)
  else Return (false, 0).

(** Condition 1 of the dip-buy detector: RSI oversold or near oversold. *)
Definition is_rsi_oversold (data : IndicatorData) : bool :=
  match rsi data with
  | Some rsi => Py.lt rsi 40
  | None => false
  end.

(** Condition 2: price within 5% of EMA20 or of EMA50, or below both. *)
Definition is_near_emas (data : IndicatorData) : bool :=
  match price data, ema20 data, ema50 data with
  | Some price, Some ema20, Some ema50 =>
      let is_near_emas :=
        if (Py.le price (ema20 * (105 # 100)) && Py.ge price (ema20 * (95 # 100)))
           || (Py.le price (ema50 * (105 # 100)) && Py.ge price (ema50 * (95 # 100)))
        then true else false in
      if Py.lt price ema20 && Py.lt price ema50 then true else is_near_emas
  | _, _, _ => false
  end.

(** Condition 3: price near the lower Bollinger band. *)
Definition is_near_bb_lower (data : IndicatorData) (bb_lower : option Q) : bool :=
  match price data, bb_lower with
  | Some price, Some bb_lower =>
      if Py.gt bb_lower 0 then Py.le price (bb_lower * (102 # 100)) else false
  | _, _ => false
  end.

(** Condition 4: recent negative price change, a dip and not a crash. *)
Definition is_recent_dip (data : IndicatorData) : bool :=
  match price_change_7d_percent data with
  | Some price_change_7d => Py.lt price_change_7d 0 && Py.gt price_change_7d (-20)
  | None => false
  end.

(** Condition 5: fearful market sentiment. *)
Definition is_fgi_fearful (sentiment : Sentiment) : bool :=
  match fgi_score sentiment with
  | Some fgi_score => Py.le fgi_score 40
  | None => false
  end.

Definition incr_if (b : bool) (n : nat) : nat := if b then (n + 1)%nat else n.

(** The counter [conditions_met] after the five tests. *)
Definition conditions_met (data : IndicatorData) (sentiment : Sentiment)
    (bb_lower : option Q) : nat :=
  let conditions_met := 0%nat in
  let conditions_met := incr_if (is_rsi_oversold data) conditions_met in
  let conditions_met := incr_if (is_near_emas data) conditions_met in
  let conditions_met := incr_if (is_near_bb_lower data bb_lower) conditions_met in
  let conditions_met := incr_if (is_recent_dip data) conditions_met in
  let conditions_met := incr_if (is_fgi_fearful sentiment) conditions_met in
  conditions_met.

(** [bb = data.get('bollinger_bands', {})] followed by [bb.get('lower')]:
    the default only covers a missing key, a key bound to [None] makes the
    second call raise. *)
Definition get_bb_lower (data : IndicatorData) : Py.result (option Q) :=
  match bollinger_bands data with
  | Py.KeyMissing => Return None
  | Py.IsNone => Raise Py.AttributeError
  | Py.Bound bb => Return (lower bb)
  end.

Definition check_for_dip_buy (data : IndicatorData) (sentiment : Sentiment)
    : Py.result bool :=
  bb_lower ← get_bb_lower data;
  if (3 <=? conditions_met data sentiment bb_lower)%nat then
    (* the message printed on detection *)
    _ ← Py.format_float (rsi data);
    _ ← Py.truediv (price data) (ema20 data);
    _ ← Py.format_float bb_lower;
    _ ← Py.format_float (price_change_7d_percent data);
    _ ← Py.format_float (fgi_score sentiment);
    Return true
  else Return false.

End Detectors.

(** ** state_manager.py *)

Module StateManager.

(** The two module-level dictionaries, keyed by coin id. *)
Record t : Type := {
  _last_observed_dynamic_ath : gmap string Q;
  _last_ema50_position : gmap string string
}.

Definition empty : t :=
  {| _last_observed_dynamic_ath := ∅; _last_ema50_position := ∅ |}.

Definition get_dynamic_ath (coin_id : string) (st : t) : option Q :=
  _last_observed_dynamic_ath st !! coin_id.

Definition set_dynamic_ath (coin_id : string) (price : Q) (st : t) : t :=
  {| _last_observed_dynamic_ath := <[coin_id := price]> (_last_observed_dynamic_ath st);
     _last_ema50_position := _last_ema50_position st |}.

Definition get_ema50_position (coin_id : string) (st : t) : option string :=
  _last_ema50_position st !! coin_id.

Definition set_ema50_position (coin_id : string) (position : string) (st : t) : t :=
  {| _last_observed_dynamic_ath := _last_observed_dynamic_ath st;
     _last_ema50_position := <[coin_id := position]> (_last_ema50_position st) |}.

End StateManager.

(** ** signal_scoring.py: the trailing stop *)

Module TrailingStop.
Import Config StateManager.

(** The returned tuple: triggered, type of trigger, relevant value. *)
Definition outcome : Type := bool * option string * Q.

Definition no_trigger : outcome := (false, None, 0).

(** [config.TRAILING_STOP_ALERTS.get(coin_id, {}).get('percent_drop_from_ath')] *)
Definition percent_drop_threshold (cfg : Config.t) (coin_id : string) : option Q :=
  match TRAILING_STOP_ALERTS cfg !! coin_id with
  | Some ts => percent_drop_from_ath ts
  | None => None
  end.

(** [config.TRAILING_STOP_ALERTS.get(coin_id, {}).get('close_below_50d_ema')],
    read for its truth value. *)
Definition close_below_ema_enabled (cfg : Config.t) (coin_id : string) : bool :=
  match TRAILING_STOP_ALERTS cfg !! coin_id with
  | Some ts => match close_below_50d_ema ts with Some b => b | None => false end
  | None => false
  end.

(** The percentage drop from the dynamic ATH.  [Some r] is the early
    [return] of the block, [None] falls through to the EMA block. *)
Definition ath_drop_check (cfg : Config.t) (coin_id : string) (price : Q)
    (st : StateManager.t) : option outcome * StateManager.t :=
  match percent_drop_threshold cfg coin_id with
  | Some percent_drop_threshold =>
      let '(current_dynamic_ath_for_coin, st) :=
        match get_dynamic_ath coin_id st with
        | None => (price, set_dynamic_ath coin_id price st)
        | Some ath => (ath, st)
        end in
      if Py.gt price current_dynamic_ath_for_coin then
        (None, set_dynamic_ath coin_id price st)
      else if Py.gt current_dynamic_ath_for_coin 0 then
        let current_drop_percent :=
          ((current_dynamic_ath_for_coin - price) / current_dynamic_ath_for_coin) * 100 in
        if Py.ge current_drop_percent percent_drop_threshold
        then (Some (true, Some "ATH_DROP", current_drop_percent), st)
        else (None, st)
      else (None, st)
  | None => (None, st)
  end.

Definition current_ema_position (price ema50 : Q) : string :=
  if Py.ge price ema50 then "above" else "below".

(** The close below the 50-day EMA. *)
Definition ema50_cross_check (cfg : Config.t) (coin_id : string) (price : Q)
    (ema50 : option Q) (st : StateManager.t) : outcome * StateManager.t :=
  match close_below_ema_enabled cfg coin_id, ema50 with
  | true, Some ema50 =>
      let current_ema_position := current_ema_position price ema50 in
      let previous_ema_position := get_ema50_position coin_id st in
      if bool_decide (previous_ema_position = Some "above")
         && bool_decide (current_ema_position = "below")
      then ((true, Some "CLOSE_BELOW_EMA50", ema50),
            set_ema50_position coin_id current_ema_position st)
      else (no_trigger, set_ema50_position coin_id current_ema_position st)
  | _, _ => (no_trigger, st)
  end.

Definition check_for_trailing_stop (cfg : Config.t) (coin_id : string)
    (data : IndicatorData) (global_ath : option Q) (st : StateManager.t)
    : outcome * StateManager.t :=
  match price data with
  | None => (no_trigger, st)
  | Some price =>
      match ath_drop_check cfg coin_id price st with
      | (Some triggered, st) => (triggered, st)
      | (None, st) => ema50_cross_check cfg coin_id price (ema50 data) st
      end
  end.

(** One call: the coin, its [data] dictionary and its historical ATH. *)
Definition call : Type := string * IndicatorData * option Q.

(** Successive calls within one lifetime of the state: the outcome of each
    call and the state it leaves. *)
Fixpoint run (cfg : Config.t) (calls : list call) (st : StateManager.t)
    : list (outcome * StateManager.t) :=
  match calls with
  | [] => []
  | (coin_id, data, global_ath) :: rest =>
      let r := check_for_trailing_stop cfg coin_id data global_ath st in
      r :: run cfg rest (snd r)
  end.

End TrailingStop.

(** ** discord_alert.py *)

Module DiscordAlert.
Import Config.

(** Keys of [last_trailing_stop_alert_times]: the bare coin id, or the
    pair of the coin id and a tag.  The tag [f"ATH_DROP_{drop_percent}"]
    spells the value of the drop, which is kept as a canonical rational. *)
Inductive ts_tag : Type :=
| ATH_DROP_ (drop_percent : Qc)
| CLOSE_BELOW_EMA50.

Inductive ts_key : Type :=
| Coin (coin_id : string)
| Tagged (coin_id : string) (tag : ts_tag).

#[global] Instance ts_tag_eq_dec : EqDecision ts_tag.
Proof. solve_decision. Defined.

#[global] Instance ts_key_eq_dec : EqDecision ts_key.
Proof. solve_decision. Defined.

#[global] Instance ts_tag_countable : Countable ts_tag.
Proof.
  refine (inj_countable'
    (fun t => match t with ATH_DROP_ q => Some q | CLOSE_BELOW_EMA50 => None end)
    (fun o => match o with Some q => ATH_DROP_ q | None => CLOSE_BELOW_EMA50 end) _).
  intros []; reflexivity.
Defined.

#[global] Instance ts_key_countable : Countable ts_key.
Proof.
  refine (inj_countable'
    (fun k => match k with Coin c => inl c | Tagged c t => inr (c, t) end)
    (fun s => match s with inl c => Coin c | inr (c, t) => Tagged c t end) _).
  intros []; reflexivity.
Defined.

(** What reaches the webhook: the embed, without its formatted text. *)
Record Embed : Type := {
  title : string;
  about : string;
  color : Z
}.

(** The six module-level cooldown dictionaries, and the messages the
    webhook has accepted so far. *)
Record t : Type := {
  last_signal_alert_times : gmap string Z;
  last_price_alert_times : gmap string Z;
  last_top_detection_alert_times : gmap string Z;
  last_dip_buy_alert_times : gmap string Z;
  last_profit_taking_alert_times : gmap (string * Qc) Z;
  last_trailing_stop_alert_times : gmap ts_key Z;
  posted : list Embed
}.

Definition empty : t := {|
  last_signal_alert_times := ∅;
  last_price_alert_times := ∅;
  last_top_detection_alert_times := ∅;
  last_dip_buy_alert_times := ∅;
  last_profit_taking_alert_times := ∅;
  last_trailing_stop_alert_times := ∅;
  posted := []
|}.

(** [(current_time - last).total_seconds() / 3600] *)
Definition hours_since (current_time last : Z) : Q :=
  inject_Z (current_time - last) / 1000000 / 3600.

(** The cooldown test every sender starts with:
    [if key in ledger: ... if time_since_last_alert < cooldown_hours: return False] *)
Definition on_cooldown `{Countable K} (ledger : gmap K Z) (key : K)
    (current_time : Z) (cooldown_hours : Q) : bool :=
  match ledger !! key with
  | Some last => Py.lt (hours_since current_time last) cooldown_hours
  | None => false
  end.

(** [_send_discord_message]: [post_ok] tells whether [requests.post] and
    [raise_for_status] went through without a [RequestException]. *)
Definition _send_discord_message (post_ok : bool) (embed : Embed)
    (webhook_url : string) (w : t) : bool * t :=
  if bool_decide (webhook_url = EmptyString)
     || bool_decide (webhook_url = "YOUR_DISCORD_WEBHOOK_URL_HERE")
  then (false, w)
  else if post_ok then
    (true, {| last_signal_alert_times := last_signal_alert_times w;
              last_price_alert_times := last_price_alert_times w;
              last_top_detection_alert_times := last_top_detection_alert_times w;
              last_dip_buy_alert_times := last_dip_buy_alert_times w;
              last_profit_taking_alert_times := last_profit_taking_alert_times w;
              last_trailing_stop_alert_times := last_trailing_stop_alert_times w;
              posted := posted w ++ [embed] |})
  else (false, w).

Definition set_signal (f : gmap string Z -> gmap string Z) (w : t) : t :=
  {| last_signal_alert_times := f (last_signal_alert_times w);
     last_price_alert_times := last_price_alert_times w;
     last_top_detection_alert_times := last_top_detection_alert_times w;
     last_dip_buy_alert_times := last_dip_buy_alert_times w;
     last_profit_taking_alert_times := last_profit_taking_alert_times w;
     last_trailing_stop_alert_times := last_trailing_stop_alert_times w;
     posted := posted w |}.

Definition set_price (f : gmap string Z -> gmap string Z) (w : t) : t :=
  {| last_signal_alert_times := last_signal_alert_times w;
     last_price_alert_times := f (last_price_alert_times w);
     last_top_detection_alert_times := last_top_detection_alert_times w;
     last_dip_buy_alert_times := last_dip_buy_alert_times w;
     last_profit_taking_alert_times := last_profit_taking_alert_times w;
     last_trailing_stop_alert_times := last_trailing_stop_alert_times w;
     posted := posted w |}.

Definition set_top_detection (f : gmap string Z -> gmap string Z) (w : t) : t :=
  {| last_signal_alert_times := last_signal_alert_times w;
     last_price_alert_times := last_price_alert_times w;
     last_top_detection_alert_times := f (last_top_detection_alert_times w);
     last_dip_buy_alert_times := last_dip_buy_alert_times w;
     last_profit_taking_alert_times := last_profit_taking_alert_times w;
     last_trailing_stop_alert_times := last_trailing_stop_alert_times w;
     posted := posted w |}.

Definition set_dip_buy (f : gmap string Z -> gmap string Z) (w : t) : t :=
  {| last_signal_alert_times := last_signal_alert_times w;
     last_price_alert_times := last_price_alert_times w;
     last_top_detection_alert_times := last_top_detection_alert_times w;
     last_dip_buy_alert_times := f (last_dip_buy_alert_times w);
     last_profit_taking_alert_times := last_profit_taking_alert_times w;
     last_trailing_stop_alert_times := last_trailing_stop_alert_times w;
     posted := posted w |}.

Definition set_profit_taking
    (f : gmap (string * Qc) Z -> gmap (string * Qc) Z) (w : t) : t :=
  {| last_signal_alert_times := last_signal_alert_times w;
     last_price_alert_times := last_price_alert_times w;
     last_top_detection_alert_times := last_top_detection_alert_times w;
     last_dip_buy_alert_times := last_dip_buy_alert_times w;
     last_profit_taking_alert_times := f (last_profit_taking_alert_times w);
     last_trailing_stop_alert_times := last_trailing_stop_alert_times w;
     posted := posted w |}.

Definition set_trailing_stop (f : gmap ts_key Z -> gmap ts_key Z) (w : t) : t :=
  {| last_signal_alert_times := last_signal_alert_times w;
     last_price_alert_times := last_price_alert_times w;
     last_top_detection_alert_times := last_top_detection_alert_times w;
     last_dip_buy_alert_times := last_dip_buy_alert_times w;
     last_profit_taking_alert_times := last_profit_taking_alert_times w;
     last_trailing_stop_alert_times := f (last_trailing_stop_alert_times w);
     posted := posted w |}.

(** The [details] dictionary passed with a signal alert. *)
Record Details : Type := {
  details_data : IndicatorData;
  details_sentiment : Sentiment
}.

(** Building the fields of the signal alert: the Bollinger fields are the
    only ones formatted without a test for [None]. *)
Definition signal_fields (details : Details) : Py.result unit :=
  bb ← match bollinger_bands (details_data details) with
       | Py.KeyMissing => Return None
       | Py.IsNone => Raise Py.AttributeError
       | Py.Bound bb => Return (Some bb)
       end;
  match bb with
  | Some bb =>
      match upper bb with
      | Some _ =>
          _ ← Py.format_float (upper bb);
          _ ← Py.format_float (middle bb);
          Py.format_float (lower bb)
      | None => Return tt
      end
  | None => Return tt
  end.

Definition send_discord_alert (cfg : Config.t) (current_time : Z) (post_ok : bool)
    (coin_id : string) (score : Q) (details : Details) (w : t) : Py.result bool * t :=
  let cooldown_hours := ALERT_COOLDOWN_HOURS cfg in
  if on_cooldown (last_signal_alert_times w) coin_id current_time cooldown_hours
  then (Return false, w)
  else if Py.lt score (ALERT_SCORE_THRESHOLD cfg) then (Return false, w)
  else
    match signal_fields details with
    | Py.Raise e => (Raise e, w)
    | Py.Return _ =>
        let embed := {| title := "Crypto Signal Alert"; about := coin_id; color := 16763904 |} in
        match _send_discord_message post_ok embed (DISCORD_WEBHOOK_URL cfg) w with
        | (true, w) => (Return true, set_signal <[coin_id := current_time]> w)
        | (false, w) => (Return false, w)
        end
    end.

Definition check_price_alerts (cfg : Config.t) (current_time : Z) (post_ok : bool)
    (coin_id : string) (current_price : Q) (w : t) : bool * t :=
  match PRICE_ALERTS cfg !! coin_id with
  | None => (false, w)
  | Some price_targets =>
      let cooldown_hours := PRICE_ALERT_COOLDOWN_HOURS cfg in
      if on_cooldown (last_price_alert_times w) coin_id current_time cooldown_hours
      then (false, w)
      else
        let at_or_below_buy :=
          match buy price_targets with
          | Some buy_target => Py.le current_price buy_target
          | None => false
          end in
        let at_or_above_sell :=
          match sell price_targets with
          | Some sell_target => Py.ge current_price sell_target
          | None => false
          end in
        let alert_type :=
          if at_or_below_buy then Some "BUY"
          else if at_or_above_sell then Some "SELL"
          else None in
        match alert_type with
        | Some alert_type =>
            let embed :=
              {| title := "Price Alert"; about := coin_id;
                 color := if bool_decide (alert_type = "BUY") then 3447003 else 15158332 |} in
            match _send_discord_message post_ok embed (DISCORD_WEBHOOK_URL cfg) w with
            | (true, w) => (true, set_price <[coin_id := current_time]> w)
            | (false, w) => (false, w)
            end
        | None => (false, w)
        end
  end.

Definition send_top_detection_alert (cfg : Config.t) (current_time : Z) (post_ok : bool)
    (coin_id : string) (price : Q) (rsi ema200 : option Q) (parabolic_factor : Q)
    (w : t) : Py.result bool * t :=
  let cooldown_hours := ALERT_COOLDOWN_HOURS cfg in
  if on_cooldown (last_top_detection_alert_times w) coin_id current_time cooldown_hours
  then (Return false, w)
  else
    match _ ← Py.format_float rsi; Py.format_float ema200 with
    | Py.Raise e => (Raise e, w)
    | Py.Return _ =>
        let embed := {| title := "Top Detection Alert"; about := coin_id; color := 16711680 |} in
        match _send_discord_message post_ok embed (DISCORD_WEBHOOK_URL cfg) w with
        | (true, w) => (Return true, set_top_detection <[coin_id := current_time]> w)
        | (false, w) => (Return false, w)
        end
    end.

Definition send_dip_buy_alert (cfg : Config.t) (current_time : Z) (post_ok : bool)
    (coin_id : string) (price : Q) (rsi ema20 bb_lower price_change_7d : option Q)
    (w : t) : Py.result bool * t :=
  let cooldown_hours := ALERT_COOLDOWN_HOURS cfg in
  if on_cooldown (last_dip_buy_alert_times w) coin_id current_time cooldown_hours
  then (Return false, w)
  else
    match _ ← Py.format_float rsi; Py.format_float ema20 with
    | Py.Raise e => (Raise e, w)
    | Py.Return _ =>
        let embed := {| title := "Dip Buy Alert"; about := coin_id; color := 3066993 |} in
        match _send_discord_message post_ok embed (DISCORD_WEBHOOK_URL cfg) w with
        | (true, w) => (Return true, set_dip_buy <[coin_id := current_time]> w)
        | (false, w) => (Return false, w)
        end
    end.

Definition send_profit_taking_alert (cfg : Config.t) (current_time : Z) (post_ok : bool)
    (coin_id : string) (current_price target_price sell_percentage
     current_holdings_quantity : Q) (w : t) : bool * t :=
  let cooldown_hours := PROFIT_TAKING_ALERT_COOLDOWN_HOURS cfg in
  let alert_key := (coin_id, Q2Qc target_price) in
  if on_cooldown (last_profit_taking_alert_times w) alert_key current_time cooldown_hours
  then (false, w)
  else
    let embed := {| title := "Profit-Taking Alert"; about := coin_id; color := 16744448 |} in
    match _send_discord_message post_ok embed (DISCORD_WEBHOOK_URL cfg) w with
    | (true, w) => (true, set_profit_taking <[alert_key := current_time]> w)
    | (false, w) => (false, w)
    end.

(** The key under which a trailing-stop alert cools down. *)
Definition trailing_stop_key (coin_id : string) (drop_percent : option Q)
    (close_below_ema : bool) : ts_key :=
  match drop_percent with
  | Some drop_percent => Tagged coin_id (ATH_DROP_ (Q2Qc drop_percent))
  | None => if close_below_ema then Tagged coin_id CLOSE_BELOW_EMA50 else Coin coin_id
  end.

Definition send_trailing_stop_alert (cfg : Config.t) (current_time : Z) (post_ok : bool)
    (coin_id : string) (price : Q) (ath drop_percent ema50 : option Q)
    (close_below_ema : bool) (w : t) : bool * t :=
  let cooldown_hours := TRAILING_STOP_ALERT_COOLDOWN_HOURS cfg in
  let alert_key := trailing_stop_key coin_id drop_percent close_below_ema in
  if on_cooldown (last_trailing_stop_alert_times w) alert_key current_time cooldown_hours
  then (false, w)
  else
    let embed := {| title := "Trailing Stop Alert"; about := coin_id; color := 10038562 |} in
    match _send_discord_message post_ok embed (DISCORD_WEBHOOK_URL cfg) w with
    | (true, w) => (true, set_trailing_stop <[alert_key := current_time]> w)
    | (false, w) => (false, w)
    end.

(** The webhook accepted one more message. *)
Definition dispatched (w w' : t) : Prop :=
  exists embed, posted w' = (posted w ++ [embed])%list.

(** Whether a sender answered [True]. *)
Definition returned_true (r : Py.result bool) : bool :=
  match r with
  | Py.Return b => b
  | Py.Raise _ => false
  end.

(** The discipline of a cooldown dictionary across one call of a sender that
    answered [sent]: on [True] the webhook accepted a message, the cooldown
    test had passed and the entry of [key] is the current time; otherwise
    nothing changed at all.  A failed cooldown test and a refused message both
    end in [False]. *)
Definition ledger_discipline `{Countable K} (ledger : t -> gmap K Z) (key : K)
    (current_time : Z) (cooldown_hours : Q) (post_ok sent : bool) (w w' : t) : Prop :=
  (if sent
   then dispatched w w'
        /\ ledger w' = <[key := current_time]> (ledger w)
        /\ on_cooldown (ledger w) key current_time cooldown_hours = false
        /\ post_ok = true
   else w' = w)
  /\ (on_cooldown (ledger w) key current_time cooldown_hours = true -> sent = false)
  /\ (post_ok = false -> sent = false).

End DiscordAlert.

(** ** main.py: the trailing-stop step of the analysis loop *)

Module Main.
Import Config.

(** One pass of the loop over a coin: what the clock shows, whether the
    webhook accepts a message, and the fetched data. *)
Record Cycle : Type := {
  at_time : Z;
  post_ok : bool;
  coin_data : IndicatorData
}.

(** Step 5 of [run_signal_analysis_loop] for one coin: the detector, then
    the sender chosen by the type of trigger.  Returns
    [trailing_stop_alert_sent_for_this_run]. *)
Definition trailing_stop_step (cfg : Config.t) (coin : string) (c : Cycle)
    (coin_ath_historical : option Q) (s : StateManager.t * DiscordAlert.t)
    : bool * (StateManager.t * DiscordAlert.t) :=
  let '(st, w) := s in
  match price (coin_data c) with
  | None => (false, (st, w))
  | Some current_price =>
      let '((is_trailing_stop, stop_type, value), st) :=
        TrailingStop.check_for_trailing_stop cfg coin (coin_data c) coin_ath_historical st in
      if is_trailing_stop then
        if bool_decide (stop_type = Some "ATH_DROP") then
          let '(sent, w) :=
            DiscordAlert.send_trailing_stop_alert cfg (at_time c) (post_ok c) coin
              current_price coin_ath_historical (Some value) None false w in
          (sent, (st, w))
        else if bool_decide (stop_type = Some "CLOSE_BELOW_EMA50") then
          let '(sent, w) :=
            DiscordAlert.send_trailing_stop_alert cfg (at_time c) (post_ok c) coin
              current_price None None (Some value) true w in
          (sent, (st, w))
        else (false, (st, w))
      else (false, (st, w))
  end.

(** Successive passes for one coin. *)
Fixpoint trailing_stop_run (cfg : Config.t) (coin : string) (cycles : list Cycle)
    (coin_ath_historical : option Q) (s : StateManager.t * DiscordAlert.t)
    : list bool * (StateManager.t * DiscordAlert.t) :=
  match cycles with
  | [] => ([], s)
  | c :: rest =>
      let '(sent, s) := trailing_stop_step cfg coin c coin_ath_historical s in
      let '(sents, s) := trailing_stop_run cfg coin rest coin_ath_historical s in
      (sent :: sents, s)
  end.

End Main.

(** ** Inputs named in the statements *)

Module Inputs.

(** Every optional field of the three input dictionaries is absent. *)
Definition no_bands (bb : Py.entry BollingerBands) : Prop :=
  match bb with
  | Py.Bound bb => upper bb = None /\ middle bb = None /\ lower bb = None
  | _ => True
  end.

Definition all_absent (data : IndicatorData) (sentiment : Sentiment)
    (macro_trends : MacroTrends) : Prop :=
  price data = None /\ volume data = None /\ rsi data = None /\
  ema20 data = None /\ ema50 data = None /\ ema200 data = None /\
  no_bands (bollinger_bands data) /\
  price_change_7d_percent data = None /\ price_change_30d_percent data = None /\
  fgi_score sentiment = None /\ google_trends_interest sentiment = None /\
  btc_current_price macro_trends = None /\ btc_ath macro_trends = None /\
  eth_current_price macro_trends = None /\ eth_ath macro_trends = None /\
  btc_dominance macro_trends = None.

(** The dictionaries [fetch_data] and [analyze_sentiment] return when
    every fetch failed, and a macro dictionary without values. *)
Definition empty_data : IndicatorData := {|
  price := None; volume := None; rsi := None;
  ema20 := None; ema50 := None; ema200 := None;
  bollinger_bands := Py.Bound {| upper := None; middle := None; lower := None |};
  price_change_7d_percent := None; price_change_30d_percent := None
|}.

Definition empty_sentiment : Sentiment :=
  {| fgi_score := None; fgi_category := Some "Error"; google_trends_interest := None |}.

Definition empty_macro : MacroTrends := {|
  btc_current_price := None; btc_ath := None;
  eth_current_price := None; eth_ath := None; btc_dominance := None
|}.

(** [sample_data_top] and [sample_sentiment_top] of signal_scoring.py. *)
Definition sample_data_top : IndicatorData := {|
  price := Some 250; volume := Some 5000000000; rsi := Some 88;
  ema20 := Some 220; ema50 := Some 180; ema200 := Some 100;
  bollinger_bands := Py.Bound {| upper := Some 240; middle := Some 200; lower := Some 160 |};
  price_change_7d_percent := Some 60; price_change_30d_percent := Some 120
|}.

Definition sample_sentiment_top : Sentiment :=
  {| fgi_score := Some 85; fgi_category := Some "Extreme Greed";
     google_trends_interest := Some 90 |}.

(** The firing condition of the top detector in the words of the
    specification: RSI above 80, price at least 1.5 times EMA200, 7-sample
    change above 50 and 30-sample change above 100. *)
Definition top_condition_as_stated (data : IndicatorData) : bool :=
  match rsi data, price data, ema200 data,
        price_change_7d_percent data, price_change_30d_percent data with
  | Some rsi, Some price, Some ema200, Some change_7d, Some change_30d =>
      Py.gt rsi 80 && Py.ge price ((150 # 100) * ema200)
      && Py.gt change_7d 50 && Py.gt change_30d 100
  | _, _, _, _, _ => false
  end.

(** An overbought, parabolic asset whose 200-day average is zero. *)
Definition flat_ema200_data : IndicatorData := {|
  price := Some 10; volume := None; rsi := Some 88;
  ema20 := None; ema50 := None; ema200 := Some 0;
  bollinger_bands := Py.KeyMissing;
  price_change_7d_percent := Some 60; price_change_30d_percent := Some 120
|}.

(** An RSI of 30 and nothing else. *)
Definition rsi_30_data : IndicatorData := {|
  price := None; volume := None; rsi := Some 30;
  ema20 := None; ema50 := None; ema200 := None;
  bollinger_bands := Py.KeyMissing;
  price_change_7d_percent := None; price_change_30d_percent := None
|}.

(** [sample_data_dip] of signal_scoring.py with a 7-day fall of 25%, and
    the sentiment dictionary of a cycle whose fear-and-greed fetch failed. *)
Definition crash_data_dip : IndicatorData := {|
  price := Some 120; volume := Some 800000000; rsi := Some 32;
  ema20 := Some 125; ema50 := Some 130; ema200 := Some 150;
  bollinger_bands := Py.Bound {| upper := Some 140; middle := Some 130; lower := Some 122 |};
  price_change_7d_percent := Some (-25); price_change_30d_percent := Some (-25)
|}.

Definition failed_fgi_sentiment : Sentiment :=
  {| fgi_score := None; fgi_category := Some "Error"; google_trends_interest := Some 50 |}.

(** A [data] dictionary that holds a price and, possibly, an EMA50. *)
Definition observed (price : Q) (ema50 : option Q) : IndicatorData := {|
  price := Some price; volume := None; rsi := None;
  ema20 := None; ema50 := ema50; ema200 := None;
  bollinger_bands := Py.KeyMissing;
  price_change_7d_percent := None; price_change_30d_percent := None
|}.

(** The same coin observed at successive prices. *)
Definition observations (coin_id : string) (prices : list Q) : list TrailingStop.call :=
  map (fun price => (coin_id, observed price None, None)) prices.

(** The order on stored highs: once a high is stored it stays stored and
    does not decrease. *)
Definition ath_le (before after : option Q) : Prop :=
  match before, after with
  | Some a, Some a' => a <= a'
  | Some _, None => False
  | None, _ => True
  end.

Fixpoint nondecreasing_ath (coin_id : string) (st : StateManager.t)
    (later : list StateManager.t) : Prop :=
  match later with
  | [] => True
  | st' :: rest =>
      ath_le (StateManager.get_dynamic_ath coin_id st)
             (StateManager.get_dynamic_ath coin_id st')
      /\ nondecreasing_ath coin_id st' rest
  end.

(** What a write to the dynamic ATH looks like: the stored value becomes the
    observed price, and there was no stored value or a strictly lower one. *)
Definition written_upward (c coin : string) (p : Q) (st st' : StateManager.t) : Prop :=
  c = coin /\ StateManager.get_dynamic_ath c st' = Some p
  /\ match StateManager.get_dynamic_ath c st with Some a => a < p | None => True end.

(** Solana after a high of 270 while the price was above its EMA50. *)
Definition solana_at_270_above : StateManager.t :=
  StateManager.set_ema50_position "solana" "above"
    (StateManager.set_dynamic_ath "solana" 270 StateManager.empty).

(** [MockConfigForTS] of signal_scoring.py: a 25% drop threshold for
    solana without the EMA50 test, the EMA50 test alone for chainlink. *)
Definition mock_config_for_ts : Config.t := {|
  Config.DISCORD_WEBHOOK_URL := Config.DISCORD_WEBHOOK_URL Config.default;
  Config.ALERT_SCORE_THRESHOLD := Config.ALERT_SCORE_THRESHOLD Config.default;
  Config.ALERT_COOLDOWN_HOURS := Config.ALERT_COOLDOWN_HOURS Config.default;
  Config.SIGNAL_SCORING_WEIGHTS := Config.SIGNAL_SCORING_WEIGHTS Config.default;
  Config.VOLUME_SPIKE_MULTIPLIER := Config.VOLUME_SPIKE_MULTIPLIER Config.default;
  Config.PRICE_ALERTS := Config.PRICE_ALERTS Config.default;
  Config.PRICE_ALERT_COOLDOWN_HOURS := Config.PRICE_ALERT_COOLDOWN_HOURS Config.default;
  Config.PROFIT_TAKING_ALERT_COOLDOWN_HOURS :=
    Config.PROFIT_TAKING_ALERT_COOLDOWN_HOURS Config.default;
  Config.TRAILING_STOP_ALERTS :=
    <["solana" := {| Config.percent_drop_from_ath := Some 25;
                     Config.close_below_50d_ema := Some false |}]>
    (<["chainlink" := {| Config.percent_drop_from_ath := None;
                         Config.close_below_50d_ema := Some true |}]> ∅);
  Config.TRAILING_STOP_ALERT_COOLDOWN_HOURS :=
    Config.TRAILING_STOP_ALERT_COOLDOWN_HOURS Config.default
|}.

(** Solana with a stored dynamic ATH of 270. *)
Definition solana_at_270 : StateManager.t :=
  StateManager.set_dynamic_ath "solana" 270 StateManager.empty.

(** Hours on the clock, in microseconds. *)
Definition hours (h : Z) : Z := (h * 3600 * 1000000)%Z.
Definition minutes (m : Z) : Z := (m * 60 * 1000000)%Z.

(** Four passes of the analysis loop, six hours apart ([RUN_EVERY_HOURS]),
    at the prices 270, 260, 200 and 195, the webhook accepting every
    message. *)
Definition falling_cycles : list Main.Cycle :=
  [ {| Main.at_time := hours 0; Main.post_ok := true; Main.coin_data := observed 270 None |};
    {| Main.at_time := hours 6; Main.post_ok := true; Main.coin_data := observed 260 None |};
    {| Main.at_time := hours 12; Main.post_ok := true; Main.coin_data := observed 200 None |};
    {| Main.at_time := hours 18; Main.post_ok := true; Main.coin_data := observed 195 None |} ].

(** [sample_details_high] of discord_alert.py. *)
Definition sample_details_high : DiscordAlert.Details := {|
  DiscordAlert.details_data := {|
    price := Some (15025 # 100); volume := Some 2500000000; rsi := Some 28;
    ema20 := Some 148; ema50 := Some 140; ema200 := None;
    bollinger_bands :=
      Py.Bound {| upper := Some 160; middle := Some 145; lower := Some 130 |};
    price_change_7d_percent := None; price_change_30d_percent := None |};
  DiscordAlert.details_sentiment :=
    {| fgi_score := Some 20; fgi_category := Some "Extreme Fear";
       google_trends_interest := Some 75 |}
|}.


End Inputs.

(** ** data_fetcher.py: [fetch_data] on a fetched frame *)

Module Fetch.
Import DataFetcher.

(** The rows of the data frame [_get_coingecko_data] returns, oldest
    first: price and volume.  The empty list is the empty frame. *)
Definition frame : Type := list (Q * Q).

(** [series.iloc[-n]] for [n] within the length. *)
Definition iloc_neg (n : nat) (xs : list Q) : option Q :=
  nth_error xs (length xs - n).

(** The percent change against the sample [n] places from the end, when
    there are that many samples and that sample is positive. *)
Definition price_change_percent (n : nat) (prices : list Q) (latest_price : Q)
    : option Q :=
  if (n <=? length prices)%nat then
    match iloc_neg n prices with
    | Some price_ago =>
        if Py.gt price_ago 0
        then Some (((latest_price - price_ago) / price_ago) * 100)
        else None
    | None => None
    end
  else None.

(** A band value as it is stored in the dictionary.  [fetch_data] asks for
    a window of 20, for which no band is NaN. *)
Definition number (x : Py.float) : option Q :=
  match x with
  | Py.Num q => Some q
  | Py.NaN => None
  end.

Definition bands_entry (bb : option Bands) : Py.entry BollingerBands :=
  match bb with
  | None => Py.IsNone
  | Some bb =>
      Py.Bound {| upper := number (band_upper bb);
                  middle := number (band_middle bb);
                  lower := number (band_lower bb) |}
  end.

(** The dictionary returned for an empty frame. *)
Definition default_values : IndicatorData := {|
  price := None; volume := None; rsi := None;
  ema20 := None; ema50 := None; ema200 := None;
  bollinger_bands := Py.Bound {| upper := None; middle := None; lower := None |};
  price_change_7d_percent := None; price_change_30d_percent := None
|}.

(** [fetch_data] from the frame on; [sqrt] is the square root used by the
    rolling standard deviation. *)
Definition fetch_data (sqrt : Q -> Q) (df : frame) : Py.result IndicatorData :=
  match df with
  | [] => Return default_values
  | _ =>
      let prices := map fst df in
      let latest_price := last prices 0 in
      let latest_volume := last (map snd df) 0 in
      rsi ← _calculate_rsi prices 14;
      ema20 ← _calculate_ema prices 20;
      ema50 ← _calculate_ema prices 50;
      ema200 ← _calculate_ema prices 200;
      bollinger_bands ← _calculate_bollinger_bands sqrt prices 20 2;
      Return {|
        price := Some latest_price;
        volume := Some latest_volume;
        rsi := rsi;
        ema20 := ema20;
        ema50 := ema50;
        ema200 := ema200;
        bollinger_bands := bands_entry bollinger_bands;
        price_change_7d_percent := price_change_percent 7 prices latest_price;
        price_change_30d_percent := price_change_percent 30 prices latest_price
      |}
  end.

End Fetch.

(** ** The reach of the score *)

Module ScoreRange.
Import Config.

Definition nonneg_weights (w : Weights) : Prop :=
  0 <= w_rsi w /\ 0 <= w_ema_crossover w /\ 0 <= w_ema_price_position w
  /\ 0 <= w_bollinger_bands w /\ 0 <= w_volume_spike w /\ 0 <= w_fgi_sentiment w
  /\ 0 <= w_google_trends w /\ 0 <= w_btc_eth_ath_proximity w /\ 0 <= w_btc_dominance w.

(** The most the nine factors can add to the neutral 50. *)
Definition max_gain (w : Weights) : Q :=
  100 * w_rsi w + 15 * w_ema_crossover w + 10 * w_ema_price_position w
  + 15 * w_bollinger_bands w + 10 * w_volume_spike w + 15 * w_fgi_sentiment w
  + 10 * w_google_trends w + 20 * w_btc_eth_ath_proximity w + 10 * w_btc_dominance w.

(** The most they can take away from it. *)
Definition max_loss (w : Weights) : Q :=
  100 * w_rsi w + 15 * w_ema_crossover w + 10 * w_ema_price_position w
  + 15 * w_bollinger_bands w + 15 * w_fgi_sentiment w
  + 5 * w_google_trends w + 10 * w_btc_dominance w.

(** The RSI, when present, is a percentage. *)
Definition rsi_in_range (data : IndicatorData) : Prop :=
  forall r, rsi data = Some r -> 0 <= r <= 100.

End ScoreRange.

(** ** The alert categories *)

Module Categories.
Import DiscordAlert.

(** One category for each cooldown dictionary of discord_alert.py. *)
Inductive category : Type :=
| Signal | Price | TopDetection | DipBuy | ProfitTaking | TrailingStop.

(** Every cooldown dictionary but the one of [c] is the same in [w] and
    [w']. *)
Definition others_untouched (c : category) (w w' : t) : Prop :=
  (c <> Signal -> last_signal_alert_times w' = last_signal_alert_times w)
  /\ (c <> Price -> last_price_alert_times w' = last_price_alert_times w)
  /\ (c <> TopDetection ->
      last_top_detection_alert_times w' = last_top_detection_alert_times w)
  /\ (c <> DipBuy -> last_dip_buy_alert_times w' = last_dip_buy_alert_times w)
  /\ (c <> ProfitTaking ->
      last_profit_taking_alert_times w' = last_profit_taking_alert_times w)
  /\ (c <> TrailingStop ->
      last_trailing_stop_alert_times w' = last_trailing_stop_alert_times w).

(** The webhook address is missing or still the placeholder. *)
Definition unconfigured (webhook_url : string) : Prop :=
  webhook_url = EmptyString \/ webhook_url = "YOUR_DISCORD_WEBHOOK_URL_HERE".

End Categories.

(** ** The reference high of the trailing stop *)

Module Reference.
Import StateManager.

(** The high the drop is measured from: the stored dynamic ATH, or the
    observed price when none is stored yet. *)
Definition reference_high (coin_id : string) (price : Q) (st : StateManager.t) : Q :=
  match get_dynamic_ath coin_id st with
  | Some ath => ath
  | None => price
  end.

(** The drop of [price] below [high], in percent. *)
Definition drop_percent (high price : Q) : Q := ((high - price) / high) * 100.

End Reference.

(** ** config.py: the settings of the portfolio, the summary and the targets *)

Module Settings.

(** One entry of a list of [PROFIT_TAKING_ALERTS]. *)
Record ProfitTarget : Type := {
  target_price : option Q;
  sell_percentage : option Q
}.

Record Thresholds : Type := {
  total_portfolio_percent_change : option Q;
  individual_coin_percent_change : option Q
}.

(** [PORTFOLIO_HOLDINGS] keeps the order in which its coins are written;
    the quantity is [None] when an entry has no ['quantity'] key.
    [SUMMARY_REPORT_TIME] is the hour and the minute of the string, or [None]
    when the report is switched off. *)
Record t : Type := {
  TRACKED_COINS : list string;
  PORTFOLIO_HOLDINGS : list (string * option Q);
  PORTFOLIO_ALERT_THRESHOLDS : Thresholds;
  PORTFOLIO_ALERT_COOLDOWN_HOURS : Q;
  SUMMARY_REPORT_TIME : option (Z * Z);
  PROFIT_TAKING_ALERTS : gmap string (list ProfitTarget)
}.

Definition target (price percentage : Q) : ProfitTarget :=
  {| target_price := Some price; sell_percentage := Some percentage |}.

(** The values written in config.py. *)
Definition default : t := {|
  TRACKED_COINS := ["solana"; "chainlink"; "sui"; "sei-network"];
  PORTFOLIO_HOLDINGS :=
    [("solana", Some (5812885241 # 100000000));
     ("chainlink", Some (44313286966 # 100000000));
     ("sui", Some (57598751 # 100000));
     ("sei-network", Some (716887 # 100))];
  PORTFOLIO_ALERT_THRESHOLDS :=
    {| total_portfolio_percent_change := Some 10;
       individual_coin_percent_change := Some 10 |};
  PORTFOLIO_ALERT_COOLDOWN_HOURS := 12;
  SUMMARY_REPORT_TIME := Some (22, 0)%Z;
  PROFIT_TAKING_ALERTS :=
    <["solana" := [target 295 20; target 340 30; target 445 20]]>
    (<["chainlink" := [target 27 20; target 47 30; target 75 20]]>
    (<["sui" := [target (48 # 10) 20; target (98 # 10) 30; target (195 # 10) 20]]>
    (<["sei-network" :=
        [target (95 # 100) 20; target (195 # 100) 30; target (395 # 100) 20]]> ∅)))
|}.

(** [config.PORTFOLIO_HOLDINGS.get(coin, {}).get('quantity', 0.0)] *)
Fixpoint quantity_of (holdings : list (string * option Q)) (coin : string) : Q :=
  match holdings with
  | [] => 0
  | (c, quantity) :: rest =>
      if bool_decide (c = coin)
      then match quantity with Some q => q | None => 0 end
      else quantity_of rest coin
  end.

End Settings.

(** ** main.py: one coin in one pass of the analysis loop *)

Module Analysis.
Import Config Settings.

(** What one call of a sender meets: the reading of the clock and whether
    the webhook accepts the message. *)
Record Answer : Type := {
  clock : Z;
  accepts : bool
}.

(** What the outside world hands to the body of the loop for one coin. *)
Record Pass : Type := {
  historical_data : DataFrame;
  fetched : Fetch.frame;
  coin_ath_historical : option Q;
  coin_sentiment : Sentiment;
  top_answer : Answer;
  dip_answer : Answer;
  profit_answer : nat -> Answer;
  trailing_answer : Answer;
  signal_answer : Answer
}.

(** The dictionary handed to [log_result]. *)
Record LogEntry : Type := {
  log_coin : string;
  log_data : IndicatorData;
  log_sentiment : Sentiment;
  log_macro_trends : MacroTrends;
  log_signal_score : Q;
  signal_alert_sent : bool;
  price_alert_sent : bool;
  top_detection_alert_sent : bool;
  dip_buy_alert_sent : bool;
  profit_taking_alert_sent : bool;
  trailing_stop_alert_sent : bool
}.

(** The state the body works on: the detector state, the alert state, the
    dictionary [latest_prices] and the entries handed to [log_result]. *)
Record State : Type := {
  detector : StateManager.t;
  alerts : DiscordAlert.t;
  latest_prices : gmap string Q;
  logged : list LogEntry
}.

(** Code that works on the state and may raise; what was done before an
    exception stays done. *)
Definition M (A : Type) : Type := State -> Py.result A * State.

Definition ret {A} (a : A) : M A := fun s => (Return a, s).

Definition bind {A B} (m : M A) (k : A -> M B) : M B :=
  fun s =>
    match m s with
    | (Py.Return a, s') => k a s'
    | (Py.Raise e, s') => (Raise e, s')
    end.

Definition lift {A} (r : Py.result A) : M A := fun s => (r, s).

(** A sender that may raise, run on the alert state. *)
Definition on_alerts (sender : DiscordAlert.t -> Py.result bool * DiscordAlert.t) : M bool :=
  fun s =>
    let '(r, w) := sender (alerts s) in
    (r, {| detector := detector s; alerts := w;
           latest_prices := latest_prices s; logged := logged s |}).

(** A sender that cannot raise. *)
Definition on_alerts_total (sender : DiscordAlert.t -> bool * DiscordAlert.t) : M bool :=
  on_alerts (fun w => let '(sent, w') := sender w in (Return sent, w')).

Definition record_price (coin : string) (current_price : Q) : M unit :=
  fun s =>
    (Return tt, {| detector := detector s; alerts := alerts s;
                   latest_prices := <[coin := current_price]> (latest_prices s);
                   logged := logged s |}).

Definition log_result (entry : LogEntry) : M unit :=
  fun s =>
    (Return tt, {| detector := detector s; alerts := alerts s;
                   latest_prices := latest_prices s;
                   logged := (logged s ++ [entry])%list |}).

(** Step 4: the loop over the profit-taking targets of the coin; [i] is
    the position of the target in the list. *)
Fixpoint profit_taking_loop (cfg : Config.t) (coin : string) (current_price quantity : Q)
    (targets : list ProfitTarget) (answers : nat -> Answer) (i : nat)
    (sent_so_far : bool) (w : DiscordAlert.t) : bool * DiscordAlert.t :=
  match targets with
  | [] => (sent_so_far, w)
  | target :: rest =>
      match target_price target, sell_percentage target with
      | Some target_price, Some sell_percentage =>
          if Py.ge current_price target_price then
            let '(sent, w) :=
              DiscordAlert.send_profit_taking_alert cfg (clock (answers i))
                (accepts (answers i)) coin current_price target_price sell_percentage
                quantity w in
            profit_taking_loop cfg coin current_price quantity rest answers (S i)
              (if sent then true else sent_so_far) w
          else
            profit_taking_loop cfg coin current_price quantity rest answers (S i)
              sent_so_far w
      | _, _ =>
          profit_taking_loop cfg coin current_price quantity rest answers (S i)
            sent_so_far w
      end
  end.

Definition profit_taking_step (cfg : Config.t) (settings : Settings.t) (coin : string)
    (current_price : Q) (answers : nat -> Answer) (w : DiscordAlert.t)
    : bool * DiscordAlert.t :=
  match PROFIT_TAKING_ALERTS settings !! coin with
  | None | Some [] => (false, w)
  | Some targets =>
      let quantity := quantity_of (PORTFOLIO_HOLDINGS settings) coin in
      if Py.gt quantity 0
      then profit_taking_loop cfg coin current_price quantity targets answers 0 false w
      else (false, w)
  end.

(** Step 5, on the state of the body. *)
Definition trailing_stop (cfg : Config.t) (coin : string) (coin_data : IndicatorData)
    (pass : Pass) : M bool :=
  fun s =>
    let '(sent, (st, w)) :=
      Main.trailing_stop_step cfg coin
        {| Main.at_time := clock (trailing_answer pass);
           Main.post_ok := accepts (trailing_answer pass);
           Main.coin_data := coin_data |}
        (coin_ath_historical pass) (detector s, alerts s) in
    (Return sent, {| detector := st; alerts := w;
                     latest_prices := latest_prices s; logged := logged s |}).

(** The body of the loop for one coin, inside its [try]. *)
Definition analyse (cfg : Config.t) (settings : Settings.t) (sqrt : Q -> Q)
    (macro_trends_data : MacroTrends) (coin : string) (pass : Pass) : M unit :=
  bind (lift (Fetch.fetch_data sqrt (fetched pass))) (fun coin_data =>
  match price coin_data with
  | None => ret tt
  | Some current_price =>
      bind (record_price coin current_price) (fun _ =>
      let coin_sentiment := coin_sentiment pass in
      (* Step 2: top detection *)
      bind (lift (Detectors.check_for_top_detection coin_data coin_sentiment))
        (fun '(is_top_detected, parabolic_factor) =>
      bind (if is_top_detected
            then on_alerts (DiscordAlert.send_top_detection_alert cfg
                   (clock (top_answer pass)) (accepts (top_answer pass)) coin
                   current_price (rsi coin_data) (ema200 coin_data) parabolic_factor)
            else ret false) (fun top_sent =>
      (* Step 3: dip buy *)
      bind (lift (Detectors.check_for_dip_buy coin_data coin_sentiment)) (fun is_dip_buy =>
      bind (if is_dip_buy
            then bind (lift (Detectors.get_bb_lower coin_data)) (fun bb_lower =>
                 on_alerts (DiscordAlert.send_dip_buy_alert cfg
                   (clock (dip_answer pass)) (accepts (dip_answer pass)) coin
                   current_price (rsi coin_data) (ema20 coin_data) bb_lower
                   (price_change_7d_percent coin_data)))
            else ret false) (fun dip_sent =>
      (* Step 4: profit taking *)
      bind (on_alerts_total
              (profit_taking_step cfg settings coin current_price (profit_answer pass)))
        (fun profit_sent =>
      (* Step 5: trailing stop *)
      bind (trailing_stop cfg coin coin_data pass) (fun trailing_sent =>
      (* Step 6: the score *)
      let signal_score :=
        SignalScoring.score_signal cfg coin_data coin_sentiment macro_trends_data
          (Some (historical_data pass)) in
      (* Step 7: the signal alert *)
      bind (if Py.ge signal_score (ALERT_SCORE_THRESHOLD cfg)
            then on_alerts (DiscordAlert.send_discord_alert cfg
                   (clock (signal_answer pass)) (accepts (signal_answer pass)) coin
                   signal_score
                   {| DiscordAlert.details_data := coin_data;
                      DiscordAlert.details_sentiment := coin_sentiment |})
            else ret false) (fun signal_sent =>
      (* Step 8: the log *)
      log_result {|
        log_coin := coin;
        log_data := coin_data;
        log_sentiment := coin_sentiment;
        log_macro_trends := macro_trends_data;
        log_signal_score := signal_score;
        signal_alert_sent := signal_sent;
        price_alert_sent := false;
        top_detection_alert_sent := top_sent;
        dip_buy_alert_sent := dip_sent;
        profit_taking_alert_sent := profit_sent;
        trailing_stop_alert_sent := trailing_sent
      |}))))))))
  end).

(** The body with its [except Exception]: the exception is printed and the
    loop goes on with the state as it stands. *)
Definition analyse_coin (cfg : Config.t) (settings : Settings.t) (sqrt : Q -> Q)
    (macro_trends_data : MacroTrends) (coin : string) (pass : Pass) (s : State) : State :=
  snd (analyse cfg settings sqrt macro_trends_data coin pass s).

(** The loop over the tracked coins of one cycle. *)
Fixpoint analyse_coins (cfg : Config.t) (settings : Settings.t) (sqrt : Q -> Q)
    (macro_trends_data : MacroTrends) (coins : list string) (passes : string -> Pass)
    (s : State) : State :=
  match coins with
  | [] => s
  | coin :: rest =>
      analyse_coins cfg settings sqrt macro_trends_data rest passes
        (analyse_coin cfg settings sqrt macro_trends_data coin (passes coin) s)
  end.

(** A triple for code on the state: from a state satisfying [pre] the code
    either returns a value that with the new state satisfies [post], or raises
    and leaves a state satisfying [exc]. *)
Definition triple {A} (pre : State -> Prop) (m : M A)
    (post : A -> State -> Prop) (exc : State -> Prop) : Prop :=
  forall s, pre s ->
    match m s with
    | (Py.Return a, s') => post a s'
    | (Py.Raise _, s') => exc s'
    end.

End Analysis.

(** ** States and passes named in the statements *)

Module Scenes.
Import Analysis.

(** The state of a freshly started agent. *)
Definition fresh : State := {|
  detector := StateManager.empty;
  alerts := DiscordAlert.empty;
  latest_prices := ∅;
  logged := []
|}.

Definition answer (at_hour : Z) : Answer :=
  {| clock := Inputs.hours at_hour; accepts := true |}.

(** A pass that gets [df] as its frame, no historical ATH and no
    sentiment, with a webhook that accepts every message. *)
Definition pass_with (df : Fetch.frame) : Pass := {|
  historical_data := {| volume_column := None |};
  fetched := df;
  coin_ath_historical := None;
  coin_sentiment := Inputs.empty_sentiment;
  top_answer := answer 0;
  dip_answer := answer 0;
  profit_answer := fun _ => answer 0;
  trailing_answer := answer 0;
  signal_answer := answer 0
|}.

(** config.py before the webhook address is filled in. *)
Definition config_without_webhook : Config.t := {|
  Config.DISCORD_WEBHOOK_URL := "YOUR_DISCORD_WEBHOOK_URL_HERE";
  Config.ALERT_SCORE_THRESHOLD := Config.ALERT_SCORE_THRESHOLD Config.default;
  Config.ALERT_COOLDOWN_HOURS := Config.ALERT_COOLDOWN_HOURS Config.default;
  Config.SIGNAL_SCORING_WEIGHTS := Config.SIGNAL_SCORING_WEIGHTS Config.default;
  Config.VOLUME_SPIKE_MULTIPLIER := Config.VOLUME_SPIKE_MULTIPLIER Config.default;
  Config.PRICE_ALERTS := Config.PRICE_ALERTS Config.default;
  Config.PRICE_ALERT_COOLDOWN_HOURS := Config.PRICE_ALERT_COOLDOWN_HOURS Config.default;
  Config.PROFIT_TAKING_ALERT_COOLDOWN_HOURS :=
    Config.PROFIT_TAKING_ALERT_COOLDOWN_HOURS Config.default;
  Config.TRAILING_STOP_ALERTS := Config.TRAILING_STOP_ALERTS Config.default;
  Config.TRAILING_STOP_ALERT_COOLDOWN_HOURS :=
    Config.TRAILING_STOP_ALERT_COOLDOWN_HOURS Config.default
|}.

(** Three daily samples, and the dictionary [fetch_data] makes of them. *)
Definition three_days : Fetch.frame := [(100, 5000); (104, 6000); (102, 5500)].

Definition three_days_data : IndicatorData := {|
  price := Some 102; volume := Some 5500; rsi := None;
  ema20 := None; ema50 := None; ema200 := None;
  bollinger_bands := Py.IsNone;
  price_change_7d_percent := None; price_change_30d_percent := None
|}.

End Scenes.

(** ** portfolio_tracker.py *)

Module Portfolio.
Import Config Settings.

(** The dictionary [track_portfolio_performance] keeps for a coin. *)
Record Performance : Type := {
  quantity : Q;
  current_price : Q;
  current_value : Q;
  daily_change_percent : Q
}.

(** The dictionary it returns; [individual_coins] keeps the order in which
    its coins were inserted. *)
Record Summary : Type := {
  total_value : Q;
  total_change_24h_percent : Q;
  individual_coins : list (string * Performance)
}.

(** [d[key] = value] on a dictionary kept in insertion order: a key that is
    present keeps its place and gets the new value. *)
Fixpoint setitem {A : Type} (d : list (string * A)) (key : string) (value : A)
    : list (string * A) :=
  match d with
  | [] => [(key, value)]
  | (k, v) :: rest =>
      if bool_decide (k = key) then (key, value) :: rest
      else (k, v) :: setitem rest key value
  end.

(** The loop over [portfolio_data.items()].  [get_coin_24h_change] is what
    the price service answers for a coin: the price and the change of the
    last 24 hours in percent, or [None]. *)
Fixpoint holdings_loop (get_coin_24h_change : string -> option (Q * Q))
    (portfolio_data : list (string * option Q)) (total_portfolio_value : Q)
    (individual_coin_performance : list (string * Performance))
    : Q * list (string * Performance) :=
  match portfolio_data with
  | [] => (total_portfolio_value, individual_coin_performance)
  | (coin_id, details) :: rest =>
      let quantity := match details with Some q => q | None => 0 end in
      if Py.le quantity 0
      then holdings_loop get_coin_24h_change rest total_portfolio_value
             individual_coin_performance
      else
        match get_coin_24h_change coin_id with
        | Some (current_price, price_change_24h) =>
            let current_value := current_price * quantity in
            holdings_loop get_coin_24h_change rest
              (total_portfolio_value + current_value)
              (setitem individual_coin_performance coin_id
                 {| quantity := quantity;
                    current_price := current_price;
                    current_value := current_value;
                    daily_change_percent := price_change_24h |})
        | None =>
            holdings_loop get_coin_24h_change rest total_portfolio_value
              individual_coin_performance
        end
  end.

(** The loop that adds [weight * daily_change_percent] for every coin. *)
Fixpoint weighted_change (total_portfolio_value : Q)
    (individual_coin_performance : list (string * Performance))
    (total_change_24h_percent : Q) : Q :=
  match individual_coin_performance with
  | [] => total_change_24h_percent
  | (_, perf_data) :: rest =>
      let weight := current_value perf_data / total_portfolio_value in
      weighted_change total_portfolio_value rest
        (total_change_24h_percent + weight * daily_change_percent perf_data)
  end.

Definition track_portfolio_performance (settings : Settings.t)
    (get_coin_24h_change : string -> option (Q * Q)) : option Summary :=
  match PORTFOLIO_HOLDINGS settings with
  | [] => None
  | portfolio_data =>
      let '(total_portfolio_value, individual_coin_performance) :=
        holdings_loop get_coin_24h_change portfolio_data 0 [] in
      let total_change_24h_percent :=
        if Py.gt total_portfolio_value 0
        then weighted_change total_portfolio_value individual_coin_performance 0
        else 0 in
      Some {| total_value := total_portfolio_value;
              total_change_24h_percent := total_change_24h_percent;
              individual_coins := individual_coin_performance |}
  end.

(** One line of the description of a portfolio alert, without its text. *)
Inductive Line : Type :=
| TotalChanged (change threshold : Q)
| CoinChanged (coin_id : string) (change threshold : Q).

Record Embed : Type := {
  description : list Line;
  color : Z;
  total_value_field : Q;
  total_change_field : Q
}.

(** The module-level dictionary [last_portfolio_alert_time], and the alerts
    the webhook has accepted. *)
Record t : Type := {
  last_portfolio_alert_time : gmap string Z;
  posted : list Embed
}.

Definition empty : t := {| last_portfolio_alert_time := ∅; posted := [] |}.

(** [alert_triggered] and [alert_messages] after the test of the total. *)
Definition check_total (total_change_threshold : option Q) (portfolio_summary : Summary)
    (so_far : bool * list Line) : bool * list Line :=
  match total_change_threshold with
  | Some threshold =>
      if Py.ge (Qabs (total_change_24h_percent portfolio_summary)) threshold
      then (true,
            (snd so_far
             ++ [TotalChanged (total_change_24h_percent portfolio_summary) threshold])%list)
      else so_far
  | None => so_far
  end.

(** The loop over [portfolio_summary['individual_coins'].items()]. *)
Fixpoint check_coins (threshold : Q) (coins : list (string * Performance))
    (so_far : bool * list Line) : bool * list Line :=
  match coins with
  | [] => so_far
  | (coin_id, perf_data) :: rest =>
      check_coins threshold rest
        (if Py.ge (Qabs (daily_change_percent perf_data)) threshold
         then (true,
               (snd so_far
                ++ [CoinChanged coin_id (daily_change_percent perf_data) threshold])%list)
         else so_far)
  end.

Definition check_individual (individual_change_threshold : option Q)
    (portfolio_summary : Summary) (so_far : bool * list Line) : bool * list Line :=
  match individual_change_threshold with
  | Some threshold => check_coins threshold (individual_coins portfolio_summary) so_far
  | None => so_far
  end.

(** [send_portfolio_alert], called with a summary that
    [track_portfolio_performance] has built (its numbers are never [None]).
    [post_ok] tells whether [requests.post] and [raise_for_status] went
    through. *)
Definition send_portfolio_alert (cfg : Config.t) (settings : Settings.t)
    (current_time : Z) (post_ok : bool) (portfolio_summary : Summary) (w : t)
    : bool * t :=
  let webhook_url := DISCORD_WEBHOOK_URL cfg in
  if bool_decide (webhook_url = EmptyString)
     || bool_decide (webhook_url = "YOUR_DISCORD_WEBHOOK_URL_HERE")
  then (false, w)
  else
    let cooldown_hours := PORTFOLIO_ALERT_COOLDOWN_HOURS settings in
    if DiscordAlert.on_cooldown (last_portfolio_alert_time w) "portfolio_alert"
         current_time cooldown_hours
    then (false, w)
    else
      let thresholds := PORTFOLIO_ALERT_THRESHOLDS settings in
      let '(alert_triggered, alert_messages) :=
        check_individual (individual_coin_percent_change thresholds) portfolio_summary
          (check_total (total_portfolio_percent_change thresholds) portfolio_summary
             (false, [])) in
      if alert_triggered then
        let embed_color :=
          if Py.ge (total_change_24h_percent portfolio_summary) 0
          then 3066993%Z else 15158332%Z in
        let embed := {| description := alert_messages;
                        color := embed_color;
                        total_value_field := total_value portfolio_summary;
                        total_change_field := total_change_24h_percent portfolio_summary |} in
        if post_ok
        then (true,
              {| last_portfolio_alert_time :=
                   <["portfolio_alert" := current_time]> (last_portfolio_alert_time w);
                 posted := (posted w ++ [embed])%list |})
        else (false, w)
      else (false, w).

(** What the statements say about a summary. *)
Definition sum_of_values (coins : list (string * Performance)) : Q :=
  fold_right (fun entry acc => current_value (snd entry) + acc) 0 coins.

Definition sum_of_products (coins : list (string * Performance)) : Q :=
  fold_right
    (fun entry acc =>
       current_value (snd entry) * daily_change_percent (snd entry) + acc) 0 coins.

Definition total_moved (threshold : option Q) (portfolio_summary : Summary) : Prop :=
  exists th, threshold = Some th
    /\ th <= Qabs (total_change_24h_percent portfolio_summary).

Definition a_coin_moved (threshold : option Q) (portfolio_summary : Summary) : Prop :=
  exists th coin_id perf_data,
    threshold = Some th
    /\ In (coin_id, perf_data) (individual_coins portfolio_summary)
    /\ th <= Qabs (daily_change_percent perf_data).

End Portfolio.

(** ** summary_report.py *)

Module SummaryReport.
Import Config Settings.

(** [current_time.date()], [.hour] and [.minute] of a time in microseconds. *)
Definition date (time : Z) : Z := (time / 86400000000)%Z.
Definition hour (time : Z) : Z := ((time mod 86400000000) / 3600000000)%Z.
Definition minute (time : Z) : Z := ((time mod 3600000000) / 60000000)%Z.

(** The fields of the report, without their text. *)
Inductive Field : Type :=
| PortfolioOverview (total_value total_change_24h_percent : Q)
| IndividualHoldings (coins : list (string * Portfolio.Performance))
| NoPortfolio
| MarketSentiment (fgi_score : Q) (fgi_category : option string)
| OtherTrackedCoins (coins : list (string * (Q * Q))).

(** The global [last_summary_sent_date], and the reports the webhook has
    accepted. *)
Record t : Type := {
  last_summary_sent_date : option Z;
  posted : list (list Field)
}.

Definition empty : t := {| last_summary_sent_date := None; posted := [] |}.

(** What the services answer while a report is put together: the quotes
    asked by [track_portfolio_performance], the sentiment, the quote given
    to the i-th coin of [TRACKED_COINS], and the webhook. *)
Record World : Type := {
  portfolio_quotes : string -> option (Q * Q);
  market_sentiment : Sentiment;
  tracked_quotes : nat -> option (Q * Q);
  post_ok : bool
}.

(** The loop that fills [all_tracked_coins_info]. *)
Fixpoint tracked_loop (coins : list string) (quotes : nat -> option (Q * Q)) (i : nat)
    (all_tracked_coins_info : list (string * (Q * Q))) : list (string * (Q * Q)) :=
  match coins with
  | [] => all_tracked_coins_info
  | coin_id :: rest =>
      tracked_loop rest quotes (S i)
        (match quotes i with
         | Some coin_data => Portfolio.setitem all_tracked_coins_info coin_id coin_data
         | None => all_tracked_coins_info
         end)
  end.

(** [coin_id in portfolio_coins] *)
Definition in_keys {A : Type} (coin_id : string) (d : list (string * A)) : bool :=
  existsb (fun entry => bool_decide (fst entry = coin_id)) d.

Definition report_fields (settings : Settings.t) (world : World) : list Field :=
  let portfolio_summary :=
    Portfolio.track_portfolio_performance settings (portfolio_quotes world) in
  let fgi_score := fgi_score (market_sentiment world) in
  let fgi_category := fgi_category (market_sentiment world) in
  let all_tracked_coins_info :=
    tracked_loop (TRACKED_COINS settings) (tracked_quotes world) 0 [] in
  let portfolio_fields :=
    match portfolio_summary with
    | Some summary =>
        if Py.gt (Portfolio.total_value summary) 0
        then PortfolioOverview (Portfolio.total_value summary)
               (Portfolio.total_change_24h_percent summary)
             :: match Portfolio.individual_coins summary with
                | [] => []
                | coins => [IndividualHoldings coins]
                end
        else [NoPortfolio]
    | None => [NoPortfolio]
    end in
  let sentiment_fields :=
    match fgi_score with
    | Some score => [MarketSentiment score fgi_category]
    | None => []
    end in
  let portfolio_coins :=
    match portfolio_summary with
    | Some summary => Portfolio.individual_coins summary
    | None => []
    end in
  let other_tracked_coins :=
    filter (fun entry => negb (in_keys (fst entry) portfolio_coins))
      all_tracked_coins_info in
  let other_fields :=
    match other_tracked_coins with
    | [] => []
    | coins => [OtherTrackedCoins coins]
    end in
  (portfolio_fields ++ sentiment_fields ++ other_fields)%list.

(** [send_daily_summary_report]; [config.SUMMARY_REPORT_TIME.split(':')]
    raises when the setting is [None]. *)
Definition send_daily_summary_report (cfg : Config.t) (settings : Settings.t)
    (current_time : Z) (world : World) (w : t) : Py.result bool * t :=
  let webhook_url := DISCORD_WEBHOOK_URL cfg in
  if bool_decide (webhook_url = EmptyString)
     || bool_decide (webhook_url = "YOUR_DISCORD_WEBHOOK_URL_HERE")
  then (Return false, w)
  else if match last_summary_sent_date w with
          | Some last => (date last =? date current_time)%Z
          | None => false
          end
  then (Return false, w)
  else
    match SUMMARY_REPORT_TIME settings with
    | None => (Raise Py.AttributeError, w)
    | Some (summary_hour, summary_minute) =>
        if (hour current_time =? summary_hour)%Z
           && (summary_minute <=? minute current_time)%Z
        then
          if match last_summary_sent_date w with
             | Some last => (date last <? date current_time)%Z
             | None => true
             end
          then
            if post_ok world
            then (Return true,
                  {| last_summary_sent_date := Some current_time;
                     posted := (posted w ++ [report_fields settings world])%list |})
            else (Return false, w)
          else (Return false, w)
        else (Return false, w)
    end.

(** The calls of the monitoring loop one after the other, as long as none
    raises; the result counts the calls that answered [True]. *)
Fixpoint calls (cfg : Config.t) (settings : Settings.t) (polls : list (Z * World))
    (w : t) : Py.result nat * t :=
  match polls with
  | [] => (Return 0%nat, w)
  | (current_time, world) :: rest =>
      match send_daily_summary_report cfg settings current_time world w with
      | (Py.Return sent, w') =>
          match calls cfg settings rest w' with
          | (Py.Return n, w'') => (Return (if sent then S n else n), w'')
          | (Py.Raise e, w'') => (Raise e, w'')
          end
      | (Py.Raise e, w') => (Raise e, w')
      end
  end.

End SummaryReport.

(** ** Quotes, summaries and settings named in the statements *)

Module Market.
Import Settings.

(** Solana at 200 after a rise of 12 percent, every other coin at 10 after
    a fall of 2 percent. *)
Definition quotes (coin_id : string) : option (Q * Q) :=
  if bool_decide (coin_id = "solana") then Some (200, 12) else Some (10, - (2)).

(** A summary in which solana has risen by 12 percent. *)
Definition risen : Portfolio.Summary := {|
  Portfolio.total_value := 2000;
  Portfolio.total_change_24h_percent := 12;
  Portfolio.individual_coins :=
    [("solana", {| Portfolio.quantity := 10;
                   Portfolio.current_price := 200;
                   Portfolio.current_value := 2000;
                   Portfolio.daily_change_percent := 12 |})]
|}.

(** A world in which every service answers and the webhook accepts. *)
Definition world : SummaryReport.World := {|
  SummaryReport.portfolio_quotes := quotes;
  SummaryReport.market_sentiment := Inputs.empty_sentiment;
  SummaryReport.tracked_quotes := fun _ => Some (10, 1);
  SummaryReport.post_ok := true
|}.

(** config.py with [SUMMARY_REPORT_TIME = None]. *)
Definition settings_without_summary : Settings.t := {|
  TRACKED_COINS := TRACKED_COINS Settings.default;
  PORTFOLIO_HOLDINGS := PORTFOLIO_HOLDINGS Settings.default;
  PORTFOLIO_ALERT_THRESHOLDS := PORTFOLIO_ALERT_THRESHOLDS Settings.default;
  PORTFOLIO_ALERT_COOLDOWN_HOURS := PORTFOLIO_ALERT_COOLDOWN_HOURS Settings.default;
  SUMMARY_REPORT_TIME := None;
  PROFIT_TAKING_ALERTS := PROFIT_TAKING_ALERTS Settings.default
|}.

(** Three calls of the monitoring loop, at 21:59, 22:00 and 22:01 of the
    same day. *)
Definition evening : list (Z * SummaryReport.World) :=
  [((Inputs.hours 21 + Inputs.minutes 59)%Z, world);
   (Inputs.hours 22, world);
   ((Inputs.hours 22 + Inputs.minutes 1)%Z, world)].

End Market.

(** ** Further inputs named in the statements *)

Module Examples.

(** config.py with another [VOLUME_SPIKE_MULTIPLIER] and the same weights. *)
Definition with_multiplier (multiplier : Q) : Config.t := {|
  Config.DISCORD_WEBHOOK_URL := Config.DISCORD_WEBHOOK_URL Config.default;
  Config.ALERT_SCORE_THRESHOLD := Config.ALERT_SCORE_THRESHOLD Config.default;
  Config.ALERT_COOLDOWN_HOURS := Config.ALERT_COOLDOWN_HOURS Config.default;
  Config.SIGNAL_SCORING_WEIGHTS := Config.SIGNAL_SCORING_WEIGHTS Config.default;
  Config.VOLUME_SPIKE_MULTIPLIER := multiplier;
  Config.PRICE_ALERTS := Config.PRICE_ALERTS Config.default;
  Config.PRICE_ALERT_COOLDOWN_HOURS := Config.PRICE_ALERT_COOLDOWN_HOURS Config.default;
  Config.PROFIT_TAKING_ALERT_COOLDOWN_HOURS :=
    Config.PROFIT_TAKING_ALERT_COOLDOWN_HOURS Config.default;
  Config.TRAILING_STOP_ALERTS := Config.TRAILING_STOP_ALERTS Config.default;
  Config.TRAILING_STOP_ALERT_COOLDOWN_HOURS :=
    Config.TRAILING_STOP_ALERT_COOLDOWN_HOURS Config.default
|}.

(** A volume of 200 and nothing else, against a history whose volumes
    average 100. *)
Definition doubled_volume : IndicatorData := {|
  price := None; volume := Some 200; rsi := None;
  ema20 := None; ema50 := None; ema200 := None;
  bollinger_bands := Py.KeyMissing;
  price_change_7d_percent := None; price_change_30d_percent := None
|}.

Definition volume_history : DataFrame := {| volume_column := Some [100; 100; 100] |}.

(** Twenty daily samples rising from 100 to 119. *)
Definition twenty_days : Fetch.frame :=
  map (fun i => (100 + inject_Z (Z.of_nat i), 5000)) (seq 0 20).

(** Two hundred daily samples: 171 days at 100, 23 days rising by 10 a
    day to 330, then six days rising to 640. *)
Definition parabolic_prices : list Q :=
  (repeat 100 171
   ++ map (fun i => 100 + 10 * inject_Z (Z.of_nat i)) (seq 1 23)
   ++ [380; 430; 480; 530; 580; 640])%list.

Definition parabolic_rise : Fetch.frame := map (fun p => (p, 5000)) parabolic_prices.

(** The dictionary [fetch_data] builds from [parabolic_rise]. *)
Definition parabolic_data : IndicatorData :=
  match Fetch.fetch_data (fun x => x) parabolic_rise with
  | Py.Return data => data
  | Py.Raise _ => Fetch.default_values
  end.

End Examples.

(** * Properties *)

(** ** Comparisons *)

Section Comparisons.

Lemma lt_true x y : Py.lt x y = true <-> x < y.
Proof.
  unfold Py.lt. rewrite negb_true_iff. split.
  - intros H. apply Qnot_le_lt. rewrite <- Qle_bool_iff. congruence.
  - intros H. destruct (Qle_bool y x) eqn:E; [|reflexivity].
    apply Qle_bool_iff in E. lra.
Qed.

Lemma lt_false x y : Py.lt x y = false <-> y <= x.
Proof.
  unfold Py.lt. rewrite negb_false_iff. apply Qle_bool_iff.
Qed.

Lemma le_true x y : Py.le x y = true <-> x <= y.
Proof. apply Qle_bool_iff. Qed.

Lemma le_false x y : Py.le x y = false <-> y < x.
Proof.
  unfold Py.le. split.
  - intros H. apply Qnot_le_lt. rewrite <- Qle_bool_iff. congruence.
  - intros H. destruct (Qle_bool x y) eqn:E; [|reflexivity].
    apply Qle_bool_iff in E. lra.
Qed.

Lemma gt_true x y : Py.gt x y = true <-> y < x.
Proof. apply lt_true. Qed.

Lemma gt_false x y : Py.gt x y = false <-> x <= y.
Proof. apply lt_false. Qed.

Lemma ge_true x y : Py.ge x y = true <-> y <= x.
Proof. apply le_true. Qed.

Lemma ge_false x y : Py.ge x y = false <-> x < y.
Proof. apply le_false. Qed.

(** [max(0, min(100, score))] lands in the closed interval. *)
Lemma clamp_bounds score : 0 <= Py.max 0 (Py.min 100 score) <= 100.
Proof.
  unfold Py.max, Py.min, Py.gt.
  destruct (Py.lt score 100) eqn:E1.
  - destruct (Py.lt 0 score) eqn:E2.
    + apply lt_true in E1, E2. lra.
    + lra.
  - destruct (Py.lt 0 100) eqn:E2; lra.
Qed.

End Comparisons.

#[local] Ltac by_cases_on_comparisons :=
  repeat match goal with
  | |- context [if ?b then _ else _] =>
      let E := fresh "E" in destruct b eqn:E
  | H : Py.lt _ _ = true |- _ => apply lt_true in H
  | H : Py.lt _ _ = false |- _ => apply lt_false in H
  | H : Py.le _ _ = true |- _ => apply le_true in H
  | H : Py.le _ _ = false |- _ => apply le_false in H
  | H : Py.gt _ _ = true |- _ => apply gt_true in H
  | H : Py.gt _ _ = false |- _ => apply gt_false in H
  | H : Py.ge _ _ = true |- _ => apply ge_true in H
  | H : Py.ge _ _ = false |- _ => apply ge_false in H
  end.

(** ** The composite scorer *)

Section Scorer.
Import Config SignalScoring Inputs.

Lemma score_signal_neutral cfg data sentiment macro_trends historical_data :
  all_absent data sentiment macro_trends ->
  score_signal cfg data sentiment macro_trends historical_data = 50.
Proof.
  intros (Hp & Hv & Hr & H20 & H50 & _ & _ & _ & _ & Hf & Hg & Hbp & Hba & Hep & Hea & Hd).
  set (weights := SIGNAL_SCORING_WEIGHTS cfg).
  assert (S1 : forall s, score_rsi weights data s = s)
    by (intros; unfold score_rsi; now rewrite Hr).
  assert (S2 : forall s, score_ema_crossover weights data s = s)
    by (intros; unfold score_ema_crossover; now rewrite H20).
  assert (S3 : forall s, score_ema_price_position weights data s = s)
    by (intros; unfold score_ema_price_position; now rewrite Hp).
  assert (S4 : forall s, score_bollinger weights data s = s)
    by (intros; unfold score_bollinger; rewrite Hp; now destruct (bollinger_bands data)).
  assert (S5 : forall s, score_volume cfg data historical_data s = s)
    by (intros; unfold score_volume; now rewrite Hv).
  assert (S6 : forall s, score_fgi weights sentiment s = s)
    by (intros; unfold score_fgi; now rewrite Hf).
  assert (S7 : forall s, score_google_trends weights sentiment s = s)
    by (intros; unfold score_google_trends; now rewrite Hg).
  assert (S8 : forall s, score_btc_dominance weights macro_trends s = s)
    by (intros; unfold score_btc_dominance; now rewrite Hd).
  unfold score_signal. cbv zeta. fold weights.
  rewrite Hbp, Hep. unfold score_ath_proximity.
  rewrite S8, S7, S6, S5, S4, S3, S2, S1. reflexivity.
Qed.

(** The scorer reads the configuration through the weights and the
    volume-spike multiplier only. *)
Lemma score_signal_config cfg cfg' data sentiment macro_trends historical_data :
  SIGNAL_SCORING_WEIGHTS cfg' = SIGNAL_SCORING_WEIGHTS cfg ->
  VOLUME_SPIKE_MULTIPLIER cfg' = VOLUME_SPIKE_MULTIPLIER cfg ->
  score_signal cfg' data sentiment macro_trends historical_data
  = score_signal cfg data sentiment macro_trends historical_data.
Proof.
  intros Hw Hm. unfold score_signal, score_volume. rewrite Hw, Hm. reflexivity.
Qed.

(** C1, as stated, fails: identical inputs and identical weights do not
    fix the result, because the scorer also reads
    [config.VOLUME_SPIKE_MULTIPLIER].  A volume of 200 against an average of
    100 scores 51 under the multiplier 1.5 of config.py and 50 under a
    multiplier of 3, with the same weights. *)
Lemma score_signal_follows_the_volume_spike_multiplier :
  SIGNAL_SCORING_WEIGHTS (Examples.with_multiplier 3)
  = SIGNAL_SCORING_WEIGHTS Config.default
  /\ score_signal Config.default Examples.doubled_volume empty_sentiment empty_macro
       (Some Examples.volume_history) == 51
  /\ score_signal (Examples.with_multiplier 3) Examples.doubled_volume empty_sentiment
       empty_macro (Some Examples.volume_history) == 50
  /\ ~ (score_signal (Examples.with_multiplier 3) Examples.doubled_volume empty_sentiment
          empty_macro (Some Examples.volume_history)
        == score_signal Config.default Examples.doubled_volume empty_sentiment empty_macro
             (Some Examples.volume_history)).
Proof.
  split; [reflexivity|]. split; [vm_compute; reflexivity|].
  split; [vm_compute; reflexivity|]. vm_compute. discriminate.
Qed.

(** C1, amended.  Whatever the indicator, sentiment and macro dictionaries
    and the optional history hold, [score_signal] returns a value between 0
    and 100; when every optional field is absent it returns exactly 50; and
    two calls on identical inputs under the same scoring configuration (the
    weights, and the volume-spike multiplier the scorer also reads) return the
    same value. *)
Theorem score_signal_bounded_neutral_deterministic
    cfg data sentiment macro_trends historical_data :
  0 <= score_signal cfg data sentiment macro_trends historical_data <= 100
  /\ (all_absent data sentiment macro_trends ->
      score_signal cfg data sentiment macro_trends historical_data = 50)
  /\ (forall cfg' data' sentiment' macro_trends' historical_data',
        SIGNAL_SCORING_WEIGHTS cfg' = SIGNAL_SCORING_WEIGHTS cfg ->
        VOLUME_SPIKE_MULTIPLIER cfg' = VOLUME_SPIKE_MULTIPLIER cfg ->
        data' = data -> sentiment' = sentiment -> macro_trends' = macro_trends ->
        historical_data' = historical_data ->
        score_signal cfg' data' sentiment' macro_trends' historical_data'
        = score_signal cfg data sentiment macro_trends historical_data).
Proof.
  split; [apply clamp_bounds|]. split.
  - apply score_signal_neutral.
  - intros cfg' ? ? ? ? Hw Hm -> -> -> ->. now apply score_signal_config.
Qed.

Lemma score_signal_bounded_neutral_deterministic_witness :
  score_signal Config.default empty_data empty_sentiment empty_macro None = 50.
Proof.
  apply (proj1 (proj2 (score_signal_bounded_neutral_deterministic
    Config.default empty_data empty_sentiment empty_macro None))).
  unfold all_absent; simpl; tauto.
Defined.

Lemma rsi_contribution_value weights data r :
  rsi data = Some r ->
  rsi_contribution weights data == (50 - r) * 2 * w_rsi weights.
Proof.
  intros Hr. unfold rsi_contribution, score_rsi. rewrite Hr.
  unfold Qdiv. change (/ 25) with (1 # 25).
  destruct (Py.le r 50); ring.
Qed.

Lemma score_rsi_adds weights data score :
  score_rsi weights data score == score + rsi_contribution weights data.
Proof.
  unfold rsi_contribution, score_rsi.
  destruct (rsi data) as [r|]; [destruct (Py.le r 50)|]; ring.
Qed.

(** C5, as stated, fails: at RSI 30 under the configured weight 0.15 the
    RSI block adds 6 to the score, more than 15 times the weight (2.25). *)
Lemma rsi_contribution_exceeds_15_times_weight :
  rsi rsi_30_data = Some 30
  /\ rsi_contribution default_weights rsi_30_data == 6
  /\ ~ (Qabs (rsi_contribution default_weights rsi_30_data) <= 15 * w_rsi default_weights).
Proof.
  split; [reflexivity|]. split; [reflexivity|].
  apply Qlt_not_le. reflexivity.
Qed.

(** C5, amended.  When RSI is present and lies in [0, 100] and the RSI
    weight is not negative, the RSI block changes the score by
    [(50 - RSI) * 2 * weight]: its magnitude is at most 100 times the weight
    (15 at the configured weight 0.15), it adds when RSI is at most 50 and
    subtracts when RSI is above 50. *)
Theorem rsi_contribution_bounded_by_100_times_weight weights data r score :
  rsi data = Some r -> 0 <= r <= 100 -> 0 <= w_rsi weights ->
  score_rsi weights data score == score + rsi_contribution weights data
  /\ rsi_contribution weights data == (50 - r) * 2 * w_rsi weights
  /\ Qabs (rsi_contribution weights data) <= 100 * w_rsi weights
  /\ (r <= 50 -> score <= score_rsi weights data score)
  /\ (50 < r -> score_rsi weights data score <= score)
  /\ 100 * w_rsi default_weights == 15.
Proof.
  intros Hr [Hr0 Hr100] Hw.
  pose proof (rsi_contribution_value weights data r Hr) as Hv.
  pose proof (score_rsi_adds weights data score) as Ha.
  split; [exact Ha|]. split; [exact Hv|]. split; [|split; [|split]].
  - apply Qabs_Qle_condition. rewrite Hv. split; nra.
  - intros Hle. rewrite Ha, Hv. nra.
  - intros Hgt. rewrite Ha, Hv. nra.
  - reflexivity.
Qed.

Lemma rsi_contribution_bounded_by_100_times_weight_witness :
  Qabs (rsi_contribution default_weights rsi_30_data) <= 100 * w_rsi default_weights.
Proof.
  refine (proj1 (proj2 (proj2
    (rsi_contribution_bounded_by_100_times_weight default_weights rsi_30_data 30 50 _ _ _)))).
  - reflexivity.
  - split; vm_compute; discriminate.
  - vm_compute; discriminate.
Defined.

End Scorer.

(** ** The top detector *)

Section TopDetection.
Import Detectors Inputs.

Lemma is_rsi_overbought_true data :
  is_rsi_overbought data = true <-> exists r, rsi data = Some r /\ 80 < r.
Proof.
  unfold is_rsi_overbought. destruct (rsi data) as [r|].
  - rewrite gt_true. split; [eauto|]. now intros (? & [= <-] & ?).
  - split; [discriminate|]. now intros (? & [=] & _).
Qed.

Lemma ratio_at_least p e k : 0 < e -> (k <= p / e <-> k * e <= p).
Proof.
  intros He.
  assert (Hpe : p / e * e == p) by (field; lra).
  split; intros H; nra.
Qed.

Lemma is_above_ema200_true data :
  is_above_ema200 data = true <->
  exists p e, price data = Some p /\ ema200 data = Some e /\ 0 < e /\ (150 # 100) * e <= p.
Proof.
  unfold is_above_ema200.
  destruct (price data) as [p|], (ema200 data) as [e|];
    try (split; [discriminate | now intros (? & ? & [=] & [=] & _)]).
  destruct (Py.gt e 0) eqn:E.
  - apply gt_true in E. rewrite ge_true, (ratio_at_least p e _ E).
    split; [eauto 6|]. now intros (? & ? & [= <-] & [= <-] & _ & ?).
  - apply gt_false in E. split; [discriminate|].
    intros (? & ? & [= <-] & [= <-] & ? & _). lra.
Qed.

Lemma parabolic_true data :
  fst (parabolic data) = true <->
  exists c7 c30, price_change_7d_percent data = Some c7
    /\ price_change_30d_percent data = Some c30 /\ 50 < c7 /\ 100 < c30.
Proof.
  unfold parabolic.
  destruct (price_change_7d_percent data) as [c7|], (price_change_30d_percent data) as [c30|];
    try (split; [discriminate | now intros (? & ? & [=] & [=] & _)]).
  destruct (Py.gt c7 50) eqn:E7, (Py.gt c30 100) eqn:E30; simpl;
    by_cases_on_comparisons.
  - split; [eauto 6|reflexivity].
  - split; [discriminate|]. intros (? & ? & [= <-] & [= <-] & ? & ?). lra.
  - split; [discriminate|]. intros (? & ? & [= <-] & [= <-] & ? & ?). lra.
  - split; [discriminate|]. intros (? & ? & [= <-] & [= <-] & ? & ?). lra.
Qed.

Lemma parabolic_factor_value data c7 c30 :
  price_change_7d_percent data = Some c7 ->
  price_change_30d_percent data = Some c30 ->
  fst (parabolic data) = true ->
  snd (parabolic data) = (c7 + c30) / 200.
Proof.
  unfold parabolic. intros -> ->.
  destruct (Py.gt c7 50 && Py.gt c30 100); [reflexivity|discriminate].
Qed.

(** The message printed on detection never raises: the three conditions
    imply that every formatted value is present and EMA200 is not zero. *)
Lemma check_for_top_detection_returns data sentiment :
  check_for_top_detection data sentiment =
  Return (if is_rsi_overbought data && is_above_ema200 data && fst (parabolic data)
          then (true, snd (parabolic data)) else (false, 0)).
Proof.
  unfold check_for_top_detection.
  destruct (parabolic data) as [is_parabolic factor] eqn:Hpar; simpl fst; simpl snd.
  destruct (is_rsi_overbought data) eqn:H1; [|reflexivity].
  destruct (is_above_ema200 data) eqn:H2; [|reflexivity].
  destruct is_parabolic; [|reflexivity]. simpl andb. cbv iota.
  apply is_rsi_overbought_true in H1 as (r & Hr & _).
  apply is_above_ema200_true in H2 as (p & e & Hp & He & Hpos & _).
  assert (H3 : fst (parabolic data) = true) by now rewrite Hpar.
  apply parabolic_true in H3 as (c7 & c30 & H7 & H30 & _).
  rewrite Hr, Hp, He, H7, H30. unfold Py.truediv.
  assert (Hz : Qeq_bool e 0 = false).
  { destruct (Qeq_bool e 0) eqn:Hz; [|reflexivity]. apply Qeq_bool_iff in Hz. lra. }
  rewrite Hz. simpl. now destruct (is_fgi_extreme_greed sentiment).
Qed.

(** The guard [ema200 > 0]: on a dictionary with EMA200 at zero the price is
    at least 1.5 times EMA200 and the detector stays silent.  [fetch_data]
    builds no such dictionary with a 7-sample rise, see
    [fetched_ema200_is_positive]. *)
Lemma top_detection_silent_on_flat_ema200 :
  top_condition_as_stated flat_ema200_data = true
  /\ check_for_top_detection flat_ema200_data sample_sentiment_top = Return (false, 0).
Proof. split; reflexivity. Qed.

(** On any dictionary [check_for_top_detection] returns; it fires exactly
    when RSI is above 80, EMA200 is positive and the price is at least 1.5
    times EMA200, the 7-sample change is above 50 and the 30-sample change is
    above 100, whatever the sentiment; the intensity is (7d + 30d) / 200 when
    it fires and 0 when it does not. *)
Theorem top_detection_fires_iff data sentiment :
  (exists fired intensity,
    check_for_top_detection data sentiment = Return (fired, intensity)
    /\ (fired = true <->
        exists r p e c7 c30,
          rsi data = Some r /\ price data = Some p /\ ema200 data = Some e
          /\ price_change_7d_percent data = Some c7
          /\ price_change_30d_percent data = Some c30
          /\ 80 < r /\ 0 < e /\ (150 # 100) * e <= p /\ 50 < c7 /\ 100 < c30)
    /\ (fired = true ->
        exists c7 c30,
          price_change_7d_percent data = Some c7
          /\ price_change_30d_percent data = Some c30
          /\ intensity = (c7 + c30) / 200)
    /\ (fired = false -> intensity = 0))
  /\ (exists intensity,
       check_for_top_detection sample_data_top sample_sentiment_top
       = Return (true, intensity) /\ intensity == 9 # 10).
Proof.
  split; [|exists (180 # 200); split; reflexivity].
  rewrite check_for_top_detection_returns.
  destruct (is_rsi_overbought data && is_above_ema200 data && fst (parabolic data)) eqn:E.
  - apply andb_true_iff in E as [E H3]. apply andb_true_iff in E as [H1 H2].
    pose proof H3 as H3'.
    apply is_rsi_overbought_true in H1 as (r & Hr & Hr80).
    apply is_above_ema200_true in H2 as (p & e & Hp & He & Hpos & Hpe).
    apply parabolic_true in H3 as (c7 & c30 & H7 & H30 & Hc7 & Hc30).
    eexists _, _. split; [reflexivity|]. split; [|split].
    + split; [intros _|reflexivity]. exists r, p, e, c7, c30. tauto.
    + intros _. exists c7, c30. split; [assumption|]. split; [assumption|].
      now apply parabolic_factor_value.
    + discriminate.
  - eexists _, _. split; [reflexivity|]. split; [|split].
    + split; [discriminate|].
      intros (r & p & e & c7 & c30 & Hr & Hp & He & H7 & H30 & ? & ? & ? & ? & ?).
      assert (B1 : is_rsi_overbought data = true)
        by (apply is_rsi_overbought_true; eauto).
      assert (B2 : is_above_ema200 data = true)
        by (apply is_above_ema200_true; eauto 6).
      assert (B3 : fst (parabolic data) = true) by (apply parabolic_true; eauto 6).
      rewrite B1, B2, B3 in E. discriminate E.
    + discriminate.
    + reflexivity.
Qed.

End TopDetection.

(** ** The dip-buy detector *)

Section DipBuy.
Import Detectors Inputs.

Lemma bind_return {A B} (a : A) (k : A -> Py.result B) : (Return a ≫= k) = k a.
Proof. reflexivity. Qed.

(** Below three conditions nothing is printed and the answer is [False],
    provided the Bollinger entry is not bound to [None]. *)
Lemma check_for_dip_buy_below_three data sentiment bb_lower :
  get_bb_lower data = Return bb_lower ->
  (conditions_met data sentiment bb_lower < 3)%nat ->
  check_for_dip_buy data sentiment = Return false.
Proof.
  intros Hbb Hlt. unfold check_for_dip_buy. rewrite Hbb, bind_return.
  destruct (Nat.leb_spec 3 (conditions_met data sentiment bb_lower)); [lia|reflexivity].
Qed.

(** With every printed value present and EMA20 not zero, the answer is
    [True] exactly from three conditions on. *)
Lemma check_for_dip_buy_all_present data sentiment r p e20 bb_lower c7 fgi :
  get_bb_lower data = Return (Some bb_lower) ->
  rsi data = Some r -> price data = Some p -> ema20 data = Some e20 ->
  ~ e20 == 0 ->
  price_change_7d_percent data = Some c7 -> fgi_score sentiment = Some fgi ->
  check_for_dip_buy data sentiment
  = Return (3 <=? conditions_met data sentiment (Some bb_lower))%nat.
Proof.
  intros Hbb Hr Hp He Hnz H7 Hf. unfold check_for_dip_buy. rewrite Hbb, bind_return.
  destruct (3 <=? conditions_met data sentiment (Some bb_lower))%nat; [|reflexivity].
  rewrite Hr, Hp, He, H7, Hf. unfold Py.truediv.
  destruct (Qeq_bool e20 0) eqn:Hz; [|reflexivity].
  apply Qeq_bool_iff in Hz. contradiction.
Qed.

(** [fetch_data] binds ['bollinger_bands'] to [None] when it has fewer than
    twenty samples; the default of [get] does not apply and the detector
    raises whatever the other conditions are. *)
Lemma check_for_dip_buy_unbound_bands data sentiment :
  bollinger_bands data = Py.IsNone ->
  check_for_dip_buy data sentiment = Raise Py.AttributeError.
Proof.
  intros Hbb. unfold check_for_dip_buy, get_bb_lower. now rewrite Hbb.
Qed.

(** C6.  On the sample dip data with a 7-day fall of 25% exactly three of
    the five conditions hold (RSI, EMAs, lower band), and with the
    fear-and-greed score absent the detection message cannot be formatted:
    the call raises [TypeError] where the specification promises [True]. *)
Theorem dip_buy_raises_when_fgi_is_absent :
  is_rsi_oversold crash_data_dip = true
  /\ is_near_emas crash_data_dip = true
  /\ is_near_bb_lower crash_data_dip (Some 122) = true
  /\ is_recent_dip crash_data_dip = false
  /\ is_fgi_fearful failed_fgi_sentiment = false
  /\ conditions_met crash_data_dip failed_fgi_sentiment (Some 122) = 3%nat
  /\ check_for_dip_buy crash_data_dip failed_fgi_sentiment = Raise Py.TypeError.
Proof. repeat split; reflexivity. Qed.

End DipBuy.

(** ** The trailing stop: the dynamic ATH *)

Section DynamicAth.
Import Config StateManager TrailingStop Inputs.

Lemma get_set_dynamic_ath c coin p st :
  get_dynamic_ath c (set_dynamic_ath coin p st)
  = if decide (coin = c) then Some p else get_dynamic_ath c st.
Proof. unfold get_dynamic_ath, set_dynamic_ath. simpl. apply lookup_insert. Qed.

Lemma gt_irrefl p : Py.gt p p = false.
Proof. apply gt_false. lra. Qed.

Lemma ath_drop_check_ath cfg coin p st c :
  get_dynamic_ath c (snd (ath_drop_check cfg coin p st)) = get_dynamic_ath c st
  \/ written_upward c coin p st (snd (ath_drop_check cfg coin p st)).
Proof.
  unfold ath_drop_check, written_upward.
  destruct (percent_drop_threshold cfg coin) as [t|]; [|now left].
  destruct (get_dynamic_ath coin st) as [a|] eqn:Hget.
  - destruct (Py.gt p a) eqn:Hgt.
    + simpl. rewrite get_set_dynamic_ath. destruct (decide (coin = c)) as [<-|]; [|now left].
      right. rewrite Hget. apply gt_true in Hgt. auto.
    + destruct (Py.gt a 0); [destruct (Py.ge _ t)|]; now left.
  - rewrite gt_irrefl.
    assert (Hst : get_dynamic_ath c (set_dynamic_ath coin p st) = get_dynamic_ath c st
                  \/ (c = coin /\ get_dynamic_ath c (set_dynamic_ath coin p st) = Some p
                      /\ match get_dynamic_ath c st with Some a => a < p | None => True end)).
    { rewrite get_set_dynamic_ath. destruct (decide (coin = c)) as [<-|]; [|now left].
      right. now rewrite Hget. }
    destruct (Py.gt p 0); [destruct (Py.ge _ t)|]; exact Hst.
Qed.

Lemma ema50_cross_check_ath cfg coin p e st c :
  get_dynamic_ath c (snd (ema50_cross_check cfg coin p e st)) = get_dynamic_ath c st.
Proof.
  unfold ema50_cross_check.
  destruct (close_below_ema_enabled cfg coin), e; try reflexivity.
  now destruct (_ && _).
Qed.

Lemma check_for_trailing_stop_ath cfg coin data global_ath st c :
  get_dynamic_ath c (snd (check_for_trailing_stop cfg coin data global_ath st))
  = get_dynamic_ath c st
  \/ exists p, price data = Some p
       /\ written_upward c coin p st (snd (check_for_trailing_stop cfg coin data global_ath st)).
Proof.
  unfold check_for_trailing_stop.
  destruct (price data) as [p|]; [|now left].
  pose proof (ath_drop_check_ath cfg coin p st c) as H.
  destruct (ath_drop_check cfg coin p st) as [[r|] st1]; simpl in *.
  - destruct H as [H|H]; [now left|right; eauto].
  - rewrite ema50_cross_check_ath.
    destruct H as [H|(Hc & Hp & Hold)]; [now left|right].
    exists p. split; [reflexivity|]. unfold written_upward.
    rewrite ema50_cross_check_ath. auto.
Qed.

Lemma check_for_trailing_stop_ath_le cfg coin data global_ath st c :
  ath_le (get_dynamic_ath c st)
         (get_dynamic_ath c (snd (check_for_trailing_stop cfg coin data global_ath st))).
Proof.
  destruct (check_for_trailing_stop_ath cfg coin data global_ath st c)
    as [->|(p & _ & _ & -> & Hold)]; unfold ath_le.
  - destruct (get_dynamic_ath c st); [lra|exact I].
  - destruct (get_dynamic_ath c st); [lra|exact I].
Qed.

Lemma run_nondecreasing cfg calls : forall st c,
  nondecreasing_ath c st (map snd (run cfg calls st)).
Proof.
  induction calls as [|[[coin data] global_ath] rest IH]; intros st c; simpl.
  - exact I.
  - split; [apply check_for_trailing_stop_ath_le|apply IH].
Qed.

(** With a drop threshold configured, the stored high after a call is the
    larger of the stored high and the observed price. *)
Lemma dynamic_ath_after_check cfg coin data global_ath st t p :
  percent_drop_threshold cfg coin = Some t ->
  price data = Some p ->
  get_dynamic_ath coin (snd (check_for_trailing_stop cfg coin data global_ath st))
  = Some match get_dynamic_ath coin st with
         | Some a => if Py.gt p a then p else a
         | None => p
         end.
Proof.
  intros Ht Hp. unfold check_for_trailing_stop, ath_drop_check. rewrite Hp, Ht.
  destruct (get_dynamic_ath coin st) as [a|] eqn:Hget.
  - destruct (Py.gt p a).
    + simpl. rewrite ema50_cross_check_ath, get_set_dynamic_ath.
      now rewrite decide_True.
    + destruct (Py.gt a 0); [destruct (Py.ge _ t)|]; simpl;
        rewrite ?ema50_cross_check_ath; exact Hget.
  - rewrite gt_irrefl.
    destruct (Py.gt p 0); [destruct (Py.ge _ t)|]; simpl;
      rewrite ?ema50_cross_check_ath, get_set_dynamic_ath; now rewrite decide_True.
Qed.

(** C3.  Along any sequence of calls to [check_for_trailing_stop], for any
    coins, the dynamic ATH stored for a coin never decreases and never
    disappears; a call changes it only by storing the observed price of that
    coin, when nothing was stored or the price is strictly above the stored
    value.  For a coin with a drop threshold, the prices 100, 120, 90, 130, 80
    observed from an empty state leave the stored highs 100, 120, 120, 130,
    130. *)
Theorem dynamic_ath_nondecreasing cfg calls st c :
  nondecreasing_ath c st (map snd (run cfg calls st))
  /\ (forall coin data global_ath,
        get_dynamic_ath c (snd (check_for_trailing_stop cfg coin data global_ath st))
        <> get_dynamic_ath c st ->
        exists p, price data = Some p
          /\ written_upward c coin p st
               (snd (check_for_trailing_stop cfg coin data global_ath st)))
  /\ (forall coin t,
        percent_drop_threshold cfg coin = Some t ->
        map (fun r => get_dynamic_ath coin (snd r))
            (run cfg (observations coin [100; 120; 90; 130; 80]) StateManager.empty)
        = [Some 100; Some 120; Some 120; Some 130; Some 130]).
Proof.
  split; [apply run_nondecreasing|]. split.
  - intros coin data global_ath Hne.
    destruct (check_for_trailing_stop_ath cfg coin data global_ath st c) as [H|H];
      [contradiction|exact H].
  - intros coin t Ht. simpl.
    rewrite !(fun p st =>
      dynamic_ath_after_check cfg coin (observed p None) None st t p Ht eq_refl).
    reflexivity.
Qed.

Lemma dynamic_ath_nondecreasing_witness :
  map (fun r => get_dynamic_ath "solana" (snd r))
      (run Config.default (observations "solana" [100; 120; 90; 130; 80]) StateManager.empty)
  = [Some 100; Some 120; Some 120; Some 130; Some 130].
Proof.
  refine (proj2 (proj2 (dynamic_ath_nondecreasing Config.default [] StateManager.empty
    "solana")) "solana" 20 _).
  reflexivity.
Defined.

End DynamicAth.

(** ** The trailing stop: the EMA50 position *)

Section Ema50Position.
Import Config StateManager TrailingStop Inputs.

Lemma get_set_ema50_position coin position st :
  get_ema50_position coin (set_ema50_position coin position st) = Some position.
Proof. unfold get_ema50_position, set_ema50_position. simpl. apply lookup_insert_eq. Qed.

(** When the ATH block does not return, the position is stored. *)
Lemma ema50_position_stored_without_ath_drop cfg coin data global_ath st p e :
  close_below_ema_enabled cfg coin = true ->
  price data = Some p -> ema50 data = Some e ->
  fst (ath_drop_check cfg coin p st) = None ->
  get_ema50_position coin (snd (check_for_trailing_stop cfg coin data global_ath st))
  = Some (current_ema_position p e).
Proof.
  intros Hen Hp He Hnone. unfold check_for_trailing_stop. rewrite Hp, He.
  destruct (ath_drop_check cfg coin p st) as [[r|] st1]; [discriminate|].
  unfold ema50_cross_check. rewrite Hen.
  destruct (_ && _); apply get_set_ema50_position.
Qed.

(** C4.  Solana under config.py (20% drop threshold, EMA50 test enabled),
    stored high 270, stored position above; the price 200 is below its EMA50
    of 210.  The ATH block returns [ATH_DROP] before the EMA50 block runs, and
    the stored position stays above although the current position is below. *)
Theorem ema50_position_not_stored_on_ath_drop :
  close_below_ema_enabled Config.default "solana" = true
  /\ current_ema_position 200 210 = "below"
  /\ (exists drop,
        fst (check_for_trailing_stop Config.default "solana" (observed 200 (Some 210))
               None solana_at_270_above)
        = (true, Some "ATH_DROP", drop))
  /\ get_ema50_position "solana"
       (snd (check_for_trailing_stop Config.default "solana" (observed 200 (Some 210))
               None solana_at_270_above))
     = Some "above".
Proof.
  split; [reflexivity|]. split; [reflexivity|]. split; [eexists|]; reflexivity.
Qed.

End Ema50Position.

(** ** The cooldown gate *)

Section CooldownGate.
Import Config DiscordAlert Inputs.
Context `{Countable K}.


End CooldownGate.

Section CooldownGateExamples.
Import Config DiscordAlert Inputs.


End CooldownGateExamples.

(** ** The cooldown ledgers *)

Section Ledgers.
Import Config DiscordAlert Inputs.

Lemma send_message_cases post_ok embed url w :
  (exists w', _send_discord_message post_ok embed url w = (true, w')
     /\ post_ok = true
     /\ posted w' = (posted w ++ [embed])%list
     /\ last_signal_alert_times w' = last_signal_alert_times w
     /\ last_price_alert_times w' = last_price_alert_times w
     /\ last_top_detection_alert_times w' = last_top_detection_alert_times w
     /\ last_dip_buy_alert_times w' = last_dip_buy_alert_times w
     /\ last_profit_taking_alert_times w' = last_profit_taking_alert_times w
     /\ last_trailing_stop_alert_times w' = last_trailing_stop_alert_times w)
  \/ (_send_discord_message post_ok embed url w = (false, w)
      /\ (post_ok = false \/ url = EmptyString \/ url = "YOUR_DISCORD_WEBHOOK_URL_HERE")).
Proof.
  unfold _send_discord_message.
  destruct (bool_decide (url = EmptyString)) eqn:E1.
  { right. apply bool_decide_eq_true in E1. auto. }
  destruct (bool_decide (url = "YOUR_DISCORD_WEBHOOK_URL_HERE")) eqn:E2.
  { right. apply bool_decide_eq_true in E2. auto. }
  simpl. destruct post_ok.
  - left. eexists. split; [reflexivity|]. simpl. tauto.
  - right. auto.
Qed.

Lemma silent_discipline `{Countable K} (ledger : t -> gmap K Z) key now hrs post_ok w :
  (on_cooldown (ledger w) key now hrs = true -> True) ->
  ledger_discipline ledger key now hrs post_ok false w w.
Proof. intros _. unfold ledger_discipline. auto. Qed.

#[local] Ltac silent := apply silent_discipline; trivial.

#[local] Ltac after_dispatch Hcd :=
  match goal with
  | |- context [_send_discord_message ?p ?e ?u ?w] =>
      destruct (send_message_cases p e u w)
        as [(w' & -> & Hok & Hp & H1 & H2 & H3 & H4 & H5 & H6)|[-> Hno]];
      [ simpl; unfold ledger_discipline; simpl;
        rewrite ?H1, ?H2, ?H3, ?H4, ?H5, ?H6, Hcd;
        split; [split; [eexists; exact Hp|auto]|split; congruence]
      | simpl; silent ]
  end.

Lemma send_discord_alert_discipline cfg now post_ok coin score details w :
  ledger_discipline last_signal_alert_times coin now (ALERT_COOLDOWN_HOURS cfg) post_ok
    (returned_true (fst (send_discord_alert cfg now post_ok coin score details w)))
    w (snd (send_discord_alert cfg now post_ok coin score details w)).
Proof.
  unfold send_discord_alert.
  destruct (on_cooldown _ _ _ _) eqn:Hcd; [silent|].
  destruct (Py.lt score _); [silent|].
  destruct (signal_fields details); [|silent].
  after_dispatch Hcd.
Qed.

Lemma check_price_alerts_discipline cfg now post_ok coin current_price w :
  ledger_discipline last_price_alert_times coin now (PRICE_ALERT_COOLDOWN_HOURS cfg) post_ok
    (fst (check_price_alerts cfg now post_ok coin current_price w))
    w (snd (check_price_alerts cfg now post_ok coin current_price w)).
Proof.
  unfold check_price_alerts.
  destruct (PRICE_ALERTS cfg !! coin) as [targets|].
  - destruct (on_cooldown _ _ _ _) eqn:Hcd; [silent|]. cbv zeta.
    destruct (match buy targets with Some _ => _ | None => _ end);
      [|destruct (match sell targets with Some _ => _ | None => _ end)].
    + after_dispatch Hcd.
    + after_dispatch Hcd.
    + silent.
  - simpl. unfold ledger_discipline. repeat split; auto.
Qed.

Lemma send_top_detection_alert_discipline cfg now post_ok coin price rsi ema200 factor w :
  ledger_discipline last_top_detection_alert_times coin now (ALERT_COOLDOWN_HOURS cfg) post_ok
    (returned_true
       (fst (send_top_detection_alert cfg now post_ok coin price rsi ema200 factor w)))
    w (snd (send_top_detection_alert cfg now post_ok coin price rsi ema200 factor w)).
Proof.
  unfold send_top_detection_alert.
  destruct (on_cooldown _ _ _ _) eqn:Hcd; [silent|].
  destruct (_ ≫= _); [|silent].
  after_dispatch Hcd.
Qed.

Lemma send_dip_buy_alert_discipline cfg now post_ok coin price rsi ema20 bb_lower c7 w :
  ledger_discipline last_dip_buy_alert_times coin now (ALERT_COOLDOWN_HOURS cfg) post_ok
    (returned_true
       (fst (send_dip_buy_alert cfg now post_ok coin price rsi ema20 bb_lower c7 w)))
    w (snd (send_dip_buy_alert cfg now post_ok coin price rsi ema20 bb_lower c7 w)).
Proof.
  unfold send_dip_buy_alert.
  destruct (on_cooldown _ _ _ _) eqn:Hcd; [silent|].
  destruct (_ ≫= _); [|silent].
  after_dispatch Hcd.
Qed.

Lemma send_profit_taking_alert_discipline cfg now post_ok coin price target pct qty w :
  ledger_discipline last_profit_taking_alert_times (coin, Q2Qc target) now
    (PROFIT_TAKING_ALERT_COOLDOWN_HOURS cfg) post_ok
    (fst (send_profit_taking_alert cfg now post_ok coin price target pct qty w))
    w (snd (send_profit_taking_alert cfg now post_ok coin price target pct qty w)).
Proof.
  unfold send_profit_taking_alert.
  destruct (on_cooldown _ _ _ _) eqn:Hcd; [silent|].
  after_dispatch Hcd.
Qed.

Lemma send_trailing_stop_alert_discipline
    cfg now post_ok coin price ath drop ema50 close_below w :
  ledger_discipline last_trailing_stop_alert_times
    (trailing_stop_key coin drop close_below) now
    (TRAILING_STOP_ALERT_COOLDOWN_HOURS cfg) post_ok
    (fst (send_trailing_stop_alert cfg now post_ok coin price ath drop ema50 close_below w))
    w (snd (send_trailing_stop_alert cfg now post_ok coin price ath drop ema50 close_below w)).
Proof.
  unfold send_trailing_stop_alert.
  destruct (on_cooldown _ _ _ _) eqn:Hcd; [silent|].
  after_dispatch Hcd.
Qed.

(** C8.  Every sender keeps the discipline of its cooldown dictionary: the
    entry of the alert key is set to the current time exactly when the webhook
    accepted the message (and then the sender answers [True]); a call turned
    down by the cooldown test, or whose message is refused, or that stops for
    any other reason, leaves every dictionary as it was. *)
Theorem ledger_written_iff_dispatched
    (cfg : Config.t) (current_time : Z) (post_ok : bool) (coin_id : string) (w : t) :
  (forall score details,
     ledger_discipline last_signal_alert_times coin_id current_time
       (ALERT_COOLDOWN_HOURS cfg) post_ok
       (returned_true
          (fst (send_discord_alert cfg current_time post_ok coin_id score details w)))
       w (snd (send_discord_alert cfg current_time post_ok coin_id score details w)))
  /\ (forall current_price,
     ledger_discipline last_price_alert_times coin_id current_time
       (PRICE_ALERT_COOLDOWN_HOURS cfg) post_ok
       (fst (check_price_alerts cfg current_time post_ok coin_id current_price w))
       w (snd (check_price_alerts cfg current_time post_ok coin_id current_price w)))
  /\ (forall price rsi ema200 parabolic_factor,
     ledger_discipline last_top_detection_alert_times coin_id current_time
       (ALERT_COOLDOWN_HOURS cfg) post_ok
       (returned_true
          (fst (send_top_detection_alert cfg current_time post_ok coin_id
                  price rsi ema200 parabolic_factor w)))
       w (snd (send_top_detection_alert cfg current_time post_ok coin_id
                 price rsi ema200 parabolic_factor w)))
  /\ (forall price rsi ema20 bb_lower price_change_7d,
     ledger_discipline last_dip_buy_alert_times coin_id current_time
       (ALERT_COOLDOWN_HOURS cfg) post_ok
       (returned_true
          (fst (send_dip_buy_alert cfg current_time post_ok coin_id
                  price rsi ema20 bb_lower price_change_7d w)))
       w (snd (send_dip_buy_alert cfg current_time post_ok coin_id
                 price rsi ema20 bb_lower price_change_7d w)))
  /\ (forall current_price target_price sell_percentage quantity,
     ledger_discipline last_profit_taking_alert_times (coin_id, Q2Qc target_price)
       current_time (PROFIT_TAKING_ALERT_COOLDOWN_HOURS cfg) post_ok
       (fst (send_profit_taking_alert cfg current_time post_ok coin_id
               current_price target_price sell_percentage quantity w))
       w (snd (send_profit_taking_alert cfg current_time post_ok coin_id
                 current_price target_price sell_percentage quantity w)))
  /\ (forall price ath drop_percent ema50 close_below_ema,
     ledger_discipline last_trailing_stop_alert_times
       (trailing_stop_key coin_id drop_percent close_below_ema)
       current_time (TRAILING_STOP_ALERT_COOLDOWN_HOURS cfg) post_ok
       (fst (send_trailing_stop_alert cfg current_time post_ok coin_id
               price ath drop_percent ema50 close_below_ema w))
       w (snd (send_trailing_stop_alert cfg current_time post_ok coin_id
                 price ath drop_percent ema50 close_below_ema w))).
Proof.
  refine (conj _ (conj _ (conj _ (conj _ (conj _ _))))); intros.
  - apply send_discord_alert_discipline.
  - apply check_price_alerts_discipline.
  - apply send_top_detection_alert_discipline.
  - apply send_dip_buy_alert_discipline.
  - apply send_profit_taking_alert_discipline.
  - apply send_trailing_stop_alert_discipline.
Qed.

End Ledgers.

(** ** The trailing stop and its cooldown *)

Section TrailingStopAlerts.
Import Config StateManager TrailingStop DiscordAlert Inputs.

(** The keys of two ATH-drop alerts differ as soon as the drops differ. *)
Lemma ath_drop_keys_differ coin d1 d2 :
  ~ d1 == d2 ->
  trailing_stop_key coin (Some d1) false <> trailing_stop_key coin (Some d2) false.
Proof.
  intros Hne [= Heq]. apply Hne. apply Qred_eq_iff. exact Heq.
Qed.

(** C2.  Solana under the 25% threshold with a stored high of 270, observed
    at 270, 260, 200 and 195 in passes six hours apart.  The detector fires
    at 200 with a drop of 700/27 (25.9%) and again at 195 with a drop of
    250/9 (27.8%).  The second alert is keyed by its own drop value, finds no
    entry in the cooldown dictionary and is posted, six hours after the first
    and within the 48-hour cooldown: the cooldown test does not hold it
    back. *)
Theorem ath_drop_repeat_is_not_gated :
  (exists d200 d195,
     map fst (run mock_config_for_ts (observations "solana" [270; 260; 200; 195])
                solana_at_270)
     = [no_trigger; no_trigger;
        (true, Some "ATH_DROP", d200); (true, Some "ATH_DROP", d195)]
     /\ d200 == 700 # 27 /\ d195 == 250 # 9)
  /\ TRAILING_STOP_ALERT_COOLDOWN_HOURS mock_config_for_ts == 48
  /\ fst (Main.trailing_stop_run mock_config_for_ts "solana" falling_cycles (Some 300)
            (solana_at_270, DiscordAlert.empty))
     = [false; false; true; true]
  /\ length (posted (snd (snd
       (Main.trailing_stop_run mock_config_for_ts "solana" falling_cycles (Some 300)
          (solana_at_270, DiscordAlert.empty))))) = 2%nat
  /\ on_cooldown
       (last_trailing_stop_alert_times (snd (snd
          (Main.trailing_stop_run mock_config_for_ts "solana" (firstn 3 falling_cycles)
             (Some 300) (solana_at_270, DiscordAlert.empty)))))
       (trailing_stop_key "solana" (Some (700 # 27)) false) (hours 18)
       (TRAILING_STOP_ALERT_COOLDOWN_HOURS mock_config_for_ts) = true
  /\ last_trailing_stop_alert_times (snd (snd
        (Main.trailing_stop_run mock_config_for_ts "solana" (firstn 3 falling_cycles)
           (Some 300) (solana_at_270, DiscordAlert.empty))))
     !! trailing_stop_key "solana" (Some (250 # 9)) false = None
  /\ map_to_list (last_trailing_stop_alert_times (snd (snd
        (Main.trailing_stop_run mock_config_for_ts "solana" falling_cycles (Some 300)
           (solana_at_270, DiscordAlert.empty)))))
     = [(trailing_stop_key "solana" (Some (700 # 27)) false, hours 12);
        (trailing_stop_key "solana" (Some (250 # 9)) false, hours 18)].
Proof.
  split; [eexists _, _; split; [reflexivity|split; reflexivity]|].
  split; [reflexivity|].
  repeat split; vm_compute; reflexivity.
Qed.

End TrailingStopAlerts.

(** ** The indicators on short series *)

Section Indicators.
Import DataFetcher.

(** A rising series has no losses: RSI saturates at 100. *)
Example rsi_of_rising_series : _calculate_rsi [1; 2; 3] 2 = Return (Some (100 - 0)).
Proof. reflexivity. Qed.

(** EMA with span 2 of 1, 2, 3: smoothing factor 2/3, seeded by 1. *)
Example ema_of_three_samples :
  exists ema, _calculate_ema [1; 2; 3] 2 = Return (Some ema) /\ ema == 23 # 9.
Proof. eexists. split; [reflexivity|vm_compute; reflexivity]. Qed.

(** C10.  A price series shorter than the minimum length of an indicator
    (window + 1 samples for RSI, window samples for EMA and for the Bollinger
    bands) makes the indicator return [None]: it neither raises nor returns a
    number. *)
Theorem short_series_yield_none
    (sqrt : Q -> Q) (prices : list Q) (window : Z) (num_std_dev : Q) :
  ((len prices < window + 1)%Z -> _calculate_rsi prices window = Return None)
  /\ ((len prices < window)%Z -> _calculate_ema prices window = Return None)
  /\ ((len prices < window)%Z ->
      _calculate_bollinger_bands sqrt prices window num_std_dev = Return None).
Proof.
  unfold _calculate_rsi, _calculate_ema, _calculate_bollinger_bands.
  repeat split; intros Hshort.
  - destruct (Z.ltb_spec (len prices) (window + 1)); [reflexivity|lia].
  - destruct (Z.ltb_spec (len prices) window); [reflexivity|lia].
  - destruct (Z.ltb_spec (len prices) window); [reflexivity|lia].
Qed.

Lemma short_series_yield_none_witness :
  _calculate_rsi [100; 101; 99] 14 = Return None
  /\ _calculate_ema [100; 101; 99] 20 = Return None
  /\ _calculate_bollinger_bands (fun x => x) [100; 101; 99] 20 2 = Return None.
Proof.
  pose proof (short_series_yield_none (fun x => x) [100; 101; 99] 14 2) as H14.
  pose proof (short_series_yield_none (fun x => x) [100; 101; 99] 20 2) as H20.
  split; [apply H14; reflexivity|].
  split; [apply H20; reflexivity|apply H20; reflexivity].
Defined.

End Indicators.

(** * Further properties of the code *)

(** ** Exponential smoothing and the range of the indicators *)

Section Smoothing.
Import DataFetcher.

Lemma ewm_from_ge lo alpha y xs :
  0 <= alpha <= 1 -> lo <= y -> Forall (Qle lo) xs ->
  Forall (Qle lo) (ewm_from alpha y xs).
Proof.
  intros Ha Hy Hxs. revert y Hy.
  induction Hxs as [|x xs Hx _ IH]; intros y Hy; simpl; constructor.
  - nra.
  - apply IH. nra.
Qed.

Lemma ewm_from_le hi alpha y xs :
  0 <= alpha <= 1 -> y <= hi -> Forall (fun x => x <= hi) xs ->
  Forall (fun x => x <= hi) (ewm_from alpha y xs).
Proof.
  intros Ha Hy Hxs. revert y Hy.
  induction Hxs as [|x xs Hx _ IH]; intros y Hy; simpl; constructor.
  - nra.
  - apply IH. nra.
Qed.

Lemma ewm_mean_ge lo alpha xs :
  0 <= alpha <= 1 -> Forall (Qle lo) xs -> Forall (Qle lo) (ewm_mean alpha xs).
Proof.
  intros Ha Hxs. destruct Hxs as [|x xs Hx Hxs]; simpl; constructor;
    [assumption|now apply ewm_from_ge].
Qed.

Lemma ewm_mean_le hi alpha xs :
  0 <= alpha <= 1 -> Forall (fun x => x <= hi) xs ->
  Forall (fun x => x <= hi) (ewm_mean alpha xs).
Proof.
  intros Ha Hxs. destruct Hxs as [|x xs Hx Hxs]; simpl; constructor;
    [assumption|now apply ewm_from_le].
Qed.

Lemma last_Forall {A} (P : A -> Prop) (l : list A) (d : A) :
  Forall P l -> l <> [] -> P (last l d).
Proof.
  induction 1 as [|x l Hx Hl IH]; intros Hne; [contradiction|].
  destruct l as [|y l']; [exact Hx|]. apply IH. discriminate.
Qed.

Lemma gain_of_nonneg d : 0 <= gain_of d.
Proof.
  unfold gain_of. destruct d as [d|]; [|lra].
  destruct (Py.gt d 0) eqn:E; [apply gt_true in E|]; lra.
Qed.

Lemma loss_of_nonneg d : 0 <= loss_of d.
Proof.
  unfold loss_of. destruct d as [d|]; [|lra].
  destruct (Py.lt d 0) eqn:E; [apply lt_true in E|]; lra.
Qed.

Lemma inject_Z_pos z : (1 <= z)%Z -> 1 <= inject_Z z.
Proof. intros Hz. change 1 with (inject_Z 1). now rewrite <- Zle_Qle. Qed.

Lemma unit_fraction k c : 1 <= c -> 0 < k -> k <= c -> 0 <= k / c <= 1.
Proof.
  intros Hc Hk Hkc.
  assert (Hq : k / c * c == k) by (field; lra).
  split; [|]; apply Qnot_lt_le; intros Hlt; nra.
Qed.

Lemma rsi_value_in_range prices window :
  (1 <= window)%Z -> (window + 1 <= len prices)%Z ->
  exists r, _calculate_rsi prices window = Return (Some r) /\ 0 <= r <= 100.
Proof.
  intros Hw Hlen. unfold _calculate_rsi.
  destruct (Z.ltb_spec (len prices) (window + 1)); [lia|].
  destruct (Z.ltb_spec (window - 1) 0); [lia|].
  destruct prices as [|x rest]; [unfold len in Hlen; simpl in Hlen; lia|].
  set (alpha := 1 / (1 + inject_Z (window - 1))).
  assert (Ha : 0 <= alpha <= 1).
  { unfold alpha. apply unit_fraction; [|lra|].
    - assert (0 <= inject_Z (window - 1)).
      { change 0 with (inject_Z 0). rewrite <- Zle_Qle. lia. }
      lra.
    - assert (0 <= inject_Z (window - 1)).
      { change 0 with (inject_Z 0). rewrite <- Zle_Qle. lia. }
      lra. }
  set (delta := diff (x :: rest)).
  assert (Hg : Forall (Qle 0) (ewm_mean alpha (map gain_of delta))).
  { apply ewm_mean_ge; [exact Ha|]. apply Forall_forall. intros g Hin.
    apply in_map_iff in Hin as (d & <- & _). apply gain_of_nonneg. }
  assert (Hl : Forall (Qle 0) (ewm_mean alpha (map loss_of delta))).
  { apply ewm_mean_ge; [exact Ha|]. apply Forall_forall. intros g Hin.
    apply in_map_iff in Hin as (d & <- & _). apply loss_of_nonneg. }
  assert (Hgne : ewm_mean alpha (map gain_of delta) <> []) by (simpl; discriminate).
  assert (Hlne : ewm_mean alpha (map loss_of delta) <> []) by (simpl; discriminate).
  pose proof (last_Forall _ _ 0 Hg Hgne) as Hg0.
  pose proof (last_Forall _ _ 0 Hl Hlne) as Hl0.
  destruct (ewm_mean alpha (map loss_of delta)) as [|l0 ls] eqn:El; [contradiction|].
  rewrite <- El in *.
  set (g := last (ewm_mean alpha (map gain_of delta)) 0) in *.
  set (l := last (ewm_mean alpha (map loss_of delta)) 0) in *.
  eexists. split; [reflexivity|].
  destruct (Qeq_bool l 0) eqn:Hz; [lra|].
  assert (Hlpos : 0 < l).
  { apply Qeq_bool_neq in Hz. apply Qnot_le_lt. intros Hle. apply Hz. lra. }
  assert (Hrs : 0 <= g / l).
  { assert (Hq : g / l * l == g) by (field; lra).
    apply Qnot_lt_le. intros Hlt. nra. }
  assert (Hq : 100 / (1 + g / l) * (1 + g / l) == 100) by (field; lra).
  split; apply Qnot_lt_le; intros Hlt; nra.
Qed.

(** X1.  With a window of at least one and at least window + 1 samples,
    [_calculate_rsi] returns a number between 0 and 100. *)
Theorem rsi_between_0_and_100 prices window :
  (1 <= window)%Z -> (window + 1 <= len prices)%Z ->
  exists r, _calculate_rsi prices window = Return (Some r) /\ 0 <= r <= 100.
Proof. apply rsi_value_in_range. Qed.

Lemma rsi_between_0_and_100_witness :
  exists r, _calculate_rsi [3; 1; 2] 2 = Return (Some r) /\ 0 <= r <= 100.
Proof.
  apply (rsi_between_0_and_100 [3; 1; 2] 2); unfold len; simpl; lia.
Defined.

Lemma ema_value_in_range prices window lo hi :
  (1 <= window)%Z -> (window <= len prices)%Z ->
  Forall (fun p => lo <= p <= hi) prices ->
  exists ema, _calculate_ema prices window = Return (Some ema) /\ lo <= ema <= hi.
Proof.
  intros Hw Hlen Hrange. unfold _calculate_ema.
  destruct (Z.ltb_spec (len prices) window); [lia|].
  destruct (Z.ltb_spec window 1); [lia|].
  set (alpha := 2 / (inject_Z window + 1)).
  assert (Ha : 0 <= alpha <= 1).
  { pose proof (inject_Z_pos window Hw). unfold alpha. apply unit_fraction; lra. }
  assert (Hlo : Forall (Qle lo) (ewm_mean alpha prices)).
  { apply ewm_mean_ge; [exact Ha|]. eapply Forall_impl; [|exact Hrange].
    intros ? [? _]. assumption. }
  assert (Hhi : Forall (fun x => x <= hi) (ewm_mean alpha prices)).
  { apply ewm_mean_le; [exact Ha|]. eapply Forall_impl; [|exact Hrange].
    intros ? [_ ?]. assumption. }
  destruct prices as [|x rest]; [unfold len in Hlen; simpl in Hlen; lia|].
  assert (Hne : ewm_mean alpha (x :: rest) <> []) by (simpl; discriminate).
  pose proof (last_Forall _ _ 0 Hlo Hne) as H1.
  pose proof (last_Forall _ _ 0 Hhi Hne) as H2.
  destruct (ewm_mean alpha (x :: rest)) as [|e0 es] eqn:Ee; [contradiction|].
  eexists. split; [reflexivity|]. split; assumption.
Qed.

(** X2.  With a window of at least one and at least window samples,
    [_calculate_ema] returns a number that lies between any two bounds that
    enclose all the prices; on a constant series it returns the constant. *)
Theorem ema_within_price_range prices window lo hi :
  (1 <= window)%Z -> (window <= len prices)%Z ->
  Forall (fun p => lo <= p <= hi) prices ->
  exists ema, _calculate_ema prices window = Return (Some ema) /\ lo <= ema <= hi.
Proof. apply ema_value_in_range. Qed.

Lemma ema_within_price_range_witness :
  exists ema, _calculate_ema [5; 5; 5] 2 = Return (Some ema) /\ 5 <= ema <= 5.
Proof.
  apply (ema_within_price_range [5; 5; 5] 2 5 5).
  - lia.
  - unfold len; simpl; lia.
  - repeat constructor; lra.
Defined.

Lemma bollinger_values sqrt prices window num_std_dev :
  (2 <= window)%Z -> (window <= len prices)%Z ->
  exists u m l,
    _calculate_bollinger_bands sqrt prices window num_std_dev
    = Return (Some {| band_upper := Py.Num u; band_middle := Py.Num m;
                      band_lower := Py.Num l |})
    /\ m = sum (last_window window prices) / inject_Z window
    /\ u + l == 2 * m
    /\ (0 <= num_std_dev -> (forall x, 0 <= sqrt x) -> l <= m <= u).
Proof.
  intros Hw Hlen. unfold _calculate_bollinger_bands.
  destruct (Z.ltb_spec (len prices) window); [lia|].
  destruct (Z.ltb_spec window 0); [lia|].
  unfold rolling_mean_last, rolling_std_last.
  destruct (Z.ltb_spec window 1); [lia|].
  destruct (Z.ltb_spec window 2); [lia|].
  destruct prices as [|x rest]; [unfold len in Hlen; simpl in Hlen; lia|].
  simpl float_add. simpl float_sub.
  eexists _, _, _. split; [reflexivity|]. split; [reflexivity|]. split; [ring|].
  intros Hk Hsqrt.
  match goal with |- context [sqrt ?v] => pose proof (Hsqrt v) as Hs; set (s := sqrt v) in * end.
  nra.
Qed.

(** X3.  With a window of at least two and at least window samples,
    [_calculate_bollinger_bands] returns three numbers: the middle band is
    the mean of the last window prices and lies midway between the lower and
    the upper band; with a non-negative number of deviations (and a square
    root that is never negative) the bands are ordered. *)
Theorem bollinger_bands_around_the_mean sqrt prices window num_std_dev :
  (2 <= window)%Z -> (window <= len prices)%Z ->
  exists u m l,
    _calculate_bollinger_bands sqrt prices window num_std_dev
    = Return (Some {| band_upper := Py.Num u; band_middle := Py.Num m;
                      band_lower := Py.Num l |})
    /\ m = sum (last_window window prices) / inject_Z window
    /\ u + l == 2 * m
    /\ (0 <= num_std_dev -> (forall x, 0 <= sqrt x) -> l <= m <= u).
Proof. apply bollinger_values. Qed.

Lemma bollinger_bands_around_the_mean_witness :
  exists u m l,
    _calculate_bollinger_bands (fun x => x) [1; 2; 3] 2 2
    = Return (Some {| band_upper := Py.Num u; band_middle := Py.Num m;
                      band_lower := Py.Num l |})
    /\ m = sum (last_window 2 [1; 2; 3]) / inject_Z 2
    /\ u + l == 2 * m
    /\ (0 <= 2 -> (forall x, 0 <= (fun y : Q => y) x) -> l <= m <= u).
Proof.
  apply (bollinger_bands_around_the_mean (fun x => x) [1; 2; 3] 2 2).
  - lia.
  - unfold len; simpl; lia.
Defined.

End Smoothing.

(** ** [fetch_data]: which indicators a frame yields *)

Section FetchData.
Import DataFetcher Fetch.

Lemma len_map_fst (df : frame) : len (map fst df) = Z.of_nat (length df).
Proof. unfold len. now rewrite length_map. Qed.

Lemma rsi_14_cases (df : frame) :
  ((length df < 15)%nat /\ _calculate_rsi (map fst df) 14 = Return None)
  \/ ((15 <= length df)%nat
      /\ exists r, _calculate_rsi (map fst df) 14 = Return (Some r) /\ 0 <= r <= 100).
Proof.
  destruct (Nat.lt_ge_cases (length df) 15) as [Hlt|Hge].
  - left. split; [exact Hlt|]. unfold _calculate_rsi. rewrite len_map_fst.
    destruct (Z.ltb_spec (Z.of_nat (length df)) (14 + 1)); [reflexivity|lia].
  - right. split; [exact Hge|]. apply rsi_value_in_range; rewrite ?len_map_fst; lia.
Qed.

Lemma ema_cases (df : frame) (window : Z) :
  (1 <= window)%Z ->
  ((Z.of_nat (length df) < window)%Z /\ _calculate_ema (map fst df) window = Return None)
  \/ ((window <= Z.of_nat (length df))%Z
      /\ exists e, _calculate_ema (map fst df) window = Return (Some e)).
Proof.
  intros Hw. destruct (Z.lt_ge_cases (Z.of_nat (length df)) window) as [Hlt|Hge].
  - left. split; [exact Hlt|]. unfold _calculate_ema. rewrite len_map_fst.
    destruct (Z.ltb_spec (Z.of_nat (length df)) window); [reflexivity|lia].
  - right. split; [exact Hge|]. unfold _calculate_ema. rewrite len_map_fst.
    destruct (Z.ltb_spec (Z.of_nat (length df)) window); [lia|].
    destruct (Z.ltb_spec window 1); [lia|].
    destruct df as [|row rest]; [simpl in Hge; lia|]. simpl. eauto.
Qed.

Lemma bands_20_cases sqrt (df : frame) :
  ((length df < 20)%nat
   /\ _calculate_bollinger_bands sqrt (map fst df) 20 2 = Return None)
  \/ ((20 <= length df)%nat
      /\ exists u m l,
           _calculate_bollinger_bands sqrt (map fst df) 20 2
           = Return (Some {| band_upper := Py.Num u; band_middle := Py.Num m;
                             band_lower := Py.Num l |})).
Proof.
  destruct (Nat.lt_ge_cases (length df) 20) as [Hlt|Hge].
  - left. split; [exact Hlt|]. unfold _calculate_bollinger_bands. rewrite len_map_fst.
    destruct (Z.ltb_spec (Z.of_nat (length df)) 20); [reflexivity|lia].
  - right. split; [exact Hge|].
    destruct (bollinger_values sqrt (map fst df) 20 2) as (u & m & l & Hb & _);
      rewrite ?len_map_fst; [lia|lia|eauto].
Qed.

Lemma price_change_percent_short n prices latest :
  (length prices < n)%nat -> price_change_percent n prices latest = None.
Proof.
  intros Hlt. unfold price_change_percent.
  destruct (Nat.leb_spec n (length prices)); [lia|reflexivity].
Qed.

Lemma fetch_data_returns sqrt (df : frame) :
  df <> [] ->
  exists data,
    fetch_data sqrt df = Return data
    /\ price data = Some (last (map fst df) 0)
    /\ volume data = Some (last (map snd df) 0)
    /\ (is_Some (rsi data) <-> (15 <= length df)%nat)
    /\ (forall r, rsi data = Some r -> 0 <= r <= 100)
    /\ (is_Some (ema20 data) <-> (20 <= length df)%nat)
    /\ (is_Some (ema50 data) <-> (50 <= length df)%nat)
    /\ (is_Some (ema200 data) <-> (200 <= length df)%nat)
    /\ ((length df < 20)%nat -> bollinger_bands data = Py.IsNone)
    /\ ((20 <= length df)%nat ->
        exists u m l,
          bollinger_bands data
          = Py.Bound {| upper := Some u; middle := Some m; lower := Some l |})
    /\ ((length df < 7)%nat -> price_change_7d_percent data = None)
    /\ ((length df < 30)%nat -> price_change_30d_percent data = None).
Proof.
  intros Hne. unfold fetch_data.
  destruct df as [|row rest] eqn:Edf; [contradiction|]. rewrite <- Edf in *.
  destruct (rsi_14_cases df) as [[Hr1 ->]|[Hr1 (r & -> & Hr)]];
  destruct (ema_cases df 20 ltac:(lia)) as [[H20 ->]|[H20 (e20 & ->)]];
  destruct (ema_cases df 50 ltac:(lia)) as [[H50 ->]|[H50 (e50 & ->)]];
  destruct (ema_cases df 200 ltac:(lia)) as [[H200 ->]|[H200 (e200 & ->)]];
  destruct (bands_20_cases sqrt df) as [[Hb ->]|[Hb (u & m & l & ->)]];
  try lia;
  (eexists; split; [reflexivity|]; simpl;
   repeat match goal with
   | |- _ /\ _ => split
   | |- _ <-> _ => split
   | |- is_Some (Some _) -> _ => intros _; lia
   | |- is_Some None -> _ => intros [? [=]]
   | |- _ -> is_Some (Some _) => intros _; eauto
   | |- _ -> is_Some None => intros ?; lia
   | |- forall r0, Some _ = Some r0 -> _ => intros ? [= <-]; exact Hr
   | |- forall r0, None = Some r0 -> _ => intros ? [=]
   | |- _ -> price_change_percent _ _ _ = None =>
       intros ?; apply price_change_percent_short; rewrite length_map; assumption
   | |- (_ < 20)%nat -> Py.IsNone = Py.IsNone => reflexivity
   | |- (_ < 20)%nat -> _ => intros ?; lia
   | |- (20 <= _)%nat -> _ => intros ?; first [lia | eauto]
   | |- Some _ = Some _ => reflexivity
   end).
Qed.

(** X4.  On a frame that is not empty [fetch_data] returns a dictionary
    with the last price and the last volume; the RSI is present from 15
    samples on (and then lies in [0, 100]), EMA20 from 20, EMA50 from 50,
    EMA200 from 200; the Bollinger entry is bound to [None] below 20 samples
    and to three numbers from 20 on; the 7- and 30-sample changes are absent
    below 7 and 30 samples. *)
Theorem fetch_data_availability sqrt (df : frame) :
  df <> [] ->
  exists data,
    fetch_data sqrt df = Return data
    /\ price data = Some (last (map fst df) 0)
    /\ volume data = Some (last (map snd df) 0)
    /\ (is_Some (rsi data) <-> (15 <= length df)%nat)
    /\ (forall r, rsi data = Some r -> 0 <= r <= 100)
    /\ (is_Some (ema20 data) <-> (20 <= length df)%nat)
    /\ (is_Some (ema50 data) <-> (50 <= length df)%nat)
    /\ (is_Some (ema200 data) <-> (200 <= length df)%nat)
    /\ ((length df < 20)%nat -> bollinger_bands data = Py.IsNone)
    /\ ((20 <= length df)%nat ->
        exists u m l,
          bollinger_bands data
          = Py.Bound {| upper := Some u; middle := Some m; lower := Some l |})
    /\ ((length df < 7)%nat -> price_change_7d_percent data = None)
    /\ ((length df < 30)%nat -> price_change_30d_percent data = None).
Proof. apply fetch_data_returns. Qed.

Lemma fetch_data_availability_witness :
  exists data,
    fetch_data (fun x => x) [(100, 5); (101, 6)] = Return data
    /\ price data = Some 101 /\ bollinger_bands data = Py.IsNone.
Proof.
  destruct (fetch_data_availability (fun x => x) [(100, 5); (101, 6)])
    as (data & Hd & Hp & _ & _ & _ & _ & _ & _ & Hb & _); [discriminate|].
  exists data. split; [exact Hd|]. split; [exact Hp|]. apply Hb. simpl. lia.
Defined.

End FetchData.

(** ** How far the score can move *)

Section ScoreBounds.
Import Config SignalScoring ScoreRange.

Lemma score_rsi_bounds w data s :
  0 <= w_rsi w -> rsi_in_range data ->
  s - 100 * w_rsi w <= score_rsi w data s <= s + 100 * w_rsi w.
Proof.
  intros Hw Hr. unfold score_rsi. destruct (rsi data) as [r|] eqn:E; [|lra].
  destruct (Hr r E) as [H0 H100].
  unfold Qdiv. change (/ 25) with (1 # 25).
  destruct (Py.le r 50) eqn:Hle; by_cases_on_comparisons; nra.
Qed.

Lemma score_ema_crossover_bounds w data s :
  0 <= w_ema_crossover w ->
  s - 15 * w_ema_crossover w <= score_ema_crossover w data s
  <= s + 15 * w_ema_crossover w.
Proof.
  intros Hw. unfold score_ema_crossover.
  destruct (ema20 data), (ema50 data); try lra.
  destruct (Py.gt _ _); [lra|]. destruct (Py.lt _ _); lra.
Qed.

Lemma score_ema_price_position_bounds w data s :
  0 <= w_ema_price_position w ->
  s - 10 * w_ema_price_position w <= score_ema_price_position w data s
  <= s + 10 * w_ema_price_position w.
Proof.
  intros Hw. unfold score_ema_price_position.
  destruct (price data), (ema20 data), (ema50 data); try lra.
  destruct (_ && _); [lra|]. destruct (_ && _); lra.
Qed.

Lemma score_bollinger_bounds w data s :
  0 <= w_bollinger_bands w ->
  s - 15 * w_bollinger_bands w <= score_bollinger w data s
  <= s + 15 * w_bollinger_bands w.
Proof.
  intros Hw. unfold score_bollinger.
  destruct (bollinger_bands data) as [| |bb]; try lra.
  destruct (price data); try lra.
  destruct (upper bb), (lower bb); try lra.
  destruct (Py.gt _ 0); [|lra].
  destruct (Py.lt _ _); [lra|]. destruct (Py.lt _ _); lra.
Qed.

Lemma score_volume_bounds cfg data hist s :
  0 <= w_volume_spike (SIGNAL_SCORING_WEIGHTS cfg) ->
  s <= score_volume cfg data hist s
  <= s + 10 * w_volume_spike (SIGNAL_SCORING_WEIGHTS cfg).
Proof.
  intros Hw. unfold score_volume.
  destruct (volume data) as [v|]; [|destruct hist; lra].
  destruct hist as [df|].
  - destruct (volume_column df) as [col|].
    + destruct (mean _); [|lra]. destruct (Py.gt _ 0); [|lra].
      destruct (Py.gt _ _); lra.
    + destruct (Py.gt _ _); lra.
  - destruct (Py.gt _ _); lra.
Qed.

Lemma score_fgi_bounds w sentiment s :
  0 <= w_fgi_sentiment w ->
  s - 15 * w_fgi_sentiment w <= score_fgi w sentiment s <= s + 15 * w_fgi_sentiment w.
Proof.
  intros Hw. unfold score_fgi. destruct (fgi_score sentiment); [|lra].
  repeat (match goal with |- context [if ?b then _ else _] => destruct b end; try lra).
Qed.

Lemma score_google_trends_bounds w sentiment s :
  0 <= w_google_trends w ->
  s - 5 * w_google_trends w <= score_google_trends w sentiment s
  <= s + 10 * w_google_trends w.
Proof.
  intros Hw. unfold score_google_trends.
  destruct (google_trends_interest sentiment); [|lra].
  repeat (match goal with |- context [if ?b then _ else _] => destruct b end; try lra).
Qed.

Lemma score_ath_proximity_bounds w current ath s :
  0 <= w_btc_eth_ath_proximity w ->
  s <= score_ath_proximity w current ath s <= s + 10 * w_btc_eth_ath_proximity w.
Proof.
  intros Hw. unfold score_ath_proximity. destruct current, ath; try lra.
  repeat (match goal with |- context [if ?b then _ else _] => destruct b end; try lra).
Qed.

Lemma score_btc_dominance_bounds w macro s :
  0 <= w_btc_dominance w ->
  s - 10 * w_btc_dominance w <= score_btc_dominance w macro s
  <= s + 10 * w_btc_dominance w.
Proof.
  intros Hw. unfold score_btc_dominance. destruct (btc_dominance macro); [|lra].
  repeat (match goal with |- context [if ?b then _ else _] => destruct b end; try lra).
Qed.

Lemma clamp_le s b : s <= b -> 0 <= b -> Py.max 0 (Py.min 100 s) <= b.
Proof.
  intros Hs Hb. unfold Py.max, Py.min, Py.gt.
  destruct (Py.lt s 100) eqn:E1.
  - destruct (Py.lt 0 s) eqn:E2; lra.
  - apply lt_false in E1. destruct (Py.lt 0 100); lra.
Qed.

Lemma clamp_ge s a : a <= s -> a <= 100 -> a <= Py.max 0 (Py.min 100 s).
Proof.
  intros Hs Ha. unfold Py.max, Py.min, Py.gt.
  destruct (Py.lt s 100) eqn:E1.
  - destruct (Py.lt 0 s) eqn:E2; [lra|]. apply lt_false in E2. lra.
  - destruct (Py.lt 0 100) eqn:E2; [lra|]. apply lt_false in E2. lra.
Qed.

Lemma score_signal_reach cfg data sentiment macro_trends historical_data :
  nonneg_weights (SIGNAL_SCORING_WEIGHTS cfg) -> rsi_in_range data ->
  50 - max_loss (SIGNAL_SCORING_WEIGHTS cfg)
  <= score_signal cfg data sentiment macro_trends historical_data
  <= 50 + max_gain (SIGNAL_SCORING_WEIGHTS cfg).
Proof.
  intros (W1 & W2 & W3 & W4 & W5 & W6 & W7 & W8 & W9) Hr.
  unfold score_signal. cbv zeta. set (w := SIGNAL_SCORING_WEIGHTS cfg) in *.
  pose proof (score_rsi_bounds w data 50 W1 Hr) as B1.
  set (s1 := score_rsi w data 50) in *.
  pose proof (score_ema_crossover_bounds w data s1 W2) as B2.
  set (s2 := score_ema_crossover w data s1) in *.
  pose proof (score_ema_price_position_bounds w data s2 W3) as B3.
  set (s3 := score_ema_price_position w data s2) in *.
  pose proof (score_bollinger_bounds w data s3 W4) as B4.
  set (s4 := score_bollinger w data s3) in *.
  pose proof (score_volume_bounds cfg data historical_data s4 W5) as B5.
  set (s5 := score_volume cfg data historical_data s4) in *.
  pose proof (score_fgi_bounds w sentiment s5 W6) as B6.
  set (s6 := score_fgi w sentiment s5) in *.
  pose proof (score_google_trends_bounds w sentiment s6 W7) as B7.
  set (s7 := score_google_trends w sentiment s6) in *.
  pose proof (score_ath_proximity_bounds w (btc_current_price macro_trends)
                (btc_ath macro_trends) s7 W8) as B8.
  set (s8 := score_ath_proximity w (btc_current_price macro_trends)
               (btc_ath macro_trends) s7) in *.
  pose proof (score_ath_proximity_bounds w (eth_current_price macro_trends)
                (eth_ath macro_trends) s8 W8) as B9.
  set (s9 := score_ath_proximity w (eth_current_price macro_trends)
               (eth_ath macro_trends) s8) in *.
  pose proof (score_btc_dominance_bounds w macro_trends s9 W9) as B10.
  set (s10 := score_btc_dominance w macro_trends s9) in *.
  fold w in B5. unfold max_loss, max_gain.
  split; [apply clamp_ge|apply clamp_le]; lra.
Qed.

(** X5.  With weights that are not negative and an RSI within [0, 100],
    the score stays within [50 - max_loss, 50 + max_gain], where the two
    reaches add up the largest moves of the nine factors: 100 times the RSI
    weight, 15 times the crossover weight, and so on. *)
Theorem score_signal_within_reach cfg data sentiment macro_trends historical_data :
  nonneg_weights (SIGNAL_SCORING_WEIGHTS cfg) -> rsi_in_range data ->
  50 - max_loss (SIGNAL_SCORING_WEIGHTS cfg)
  <= score_signal cfg data sentiment macro_trends historical_data
  <= 50 + max_gain (SIGNAL_SCORING_WEIGHTS cfg).
Proof. apply score_signal_reach. Qed.

Lemma score_signal_within_reach_witness :
  50 - max_loss default_weights
  <= score_signal Config.default Inputs.sample_data_top Inputs.sample_sentiment_top
       Inputs.empty_macro None
  <= 50 + max_gain default_weights.
Proof.
  apply (score_signal_within_reach Config.default Inputs.sample_data_top
           Inputs.sample_sentiment_top Inputs.empty_macro None).
  - unfold nonneg_weights. simpl. repeat split; vm_compute; discriminate.
  - intros r [= <-]. split; vm_compute; discriminate.
Defined.

Lemma default_score_reach data sentiment macro_trends historical_data :
  rsi_in_range data ->
  2625 # 100
  <= score_signal Config.default data sentiment macro_trends historical_data
  <= 76.
Proof.
  intros Hr.
  assert (Hw : nonneg_weights (SIGNAL_SCORING_WEIGHTS Config.default))
    by (unfold nonneg_weights; simpl; repeat split; vm_compute; discriminate).
  pose proof (score_signal_reach Config.default data sentiment macro_trends
                historical_data Hw Hr) as [Hlo Hhi].
  assert (Hg : max_gain (SIGNAL_SCORING_WEIGHTS Config.default) == 26) by reflexivity.
  assert (Hl : max_loss (SIGNAL_SCORING_WEIGHTS Config.default) == 2375 # 100)
    by reflexivity.
  rewrite Hg in Hhi. rewrite Hl in Hlo. split; lra.
Qed.

Lemma signal_alert_is_out_of_reach_aux data sentiment macro_trends historical_data :
  rsi_in_range data ->
  Py.ge (score_signal Config.default data sentiment macro_trends historical_data)
    (ALERT_SCORE_THRESHOLD Config.default) = false.
Proof.
  intros Hr.
  pose proof (default_score_reach data sentiment macro_trends historical_data Hr)
    as [Hlo Hhi].
  apply ge_false. change (ALERT_SCORE_THRESHOLD Config.default) with 80. lra.
Qed.

(** X6.  Under the weights of config.py the score of any data whose RSI is
    a percentage lies between 26.25 and 76.  It stays below the alert
    threshold of 80 of the same file, so [send_discord_alert] called with
    such a score answers [False] and changes nothing. *)
Theorem signal_alert_is_out_of_reach
    data sentiment macro_trends historical_data now post_ok coin details w :
  rsi_in_range data ->
  2625 # 100
  <= score_signal Config.default data sentiment macro_trends historical_data <= 76
  /\ Py.ge (score_signal Config.default data sentiment macro_trends historical_data)
        (ALERT_SCORE_THRESHOLD Config.default) = false
  /\ DiscordAlert.send_discord_alert Config.default now post_ok coin
       (score_signal Config.default data sentiment macro_trends historical_data)
       details w
     = (Return false, w).
Proof.
  intros Hr.
  pose proof (default_score_reach data sentiment macro_trends historical_data Hr)
    as [Hlo Hhi].
  split; [split; assumption|]. split.
  - apply ge_false. change (ALERT_SCORE_THRESHOLD Config.default) with 80. lra.
  - unfold DiscordAlert.send_discord_alert.
    destruct (DiscordAlert.on_cooldown _ _ _ _); [reflexivity|].
    assert (Hlt : Py.lt (score_signal Config.default data sentiment macro_trends
                           historical_data)
                    (ALERT_SCORE_THRESHOLD Config.default) = true).
    { apply lt_true. change (ALERT_SCORE_THRESHOLD Config.default) with 80. lra. }
    now rewrite Hlt.
Qed.

Lemma signal_alert_is_out_of_reach_witness :
  DiscordAlert.send_discord_alert Config.default 0 true "solana"
    (score_signal Config.default Inputs.sample_details_high.(DiscordAlert.details_data)
       Inputs.sample_details_high.(DiscordAlert.details_sentiment)
       Inputs.empty_macro None)
    Inputs.sample_details_high DiscordAlert.empty
  = (Return false, DiscordAlert.empty).
Proof.
  refine (proj2 (proj2 (signal_alert_is_out_of_reach
    Inputs.sample_details_high.(DiscordAlert.details_data)
    Inputs.sample_details_high.(DiscordAlert.details_sentiment)
    Inputs.empty_macro None 0 true "solana" Inputs.sample_details_high
    DiscordAlert.empty _))).
  intros r [= <-]. split; vm_compute; discriminate.
Defined.

End ScoreBounds.

(** ** The senders: what each one touches *)

Section SenderFrames.
Import Config DiscordAlert Categories.

Lemma others_untouched_refl c w : others_untouched c w w.
Proof. unfold others_untouched. tauto. Qed.

#[local] Ltac frame_after_dispatch :=
  match goal with
  | |- context [_send_discord_message ?p ?e ?u ?w] =>
      destruct (send_message_cases p e u w)
        as [(w' & -> & Hok & Hp & H1 & H2 & H3 & H4 & H5 & H6)|[-> Hno]];
      [ simpl; unfold others_untouched; simpl; tauto
      | simpl; apply others_untouched_refl ]
  end.

Lemma send_discord_alert_frame cfg now post_ok coin score details w :
  others_untouched Signal w (snd (send_discord_alert cfg now post_ok coin score details w)).
Proof.
  unfold send_discord_alert.
  destruct (on_cooldown _ _ _ _); [apply others_untouched_refl|].
  destruct (Py.lt score _); [apply others_untouched_refl|].
  destruct (signal_fields details); [|apply others_untouched_refl].
  frame_after_dispatch.
Qed.

Lemma check_price_alerts_frame cfg now post_ok coin current_price w :
  others_untouched Price w (snd (check_price_alerts cfg now post_ok coin current_price w)).
Proof.
  unfold check_price_alerts.
  destruct (PRICE_ALERTS cfg !! coin) as [targets|]; [|apply others_untouched_refl].
  destruct (on_cooldown _ _ _ _); [apply others_untouched_refl|]. cbv zeta.
  destruct (match buy targets with Some _ => _ | None => _ end);
    [|destruct (match sell targets with Some _ => _ | None => _ end)].
  - frame_after_dispatch.
  - frame_after_dispatch.
  - apply others_untouched_refl.
Qed.

Lemma send_top_detection_alert_frame cfg now post_ok coin price rsi ema200 factor w :
  others_untouched TopDetection w
    (snd (send_top_detection_alert cfg now post_ok coin price rsi ema200 factor w)).
Proof.
  unfold send_top_detection_alert.
  destruct (on_cooldown _ _ _ _); [apply others_untouched_refl|].
  destruct (_ ≫= _); [|apply others_untouched_refl].
  frame_after_dispatch.
Qed.

Lemma send_dip_buy_alert_frame cfg now post_ok coin price rsi ema20 bb_lower c7 w :
  others_untouched DipBuy w
    (snd (send_dip_buy_alert cfg now post_ok coin price rsi ema20 bb_lower c7 w)).
Proof.
  unfold send_dip_buy_alert.
  destruct (on_cooldown _ _ _ _); [apply others_untouched_refl|].
  destruct (_ ≫= _); [|apply others_untouched_refl].
  frame_after_dispatch.
Qed.

Lemma send_profit_taking_alert_frame cfg now post_ok coin price target pct qty w :
  others_untouched ProfitTaking w
    (snd (send_profit_taking_alert cfg now post_ok coin price target pct qty w)).
Proof.
  unfold send_profit_taking_alert.
  destruct (on_cooldown _ _ _ _); [apply others_untouched_refl|].
  frame_after_dispatch.
Qed.

Lemma send_trailing_stop_alert_frame
    cfg now post_ok coin price ath drop ema50 close_below w :
  others_untouched TrailingStop w
    (snd (send_trailing_stop_alert cfg now post_ok coin price ath drop ema50 close_below w)).
Proof.
  unfold send_trailing_stop_alert.
  destruct (on_cooldown _ _ _ _); [apply others_untouched_refl|].
  frame_after_dispatch.
Qed.

(** X7.  Each sender writes to the cooldown dictionary of its own category
    only: the five other dictionaries are the same after the call, whatever
    its outcome. *)
Theorem senders_keep_to_their_own_ledger
    (cfg : Config.t) (current_time : Z) (post_ok : bool) (coin_id : string) (w : t) :
  (forall score details,
     others_untouched Signal w
       (snd (send_discord_alert cfg current_time post_ok coin_id score details w)))
  /\ (forall current_price,
     others_untouched Price w
       (snd (check_price_alerts cfg current_time post_ok coin_id current_price w)))
  /\ (forall price rsi ema200 parabolic_factor,
     others_untouched TopDetection w
       (snd (send_top_detection_alert cfg current_time post_ok coin_id
               price rsi ema200 parabolic_factor w)))
  /\ (forall price rsi ema20 bb_lower price_change_7d,
     others_untouched DipBuy w
       (snd (send_dip_buy_alert cfg current_time post_ok coin_id
               price rsi ema20 bb_lower price_change_7d w)))
  /\ (forall current_price target_price sell_percentage quantity,
     others_untouched ProfitTaking w
       (snd (send_profit_taking_alert cfg current_time post_ok coin_id
               current_price target_price sell_percentage quantity w)))
  /\ (forall price ath drop_percent ema50 close_below_ema,
     others_untouched TrailingStop w
       (snd (send_trailing_stop_alert cfg current_time post_ok coin_id
               price ath drop_percent ema50 close_below_ema w))).
Proof.
  refine (conj _ (conj _ (conj _ (conj _ (conj _ _))))); intros.
  - apply send_discord_alert_frame.
  - apply check_price_alerts_frame.
  - apply send_top_detection_alert_frame.
  - apply send_dip_buy_alert_frame.
  - apply send_profit_taking_alert_frame.
  - apply send_trailing_stop_alert_frame.
Qed.

End SenderFrames.

(** ** The senders: the webhook and the cooldown *)

Section SenderGates.
Import Config DiscordAlert Categories.

Lemma send_message_unconfigured post_ok embed url w :
  unconfigured url -> _send_discord_message post_ok embed url w = (false, w).
Proof.
  intros [-> | ->]; reflexivity.
Qed.

#[local] Ltac unconfigured_case Hu :=
  rewrite ?(send_message_unconfigured _ _ _ _ Hu); simpl; auto.

Lemma send_discord_alert_unconfigured cfg now post_ok coin score details w :
  unconfigured (DISCORD_WEBHOOK_URL cfg) ->
  returned_true (fst (send_discord_alert cfg now post_ok coin score details w)) = false
  /\ snd (send_discord_alert cfg now post_ok coin score details w) = w.
Proof.
  intros Hu. unfold send_discord_alert.
  destruct (on_cooldown _ _ _ _); [auto|].
  destruct (Py.lt score _); [auto|].
  destruct (signal_fields details); [|auto].
  unconfigured_case Hu.
Qed.

Lemma check_price_alerts_unconfigured cfg now post_ok coin current_price w :
  unconfigured (DISCORD_WEBHOOK_URL cfg) ->
  fst (check_price_alerts cfg now post_ok coin current_price w) = false
  /\ snd (check_price_alerts cfg now post_ok coin current_price w) = w.
Proof.
  intros Hu. unfold check_price_alerts.
  destruct (PRICE_ALERTS cfg !! coin) as [targets|]; [|auto].
  destruct (on_cooldown _ _ _ _); [auto|]. cbv zeta.
  destruct (match buy targets with Some _ => _ | None => _ end);
    [|destruct (match sell targets with Some _ => _ | None => _ end)];
    unconfigured_case Hu.
Qed.

Lemma send_top_detection_alert_unconfigured
    cfg now post_ok coin price rsi ema200 factor w :
  unconfigured (DISCORD_WEBHOOK_URL cfg) ->
  returned_true
    (fst (send_top_detection_alert cfg now post_ok coin price rsi ema200 factor w)) = false
  /\ snd (send_top_detection_alert cfg now post_ok coin price rsi ema200 factor w) = w.
Proof.
  intros Hu. unfold send_top_detection_alert.
  destruct (on_cooldown _ _ _ _); [auto|].
  destruct (_ ≫= _); [|auto]. unconfigured_case Hu.
Qed.

Lemma send_dip_buy_alert_unconfigured
    cfg now post_ok coin price rsi ema20 bb_lower c7 w :
  unconfigured (DISCORD_WEBHOOK_URL cfg) ->
  returned_true
    (fst (send_dip_buy_alert cfg now post_ok coin price rsi ema20 bb_lower c7 w)) = false
  /\ snd (send_dip_buy_alert cfg now post_ok coin price rsi ema20 bb_lower c7 w) = w.
Proof.
  intros Hu. unfold send_dip_buy_alert.
  destruct (on_cooldown _ _ _ _); [auto|].
  destruct (_ ≫= _); [|auto]. unconfigured_case Hu.
Qed.

Lemma send_profit_taking_alert_unconfigured
    cfg now post_ok coin price target pct qty w :
  unconfigured (DISCORD_WEBHOOK_URL cfg) ->
  fst (send_profit_taking_alert cfg now post_ok coin price target pct qty w) = false
  /\ snd (send_profit_taking_alert cfg now post_ok coin price target pct qty w) = w.
Proof.
  intros Hu. unfold send_profit_taking_alert.
  destruct (on_cooldown _ _ _ _); [auto|]. unconfigured_case Hu.
Qed.

Lemma send_trailing_stop_alert_unconfigured
    cfg now post_ok coin price ath drop ema50 close_below w :
  unconfigured (DISCORD_WEBHOOK_URL cfg) ->
  fst (send_trailing_stop_alert cfg now post_ok coin price ath drop ema50 close_below w)
  = false
  /\ snd (send_trailing_stop_alert cfg now post_ok coin price ath drop ema50 close_below w)
     = w.
Proof.
  intros Hu. unfold send_trailing_stop_alert.
  destruct (on_cooldown _ _ _ _); [auto|]. unconfigured_case Hu.
Qed.

(** X8.  While the webhook address is empty or still the placeholder, no
    sender answers [True] and none changes the alert state: nothing is posted
    and no cooldown starts. *)
Theorem no_alert_without_webhook
    (cfg : Config.t) (current_time : Z) (post_ok : bool) (coin_id : string) (w : t) :
  unconfigured (DISCORD_WEBHOOK_URL cfg) ->
  (forall score details,
     returned_true
       (fst (send_discord_alert cfg current_time post_ok coin_id score details w)) = false
     /\ snd (send_discord_alert cfg current_time post_ok coin_id score details w) = w)
  /\ (forall current_price,
     fst (check_price_alerts cfg current_time post_ok coin_id current_price w) = false
     /\ snd (check_price_alerts cfg current_time post_ok coin_id current_price w) = w)
  /\ (forall price rsi ema200 parabolic_factor,
     returned_true
       (fst (send_top_detection_alert cfg current_time post_ok coin_id
               price rsi ema200 parabolic_factor w)) = false
     /\ snd (send_top_detection_alert cfg current_time post_ok coin_id
               price rsi ema200 parabolic_factor w) = w)
  /\ (forall price rsi ema20 bb_lower price_change_7d,
     returned_true
       (fst (send_dip_buy_alert cfg current_time post_ok coin_id
               price rsi ema20 bb_lower price_change_7d w)) = false
     /\ snd (send_dip_buy_alert cfg current_time post_ok coin_id
               price rsi ema20 bb_lower price_change_7d w) = w)
  /\ (forall current_price target_price sell_percentage quantity,
     fst (send_profit_taking_alert cfg current_time post_ok coin_id
            current_price target_price sell_percentage quantity w) = false
     /\ snd (send_profit_taking_alert cfg current_time post_ok coin_id
               current_price target_price sell_percentage quantity w) = w)
  /\ (forall price ath drop_percent ema50 close_below_ema,
     fst (send_trailing_stop_alert cfg current_time post_ok coin_id
            price ath drop_percent ema50 close_below_ema w) = false
     /\ snd (send_trailing_stop_alert cfg current_time post_ok coin_id
               price ath drop_percent ema50 close_below_ema w) = w).
Proof.
  intros Hu. refine (conj _ (conj _ (conj _ (conj _ (conj _ _))))); intros.
  - now apply send_discord_alert_unconfigured.
  - now apply check_price_alerts_unconfigured.
  - now apply send_top_detection_alert_unconfigured.
  - now apply send_dip_buy_alert_unconfigured.
  - now apply send_profit_taking_alert_unconfigured.
  - now apply send_trailing_stop_alert_unconfigured.
Qed.

Lemma no_alert_without_webhook_witness :
  fst (check_price_alerts Scenes.config_without_webhook 0 true "solana" 100 DiscordAlert.empty)
  = false
  /\ snd (check_price_alerts Scenes.config_without_webhook 0 true "solana" 100
            DiscordAlert.empty) = DiscordAlert.empty.
Proof.
  refine (proj1 (proj2 (no_alert_without_webhook Scenes.config_without_webhook 0 true
                          "solana" DiscordAlert.empty _)) 100).
  right. reflexivity.
Defined.

(** After a call that answered [True], the same key is on cooldown for as
    long as the elapsed hours stay below the interval; a call that finds its
    key on cooldown answers [False] and changes nothing. *)
Lemma gated_after_success `{Countable K} (ledger : t -> gmap K Z) key
    now later hrs post_ok post_ok' sent' (w w' w'' : t) :
  ledger_discipline ledger key now hrs post_ok true w w' ->
  ledger_discipline ledger key later hrs post_ok' sent' w' w'' ->
  hours_since later now < hrs ->
  sent' = false /\ w'' = w'.
Proof.
  intros [(_ & Hw & _) _] [Hsent [Hgate _]] Hlt.
  assert (Hcd : on_cooldown (ledger w') key later hrs = true).
  { unfold on_cooldown. rewrite Hw, lookup_insert_eq. now apply lt_true. }
  specialize (Hgate Hcd). subst sent'. auto.
Qed.

Lemma on_cooldown_after_success `{Countable K} (ledger : t -> gmap K Z) key
    now later hrs post_ok (w w' : t) :
  ledger_discipline ledger key now hrs post_ok true w w' ->
  hours_since later now < hrs ->
  on_cooldown (ledger w') key later hrs = true.
Proof.
  intros [(_ & Hw & _) _] Hlt.
  unfold on_cooldown. rewrite Hw, lookup_insert_eq. now apply lt_true.
Qed.

(** X9.  Once a sender has answered [True] for a key, every later call for
    the same key made while the hours elapsed since then are below the
    cooldown interval of its category answers [False] at once and leaves the
    alert state as it is, whatever the other arguments and whatever the
    webhook would answer. *)
Theorem cooldown_holds_after_a_sent_alert
    (cfg : Config.t) (now later : Z) (post_ok post_ok' : bool) (coin_id : string) (w : t) :
  (forall score details score' details',
     fst (send_discord_alert cfg now post_ok coin_id score details w) = Return true ->
     hours_since later now < ALERT_COOLDOWN_HOURS cfg ->
     send_discord_alert cfg later post_ok' coin_id score' details'
       (snd (send_discord_alert cfg now post_ok coin_id score details w))
     = (Return false, snd (send_discord_alert cfg now post_ok coin_id score details w)))
  /\ (forall current_price current_price',
     fst (check_price_alerts cfg now post_ok coin_id current_price w) = true ->
     hours_since later now < PRICE_ALERT_COOLDOWN_HOURS cfg ->
     check_price_alerts cfg later post_ok' coin_id current_price'
       (snd (check_price_alerts cfg now post_ok coin_id current_price w))
     = (false, snd (check_price_alerts cfg now post_ok coin_id current_price w)))
  /\ (forall price rsi ema200 factor price' rsi' ema200' factor',
     fst (send_top_detection_alert cfg now post_ok coin_id price rsi ema200 factor w)
     = Return true ->
     hours_since later now < ALERT_COOLDOWN_HOURS cfg ->
     send_top_detection_alert cfg later post_ok' coin_id price' rsi' ema200' factor'
       (snd (send_top_detection_alert cfg now post_ok coin_id price rsi ema200 factor w))
     = (Return false,
        snd (send_top_detection_alert cfg now post_ok coin_id price rsi ema200 factor w)))
  /\ (forall price rsi ema20 bb_lower c7 price' rsi' ema20' bb_lower' c7',
     fst (send_dip_buy_alert cfg now post_ok coin_id price rsi ema20 bb_lower c7 w)
     = Return true ->
     hours_since later now < ALERT_COOLDOWN_HOURS cfg ->
     send_dip_buy_alert cfg later post_ok' coin_id price' rsi' ema20' bb_lower' c7'
       (snd (send_dip_buy_alert cfg now post_ok coin_id price rsi ema20 bb_lower c7 w))
     = (Return false,
        snd (send_dip_buy_alert cfg now post_ok coin_id price rsi ema20 bb_lower c7 w)))
  /\ (forall price target pct qty price' target' pct' qty',
     fst (send_profit_taking_alert cfg now post_ok coin_id price target pct qty w) = true ->
     target' == target ->
     hours_since later now < PROFIT_TAKING_ALERT_COOLDOWN_HOURS cfg ->
     send_profit_taking_alert cfg later post_ok' coin_id price' target' pct' qty'
       (snd (send_profit_taking_alert cfg now post_ok coin_id price target pct qty w))
     = (false,
        snd (send_profit_taking_alert cfg now post_ok coin_id price target pct qty w)))
  /\ (forall price ath drop ema50 close_below price' ath' ema50',
     fst (send_trailing_stop_alert cfg now post_ok coin_id
            price ath drop ema50 close_below w) = true ->
     hours_since later now < TRAILING_STOP_ALERT_COOLDOWN_HOURS cfg ->
     send_trailing_stop_alert cfg later post_ok' coin_id price' ath' drop ema50' close_below
       (snd (send_trailing_stop_alert cfg now post_ok coin_id
               price ath drop ema50 close_below w))
     = (false,
        snd (send_trailing_stop_alert cfg now post_ok coin_id
               price ath drop ema50 close_below w))).
Proof.
  refine (conj _ (conj _ (conj _ (conj _ (conj _ _))))).
  - intros score details score' details' Hsent Hlt.
    pose proof (send_discord_alert_discipline cfg now post_ok coin_id score details w) as D.
    rewrite Hsent in D. simpl in D.
    unfold send_discord_alert at 1.
    now rewrite (on_cooldown_after_success _ _ _ _ _ _ _ _ D Hlt).
  - intros current_price current_price' Hsent Hlt.
    pose proof (check_price_alerts_discipline cfg now post_ok coin_id current_price w) as D.
    rewrite Hsent in D.
    unfold check_price_alerts at 1.
    destruct (PRICE_ALERTS cfg !! coin_id); [|reflexivity].
    now rewrite (on_cooldown_after_success _ _ _ _ _ _ _ _ D Hlt).
  - intros price rsi ema200 factor price' rsi' ema200' factor' Hsent Hlt.
    pose proof (send_top_detection_alert_discipline cfg now post_ok coin_id
                  price rsi ema200 factor w) as D.
    rewrite Hsent in D. simpl in D.
    unfold send_top_detection_alert at 1.
    now rewrite (on_cooldown_after_success _ _ _ _ _ _ _ _ D Hlt).
  - intros price rsi ema20 bb_lower c7 price' rsi' ema20' bb_lower' c7' Hsent Hlt.
    pose proof (send_dip_buy_alert_discipline cfg now post_ok coin_id
                  price rsi ema20 bb_lower c7 w) as D.
    rewrite Hsent in D. simpl in D.
    unfold send_dip_buy_alert at 1.
    now rewrite (on_cooldown_after_success _ _ _ _ _ _ _ _ D Hlt).
  - intros price target pct qty price' target' pct' qty' Hsent Heq Hlt.
    pose proof (send_profit_taking_alert_discipline cfg now post_ok coin_id
                  price target pct qty w) as D.
    rewrite Hsent in D.
    unfold send_profit_taking_alert at 1.
    assert (Hk : Q2Qc target' = Q2Qc target) by now apply Q2Qc_eq_iff.
    rewrite Hk.
    now rewrite (on_cooldown_after_success _ _ _ _ _ _ _ _ D Hlt).
  - intros price ath drop ema50 close_below price' ath' ema50' Hsent Hlt.
    pose proof (send_trailing_stop_alert_discipline cfg now post_ok coin_id
                  price ath drop ema50 close_below w) as D.
    rewrite Hsent in D.
    unfold send_trailing_stop_alert at 1.
    now rewrite (on_cooldown_after_success _ _ _ _ _ _ _ _ D Hlt).
Qed.

End SenderGates.

(** ** The trailing stop: when it fires *)

Section TrailingStopFires.
Import Config StateManager TrailingStop Reference.

Lemma ath_drop_check_fires cfg coin p st r :
  fst (ath_drop_check cfg coin p st) = Some r <->
  exists t, percent_drop_threshold cfg coin = Some t
    /\ p <= reference_high coin p st
    /\ 0 < reference_high coin p st
    /\ t <= drop_percent (reference_high coin p st) p
    /\ r = (true, Some "ATH_DROP", drop_percent (reference_high coin p st) p).
Proof.
  unfold ath_drop_check, reference_high, drop_percent.
  destruct (percent_drop_threshold cfg coin) as [t|];
    [|split; [discriminate|now intros (? & [=] & _)]].
  destruct (get_dynamic_ath coin st) as [a|].
  - destruct (Py.gt p a) eqn:E1; by_cases_on_comparisons; simpl.
    + split; [discriminate|]. intros (? & _ & Hle & _). lra.
    + split; [intros [= <-]; eauto 10|intros (? & [= <-] & _ & _ & _ & ->); reflexivity].
    + split; [discriminate|]. intros (? & [= <-] & _ & _ & Hle & _). lra.
    + split; [discriminate|]. intros (? & _ & _ & Hlt & _). lra.
  - rewrite gt_irrefl. destruct (Py.gt p 0) eqn:E1; by_cases_on_comparisons; simpl.
    + split; [intros [= <-]; exists t; repeat split; try lra; assumption
             |intros (? & [= <-] & _ & _ & _ & ->); reflexivity].
    + split; [discriminate|]. intros (? & [= <-] & _ & _ & Hle & _). lra.
    + split; [discriminate|]. intros (? & _ & _ & Hlt & _). lra.
Qed.

Lemma ath_drop_check_ema50_position cfg coin p st c :
  get_ema50_position c (snd (ath_drop_check cfg coin p st)) = get_ema50_position c st.
Proof.
  unfold ath_drop_check.
  destruct (percent_drop_threshold cfg coin) as [t|]; [|reflexivity].
  destruct (get_dynamic_ath coin st) as [a|].
  - destruct (Py.gt p a); [reflexivity|].
    destruct (Py.gt a 0); [destruct (Py.ge _ t)|]; reflexivity.
  - rewrite gt_irrefl.
    destruct (Py.gt p 0); [destruct (Py.ge _ t)|]; reflexivity.
Qed.

Lemma ema50_cross_check_fires cfg coin p ema50 st e :
  fst (ema50_cross_check cfg coin p ema50 st) = (true, Some "CLOSE_BELOW_EMA50", e) <->
  close_below_ema_enabled cfg coin = true /\ ema50 = Some e
  /\ get_ema50_position coin st = Some "above" /\ p < e.
Proof.
  unfold ema50_cross_check, current_ema_position.
  destruct (close_below_ema_enabled cfg coin);
    [|split; [discriminate|now intros ([=] & _)]].
  destruct ema50 as [e'|]; [|split; [discriminate|now intros (_ & [=] & _)]].
  destruct (decide (get_ema50_position coin st = Some "above")) as [Hprev|Hprev];
    [rewrite (bool_decide_eq_true_2 _ Hprev)|rewrite (bool_decide_eq_false_2 _ Hprev)];
    destruct (Py.ge p e') eqn:Ege;
    [apply ge_true in Ege|apply ge_false in Ege|apply ge_true in Ege|apply ge_false in Ege];
    simpl.
  - split; [discriminate|]. intros (_ & [= <-] & _ & Hlt). lra.
  - split; [intros [= <-]; auto|intros (_ & [= <-] & _); reflexivity].
  - split; [discriminate|]. intros (_ & _ & Hp & _). contradiction.
  - split; [discriminate|]. intros (_ & _ & Hp & _). contradiction.
Qed.

Lemma ema50_cross_check_not_ath_drop cfg coin p ema50 st d :
  fst (ema50_cross_check cfg coin p ema50 st) <> (true, Some "ATH_DROP", d).
Proof.
  unfold ema50_cross_check.
  destruct (close_below_ema_enabled cfg coin), ema50; try discriminate.
  destruct (_ && _); discriminate.
Qed.

Lemma check_ath_drop_fires cfg coin data global_ath st d :
  fst (check_for_trailing_stop cfg coin data global_ath st) = (true, Some "ATH_DROP", d) <->
  exists p t, price data = Some p
    /\ percent_drop_threshold cfg coin = Some t
    /\ p <= reference_high coin p st
    /\ 0 < reference_high coin p st
    /\ t <= drop_percent (reference_high coin p st) p
    /\ d = drop_percent (reference_high coin p st) p.
Proof.
  unfold check_for_trailing_stop.
  destruct (price data) as [p|]; [|split; [discriminate|now intros (? & ? & [=] & _)]].
  pose proof (ath_drop_check_fires cfg coin p st) as Hf.
  destruct (ath_drop_check cfg coin p st) as [[r|] st1]; simpl in *.
  - destruct (proj1 (Hf r) eq_refl) as (t & Ht & H1 & H2 & H3 & ->). split.
    + intros [= <-]. exists p, t. auto 10.
    + intros (? & ? & [= <-] & _ & _ & _ & _ & ->). reflexivity.
  - split.
    + intros Hema. now apply ema50_cross_check_not_ath_drop in Hema.
    + intros (? & t & [= <-] & Ht & H1 & H2 & H3 & ->).
      assert (Hsome : None = Some (true, Some "ATH_DROP",
                                   drop_percent (reference_high coin p st) p)).
      { apply Hf. exists t. auto. }
      discriminate.
Qed.

(** X10.  [check_for_trailing_stop] answers [ATH_DROP] exactly when a price
    is present, a drop threshold is configured, the price is not above the
    reference high (the stored dynamic ATH, or the price itself when none is
    stored), that high is positive and the drop from it reaches the
    threshold; the value returned is that drop.  A price above the stored
    high never answers [ATH_DROP]. *)
Theorem ath_drop_fires_iff cfg coin data global_ath st d :
  (fst (check_for_trailing_stop cfg coin data global_ath st) = (true, Some "ATH_DROP", d) <->
   exists p t, price data = Some p
     /\ percent_drop_threshold cfg coin = Some t
     /\ p <= reference_high coin p st
     /\ 0 < reference_high coin p st
     /\ t <= drop_percent (reference_high coin p st) p
     /\ d = drop_percent (reference_high coin p st) p)
  /\ (forall p a, price data = Some p -> get_dynamic_ath coin st = Some a -> a < p ->
      fst (check_for_trailing_stop cfg coin data global_ath st)
      <> (true, Some "ATH_DROP", d)).
Proof.
  split; [apply check_ath_drop_fires|].
  intros p a Hp Ha Hlt Hfire.
  apply check_ath_drop_fires in Hfire as (p' & t & Hp' & _ & Hle & _).
  rewrite Hp in Hp'. injection Hp' as <-.
  unfold reference_high in Hle. rewrite Ha in Hle. lra.
Qed.

Lemma drop_percent_bounds a p :
  0 < a -> p <= a ->
  0 <= drop_percent a p /\ (0 <= p -> drop_percent a p <= 100).
Proof.
  intros Ha Hp. unfold drop_percent.
  assert (Hq : (a - p) / a * a == a - p) by (field; lra).
  set (q := (a - p) / a) in *.
  assert (0 <= q) by (apply Qnot_lt_le; intros ?; nra).
  split; [lra|]. intros Hp0.
  assert (q <= 1) by (apply Qnot_lt_le; intros ?; nra). lra.
Qed.

Lemma drop_percent_antitone a p p' :
  0 < a -> p' <= p -> drop_percent a p <= drop_percent a p'.
Proof.
  intros Ha Hp. unfold drop_percent.
  assert (Hq : (a - p) / a * a == a - p) by (field; lra).
  assert (Hq' : (a - p') / a * a == a - p') by (field; lra).
  set (q := (a - p) / a) in *. set (q' := (a - p') / a) in *.
  assert (q <= q') by (apply Qnot_lt_le; intros ?; nra). lra.
Qed.

(** X11.  The value returned with [ATH_DROP] is at least the configured
    threshold and never negative; for a price that is not negative it is at
    most 100. *)
Theorem ath_drop_value_bounds cfg coin data global_ath st d :
  fst (check_for_trailing_stop cfg coin data global_ath st) = (true, Some "ATH_DROP", d) ->
  0 <= d
  /\ (exists t, percent_drop_threshold cfg coin = Some t /\ t <= d)
  /\ (forall p, price data = Some p -> 0 <= p -> d <= 100).
Proof.
  intros Hfire.
  apply check_ath_drop_fires in Hfire as (p & t & Hp & Ht & Hle & Hpos & Htd & ->).
  destruct (drop_percent_bounds _ _ Hpos Hle) as [H0 H100].
  split; [exact H0|]. split; [eauto|].
  intros p' Hp' Hp0. rewrite Hp in Hp'. injection Hp' as <-. auto.
Qed.

Lemma ath_drop_value_bounds_witness :
  0 <= drop_percent 270 200
  /\ (exists t, percent_drop_threshold Inputs.mock_config_for_ts "solana" = Some t
               /\ t <= drop_percent 270 200)
  /\ (forall p, price (Inputs.observed 200 None) = Some p -> 0 <= p ->
      drop_percent 270 200 <= 100).
Proof.
  apply (ath_drop_value_bounds Inputs.mock_config_for_ts "solana"
           (Inputs.observed 200 None) None Inputs.solana_at_270 (drop_percent 270 200)).
  reflexivity.
Defined.

Lemma check_close_below_fires cfg coin data global_ath st e :
  fst (check_for_trailing_stop cfg coin data global_ath st)
  = (true, Some "CLOSE_BELOW_EMA50", e) <->
  exists p, price data = Some p /\ ema50 data = Some e
    /\ close_below_ema_enabled cfg coin = true
    /\ fst (ath_drop_check cfg coin p st) = None
    /\ get_ema50_position coin st = Some "above" /\ p < e.
Proof.
  unfold check_for_trailing_stop.
  destruct (price data) as [p|]; [|split; [discriminate|now intros (? & [=] & _)]].
  pose proof (ath_drop_check_fires cfg coin p st) as Hf.
  pose proof (ath_drop_check_ema50_position cfg coin p st coin) as Hpos.
  destruct (ath_drop_check cfg coin p st) as [[r|] st1] eqn:Echeck; simpl in *.
  - destruct (proj1 (Hf r) eq_refl) as (t & _ & _ & _ & _ & ->). split.
    + discriminate.
    + intros (p' & Hp' & _ & _ & Hnone & _). injection Hp' as <-.
      rewrite Echeck in Hnone. discriminate.
  - rewrite ema50_cross_check_fires, Hpos. split.
    + intros (Hen & He & Hprev & Hlt). exists p. rewrite Echeck. auto 10.
    + intros (p' & Hp' & He & Hen & _ & Hprev & Hlt). injection Hp' as <-. auto.
Qed.

(** X12.  [check_for_trailing_stop] answers [CLOSE_BELOW_EMA50] exactly
    when the price and the EMA50 are present, the test is enabled for the
    coin, the ATH block did not return, the stored position is above and the
    price is strictly below the EMA50; the value returned is the EMA50.  With
    no stored position (a first observation) or a stored position below it
    never answers [CLOSE_BELOW_EMA50]. *)
Theorem close_below_ema50_fires_iff cfg coin data global_ath st e :
  (fst (check_for_trailing_stop cfg coin data global_ath st)
   = (true, Some "CLOSE_BELOW_EMA50", e) <->
   exists p, price data = Some p /\ ema50 data = Some e
     /\ close_below_ema_enabled cfg coin = true
     /\ fst (ath_drop_check cfg coin p st) = None
     /\ get_ema50_position coin st = Some "above" /\ p < e)
  /\ (get_ema50_position coin st <> Some "above" ->
      fst (check_for_trailing_stop cfg coin data global_ath st)
      <> (true, Some "CLOSE_BELOW_EMA50", e)).
Proof.
  split; [apply check_close_below_fires|].
  intros Hprev Hfire.
  apply check_close_below_fires in Hfire as (p & _ & _ & _ & _ & Habove & _).
  contradiction.
Qed.

Lemma ema50_cross_check_other_position cfg coin p e st c :
  c <> coin ->
  get_ema50_position c (snd (ema50_cross_check cfg coin p e st)) = get_ema50_position c st.
Proof.
  intros Hne. unfold ema50_cross_check.
  destruct (close_below_ema_enabled cfg coin), e; try reflexivity.
  destruct (_ && _); unfold get_ema50_position, set_ema50_position; simpl;
    now rewrite lookup_insert_ne.
Qed.

(** X13.  A call for one coin leaves the stored dynamic ATH and the stored
    EMA50 position of every other coin as they were. *)
Theorem other_coins_are_untouched cfg coin data global_ath st c :
  c <> coin ->
  get_dynamic_ath c (snd (check_for_trailing_stop cfg coin data global_ath st))
  = get_dynamic_ath c st
  /\ get_ema50_position c (snd (check_for_trailing_stop cfg coin data global_ath st))
     = get_ema50_position c st.
Proof.
  intros Hne. split.
  - destruct (check_for_trailing_stop_ath cfg coin data global_ath st c)
      as [H|(p & _ & Hc & _)]; [exact H|contradiction].
  - unfold check_for_trailing_stop. destruct (price data) as [p|]; [|reflexivity].
    pose proof (ath_drop_check_ema50_position cfg coin p st c) as Hpos.
    destruct (ath_drop_check cfg coin p st) as [[r|] st1]; simpl in *; [exact Hpos|].
    now rewrite ema50_cross_check_other_position.
Qed.

Lemma other_coins_are_untouched_witness :
  get_dynamic_ath "chainlink"
    (snd (check_for_trailing_stop Config.default "solana" (Inputs.observed 200 (Some 210))
            None Inputs.solana_at_270_above))
  = get_dynamic_ath "chainlink" Inputs.solana_at_270_above
  /\ get_ema50_position "chainlink"
       (snd (check_for_trailing_stop Config.default "solana" (Inputs.observed 200 (Some 210))
               None Inputs.solana_at_270_above))
     = get_ema50_position "chainlink" Inputs.solana_at_270_above.
Proof.
  apply (other_coins_are_untouched Config.default "solana"
           (Inputs.observed 200 (Some 210)) None Inputs.solana_at_270_above "chainlink").
  discriminate.
Defined.

Lemma drop_percent_self p : drop_percent p p == 0.
Proof.
  unfold drop_percent, Qdiv. ring.
Qed.

(** X14.  On the first observation of a coin (no dynamic ATH stored) with a
    configured threshold, the price becomes the stored high.  With a positive
    threshold the call does not answer [ATH_DROP]; with a threshold of zero
    or below and a positive price it answers [ATH_DROP] at once, with a drop
    of zero. *)
Theorem first_observation_of_a_coin cfg coin data global_ath st p t :
  get_dynamic_ath coin st = None ->
  price data = Some p ->
  percent_drop_threshold cfg coin = Some t ->
  get_dynamic_ath coin (snd (check_for_trailing_stop cfg coin data global_ath st)) = Some p
  /\ (0 < t -> forall d,
       fst (check_for_trailing_stop cfg coin data global_ath st)
       <> (true, Some "ATH_DROP", d))
  /\ (t <= 0 -> 0 < p ->
      exists d, fst (check_for_trailing_stop cfg coin data global_ath st)
                = (true, Some "ATH_DROP", d) /\ d == 0).
Proof.
  intros Hnone Hp Ht. split; [|split].
  - rewrite (dynamic_ath_after_check cfg coin data global_ath st t p Ht Hp).
    now rewrite Hnone.
  - intros Hpos d Hfire.
    apply check_ath_drop_fires in Hfire as (p' & t' & Hp' & Ht' & _ & _ & Hle & _).
    rewrite Hp in Hp'. injection Hp' as <-. rewrite Ht in Ht'. injection Ht' as <-.
    unfold reference_high in Hle. rewrite Hnone in Hle.
    rewrite drop_percent_self in Hle. lra.
  - intros Hle Hpos. exists (drop_percent p p). split; [|apply drop_percent_self].
    apply check_ath_drop_fires. exists p, t.
    unfold reference_high. rewrite Hnone.
    repeat split; try assumption; try lra. rewrite drop_percent_self. exact Hle.
Qed.

Lemma first_observation_of_a_coin_witness :
  get_dynamic_ath "solana"
    (snd (check_for_trailing_stop Config.default "solana" (Inputs.observed 100 None)
            None StateManager.empty)) = Some 100.
Proof.
  refine (proj1 (first_observation_of_a_coin Config.default "solana"
                   (Inputs.observed 100 None) None StateManager.empty 100 20 _ _ _));
    reflexivity.
Defined.

(** X15.  The detector keeps no memory of having fired: when a call
    answers [ATH_DROP] and the next call for the coin sees a price that is
    not higher, that call answers [ATH_DROP] again, with a drop that is not
    smaller. *)
Theorem ath_drop_fires_again_while_below
    cfg coin data data' global_ath global_ath' st p p' d :
  fst (check_for_trailing_stop cfg coin data global_ath st) = (true, Some "ATH_DROP", d) ->
  price data = Some p -> price data' = Some p' -> p' <= p ->
  exists d',
    fst (check_for_trailing_stop cfg coin data' global_ath'
           (snd (check_for_trailing_stop cfg coin data global_ath st)))
    = (true, Some "ATH_DROP", d')
    /\ d <= d'.
Proof.
  intros Hfire Hp Hp' Hle.
  apply check_ath_drop_fires in Hfire as (p0 & t & Hp0 & Ht & Hpa & Hpos & Htd & ->).
  rewrite Hp in Hp0. injection Hp0 as <-.
  set (a := reference_high coin p st) in *.
  assert (Hstored : get_dynamic_ath coin
                      (snd (check_for_trailing_stop cfg coin data global_ath st)) = Some a).
  { rewrite (dynamic_ath_after_check cfg coin data global_ath st t p Ht Hp).
    unfold a, reference_high in *. destruct (get_dynamic_ath coin st) as [a0|]; [|reflexivity].
    destruct (Py.gt p a0) eqn:E; [apply gt_true in E; lra|reflexivity]. }
  exists (drop_percent a p'). split.
  - apply check_ath_drop_fires. exists p', t.
    unfold reference_high. rewrite Hstored.
    pose proof (drop_percent_antitone a p p' Hpos Hle).
    repeat split; try assumption; lra.
  - now apply drop_percent_antitone.
Qed.

Lemma ath_drop_fires_again_while_below_witness :
  exists d',
    fst (check_for_trailing_stop Inputs.mock_config_for_ts "solana"
           (Inputs.observed 195 None) None
           (snd (check_for_trailing_stop Inputs.mock_config_for_ts "solana"
                   (Inputs.observed 200 None) None Inputs.solana_at_270)))
    = (true, Some "ATH_DROP", d')
    /\ drop_percent 270 200 <= d'.
Proof.
  apply (ath_drop_fires_again_while_below Inputs.mock_config_for_ts "solana"
           (Inputs.observed 200 None) (Inputs.observed 195 None) None None
           Inputs.solana_at_270 200 195 (drop_percent 270 200)).
  - reflexivity.
  - reflexivity.
  - reflexivity.
  - vm_compute. discriminate.
Defined.

End TrailingStopFires.

(** ** The body of the analysis loop *)

Section AnalysisLoop.
Import Config Settings Analysis DiscordAlert Categories.

Lemma triple_bind {A B} pre (m : M A) mid (k : A -> M B) post exc :
  triple pre m mid exc ->
  (forall a, triple (mid a) (k a) post exc) ->
  triple pre (bind m k) post exc.
Proof.
  intros Hm Hk s Hs. unfold bind. specialize (Hm s Hs).
  destruct (m s) as [[a|e] s']; [apply Hk; exact Hm|exact Hm].
Qed.

Lemma triple_ret {A} (pre : State -> Prop) (a : A) (post : A -> State -> Prop) exc :
  (forall s, pre s -> post a s) -> triple pre (ret a) post exc.
Proof. intros H s Hs. simpl. auto. Qed.

Lemma triple_lift {A} (pre : State -> Prop) (r : Py.result A) exc :
  (forall s, pre s -> exc s) ->
  triple pre (lift r) (fun a s => r = Return a /\ pre s) exc.
Proof. intros H s Hs. unfold lift. destruct r; auto. Qed.

Lemma triple_weaken {A} (pre pre' : State -> Prop) (m : M A)
    (post post' : A -> State -> Prop) (exc exc' : State -> Prop) :
  triple pre' m post' exc' ->
  (forall s, pre s -> pre' s) ->
  (forall a s, post' a s -> post a s) ->
  (forall s, exc' s -> exc s) ->
  triple pre m post exc.
Proof.
  intros Hm Hpre Hpost Hexc s Hs. specialize (Hm s (Hpre s Hs)).
  destruct (m s) as [[a|e] s']; auto.
Qed.

(** The profit-taking loop only touches its own dictionary. *)
Lemma profit_taking_loop_frame cfg coin price quantity targets answers :
  forall i sent w,
    others_untouched ProfitTaking w
      (snd (profit_taking_loop cfg coin price quantity targets answers i sent w)).
Proof.
  induction targets as [|target rest IH]; intros i sent w; simpl.
  - apply others_untouched_refl.
  - destruct (target_price target) as [tp|], (sell_percentage target) as [sp|];
      try apply IH.
    destruct (Py.ge price tp); [|apply IH].
    pose proof (send_profit_taking_alert_frame cfg (clock (answers i))
                  (accepts (answers i)) coin price tp sp quantity w) as Hf.
    destruct (send_profit_taking_alert _ _ _ _ _ _ _ _ w) as [sent1 w1]. simpl in Hf.
    specialize (IH (S i) (if sent1 then true else sent) w1).
    unfold others_untouched in *.
    repeat split; intros Hc;
      [etransitivity; [apply IH|apply Hf]; assumption ..].
Qed.

Lemma profit_taking_step_frame cfg settings coin price answers w :
  others_untouched ProfitTaking w
    (snd (profit_taking_step cfg settings coin price answers w)).
Proof.
  unfold profit_taking_step.
  destruct (PROFIT_TAKING_ALERTS settings !! coin) as [[|target rest]|];
    try apply others_untouched_refl.
  destruct (Py.gt _ 0); [apply profit_taking_loop_frame|apply others_untouched_refl].
Qed.

Lemma trailing_stop_step_frame cfg coin c ath st w :
  others_untouched TrailingStop w
    (snd (snd (Main.trailing_stop_step cfg coin c ath (st, w)))).
Proof.
  unfold Main.trailing_stop_step.
  destruct (price (Main.coin_data c)) as [p|]; [|apply others_untouched_refl].
  destruct (TrailingStop.check_for_trailing_stop _ _ _ _ _) as [[[fired kind] value] st1].
  destruct fired; [|apply others_untouched_refl].
  destruct (bool_decide (kind = Some "ATH_DROP")).
  - pose proof (send_trailing_stop_alert_frame cfg (Main.at_time c) (Main.post_ok c)
                  coin p ath (Some value) None false w) as Hf.
    destruct (send_trailing_stop_alert _ _ _ _ _ _ _ _ _ w). exact Hf.
  - destruct (bool_decide (kind = Some "CLOSE_BELOW_EMA50"));
      [|apply others_untouched_refl].
    pose proof (send_trailing_stop_alert_frame cfg (Main.at_time c) (Main.post_ok c)
                  coin p None None (Some value) true w) as Hf.
    destruct (send_trailing_stop_alert _ _ _ _ _ _ _ _ _ w). exact Hf.
Qed.

Lemma triple_pure {A} (fact : Prop) (pre : State -> Prop) (m : M A) post exc :
  (fact -> triple pre m post exc) ->
  triple (fun s => fact /\ pre s) m post exc.
Proof. intros H s [Hf Hs]. now apply H. Qed.

Lemma fetched_rsi_in_range sqrt df coin_data :
  Fetch.fetch_data sqrt df = Return coin_data -> ScoreRange.rsi_in_range coin_data.
Proof.
  intros Hfetch. destruct df as [|row rest].
  - injection Hfetch as <-. intros r [=].
  - destruct (fetch_data_returns sqrt (row :: rest)) as (d & Hd & _ & _ & _ & Hr & _);
      [discriminate|].
    rewrite Hfetch in Hd. injection Hd as <-. exact Hr.
Qed.

(** The invariant of a pass that sends no signal alert. *)
Lemma no_signal_on_alerts (L : gmap string Z) c
    (sender : DiscordAlert.t -> Py.result bool * DiscordAlert.t) :
  c <> Signal ->
  (forall w, others_untouched c w (snd (sender w))) ->
  triple
    (fun s => last_signal_alert_times (alerts s) = L
              /\ Forall (fun e => signal_alert_sent e = false) (logged s))
    (on_alerts sender)
    (fun _ s => last_signal_alert_times (alerts s) = L
                /\ Forall (fun e => signal_alert_sent e = false) (logged s))
    (fun s => last_signal_alert_times (alerts s) = L
              /\ Forall (fun e => signal_alert_sent e = false) (logged s)).
Proof.
  intros Hc Hframe s [HL Hlog]. unfold on_alerts.
  specialize (Hframe (alerts s)). destruct (sender (alerts s)) as [r w]. simpl in Hframe.
  destruct Hframe as (Hsig & _). specialize (Hsig Hc).
  destruct r; simpl; split; congruence.
Qed.

Lemma analyse_sends_no_signal settings sqrt macro coin pass (L : gmap string Z) :
  triple
    (fun s => last_signal_alert_times (alerts s) = L
              /\ Forall (fun e => signal_alert_sent e = false) (logged s))
    (analyse Config.default settings sqrt macro coin pass)
    (fun _ s => last_signal_alert_times (alerts s) = L
                /\ Forall (fun e => signal_alert_sent e = false) (logged s))
    (fun s => last_signal_alert_times (alerts s) = L
              /\ Forall (fun e => signal_alert_sent e = false) (logged s)).
Proof.
  set (I := fun s : State => last_signal_alert_times (alerts s) = L
              /\ Forall (fun e => signal_alert_sent e = false) (logged s)).
  unfold analyse.
  eapply triple_bind; [apply triple_lift; auto|]. intros coin_data.
  apply triple_pure. intros Hfetch.
  destruct (price coin_data) as [current_price|]; [|now apply triple_ret].
  eapply triple_bind with (mid := fun _ => I).
  { intros s Hs. exact Hs. }
  intros _.
  eapply triple_bind; [apply triple_lift; auto|]. intros [is_top factor].
  apply triple_pure. intros _.
  eapply triple_bind with (mid := fun _ => I).
  { destruct is_top; [|now apply triple_ret].
    apply (no_signal_on_alerts L TopDetection); [discriminate|].
    intros w. apply send_top_detection_alert_frame. }
  intros top_sent.
  eapply triple_bind; [apply triple_lift; auto|]. intros is_dip.
  apply triple_pure. intros _.
  eapply triple_bind with (mid := fun _ => I).
  { destruct is_dip; [|now apply triple_ret].
    eapply triple_bind; [apply triple_lift; auto|]. intros bb_lower.
    apply triple_pure. intros _.
    apply (no_signal_on_alerts L DipBuy); [discriminate|].
    intros w. apply send_dip_buy_alert_frame. }
  intros dip_sent.
  eapply triple_bind with (mid := fun _ => I).
  { apply (no_signal_on_alerts L ProfitTaking); [discriminate|].
    intros w.
    pose proof (profit_taking_step_frame Config.default settings coin current_price
                  (profit_answer pass) w) as Hf.
    destruct (profit_taking_step _ _ _ _ _ w). exact Hf. }
  intros profit_sent.
  eapply triple_bind with (mid := fun _ => I).
  { intros s [HL Hlog]. unfold trailing_stop.
    pose proof (trailing_stop_step_frame Config.default coin
                  {| Main.at_time := clock (trailing_answer pass);
                     Main.post_ok := accepts (trailing_answer pass);
                     Main.coin_data := coin_data |}
                  (coin_ath_historical pass) (detector s) (alerts s)) as Hf.
    destruct (Main.trailing_stop_step _ _ _ _ _) as [sent [st w]].
    unfold I. simpl in *.
    destruct Hf as (Hsig & _). split; [|exact Hlog].
    rewrite Hsig; [exact HL|discriminate]. }
  intros trailing_sent. cbv zeta.
  pose proof (fetched_rsi_in_range _ _ _ Hfetch) as Hr.
  rewrite (signal_alert_is_out_of_reach_aux coin_data (coin_sentiment pass) macro
             (Some (historical_data pass)) Hr).
  eapply triple_bind with (mid := fun a s => a = false /\ I s).
  { apply triple_ret. auto. }
  intros signal_sent. apply triple_pure. intros ->.
  intros s [HL Hlog]. unfold I. simpl. split; [exact HL|].
  apply Forall_app. split; [exact Hlog|]. repeat constructor.
Qed.

Lemma analyse_coin_sends_no_signal settings sqrt macro coin pass s :
  Forall (fun e => signal_alert_sent e = false) (logged s) ->
  last_signal_alert_times
    (alerts (analyse_coin Config.default settings sqrt macro coin pass s))
  = last_signal_alert_times (alerts s)
  /\ Forall (fun e => signal_alert_sent e = false)
       (logged (analyse_coin Config.default settings sqrt macro coin pass s)).
Proof.
  intros Hlog.
  pose proof (analyse_sends_no_signal settings sqrt macro coin pass
                (last_signal_alert_times (alerts s)) s (conj eq_refl Hlog)) as H.
  unfold analyse_coin.
  destruct (analyse Config.default settings sqrt macro coin pass s) as [[[]|e] s'];
    exact H.
Qed.

(** X16.  Under config.py as written (weights, alert threshold 80) the
    analysis loop never sends a signal alert: whatever the fetched frames, the
    sentiment, the macro data and the webhook, after the loop over any list of
    coins the cooldown dictionary of the signal alerts is as before and every
    log entry says that no signal alert was sent. *)
Theorem analysis_never_sends_a_signal_alert settings sqrt macro coins passes s :
  Forall (fun e => signal_alert_sent e = false) (logged s) ->
  last_signal_alert_times
    (alerts (analyse_coins Config.default settings sqrt macro coins passes s))
  = last_signal_alert_times (alerts s)
  /\ Forall (fun e => signal_alert_sent e = false)
       (logged (analyse_coins Config.default settings sqrt macro coins passes s)).
Proof.
  revert s. induction coins as [|coin rest IH]; intros s Hlog; simpl.
  - auto.
  - destruct (analyse_coin_sends_no_signal settings sqrt macro coin (passes coin) s Hlog)
      as [HL Hlog'].
    destruct (IH _ Hlog') as [HL' Hlog'']. split; [congruence|exact Hlog''].
Qed.

Lemma analysis_never_sends_a_signal_alert_witness :
  map (fun e => (log_coin e, Qred (log_signal_score e), signal_alert_sent e))
    (logged (analyse_coins Config.default Settings.default (fun x => x) Inputs.empty_macro
               (TRACKED_COINS Settings.default)
               (fun _ => Scenes.pass_with Examples.twenty_days) Scenes.fresh))
  = [("solana", 35, false); ("chainlink", 35, false); ("sui", 35, false);
     ("sei-network", 35, false)]
  /\ last_signal_alert_times
       (alerts (analyse_coins Config.default Settings.default (fun x => x)
                  Inputs.empty_macro (TRACKED_COINS Settings.default)
                  (fun _ => Scenes.pass_with Examples.twenty_days) Scenes.fresh))
     = last_signal_alert_times (alerts Scenes.fresh)
  /\ Forall (fun e => signal_alert_sent e = false)
       (logged (analyse_coins Config.default Settings.default (fun x => x)
                  Inputs.empty_macro (TRACKED_COINS Settings.default)
                  (fun _ => Scenes.pass_with Examples.twenty_days) Scenes.fresh)).
Proof.
  split; [vm_compute; reflexivity|].
  apply (analysis_never_sends_a_signal_alert Settings.default (fun x => x)
           Inputs.empty_macro (TRACKED_COINS Settings.default)
           (fun _ => Scenes.pass_with Examples.twenty_days) Scenes.fresh).
  constructor.
Defined.

End AnalysisLoop.

(** ** The detectors inside the loop *)

Section DetectorsInTheLoop.
Import Config Settings Analysis DiscordAlert Detectors.

Lemma check_for_dip_buy_answers_true data sentiment :
  check_for_dip_buy data sentiment = Return true <->
  exists r p e20 bb_lower c7 fgi,
    rsi data = Some r /\ price data = Some p /\ ema20 data = Some e20
    /\ ~ e20 == 0
    /\ get_bb_lower data = Return (Some bb_lower)
    /\ price_change_7d_percent data = Some c7
    /\ fgi_score sentiment = Some fgi
    /\ (3 <= conditions_met data sentiment (Some bb_lower))%nat.
Proof.
  split.
  - unfold check_for_dip_buy.
    destruct (get_bb_lower data) as [bb_lower|e] eqn:Hbb; [|discriminate].
    rewrite bind_return.
    destruct (Nat.leb_spec 3 (conditions_met data sentiment bb_lower)) as [Hge|Hlt];
      [|discriminate].
    unfold mbind, result_bind, Py.bind, Py.format_float, Py.truediv.
    destruct (rsi data) as [r|]; [|discriminate].
    destruct (price data) as [p|]; [|discriminate].
    destruct (ema20 data) as [e20|]; [|discriminate].
    destruct (Qeq_bool e20 0) eqn:Hz; [discriminate|].
    destruct bb_lower as [bl|]; [|discriminate].
    destruct (price_change_7d_percent data) as [c7|]; [|discriminate].
    destruct (fgi_score sentiment) as [fgi|]; [|discriminate].
    intros _. exists r, p, e20, bl, c7, fgi.
    apply Qeq_bool_neq in Hz. auto 10.
  - intros (r & p & e20 & bl & c7 & fgi & Hr & Hp & He & Hnz & Hbb & H7 & Hf & Hge).
    rewrite (check_for_dip_buy_all_present data sentiment r p e20 bl c7 fgi);
      try assumption.
    destruct (Nat.leb_spec 3 (conditions_met data sentiment (Some bl))); [reflexivity|lia].
Qed.

(** X17.  [check_for_dip_buy] answers [True] exactly when at least three
    of the five conditions hold and, besides, every value its message prints
    is present (RSI, price, EMA20, lower band, 7-day change, fear-and-greed
    score) and EMA20 is not zero. *)
Theorem dip_buy_answers_true_iff data sentiment :
  check_for_dip_buy data sentiment = Return true <->
  exists r p e20 bb_lower c7 fgi,
    rsi data = Some r /\ price data = Some p /\ ema20 data = Some e20
    /\ ~ e20 == 0
    /\ get_bb_lower data = Return (Some bb_lower)
    /\ price_change_7d_percent data = Some c7
    /\ fgi_score sentiment = Some fgi
    /\ (3 <= conditions_met data sentiment (Some bb_lower))%nat.
Proof. apply check_for_dip_buy_answers_true. Qed.

Lemma send_top_detection_alert_returns cfg now post_ok coin price r e factor w :
  exists sent w',
    send_top_detection_alert cfg now post_ok coin price (Some r) (Some e) factor w
    = (Return sent, w').
Proof.
  unfold send_top_detection_alert.
  destruct (on_cooldown _ _ _ _); [eauto|]. simpl.
  destruct (_send_discord_message _ _ _ _) as [[] w']; eauto.
Qed.

Lemma send_dip_buy_alert_returns cfg now post_ok coin price r e bb_lower c7 w :
  exists sent w',
    send_dip_buy_alert cfg now post_ok coin price (Some r) (Some e) bb_lower c7 w
    = (Return sent, w').
Proof.
  unfold send_dip_buy_alert.
  destruct (on_cooldown _ _ _ _); [eauto|]. simpl.
  destruct (_send_discord_message _ _ _ _) as [[] w']; eauto.
Qed.

Lemma top_detected_values data sentiment factor :
  check_for_top_detection data sentiment = Return (true, factor) ->
  exists r e, rsi data = Some r /\ ema200 data = Some e.
Proof.
  rewrite check_for_top_detection_returns.
  destruct (is_rsi_overbought data) eqn:H1; [|discriminate].
  destruct (is_above_ema200 data) eqn:H2; [|discriminate].
  intros _.
  apply is_rsi_overbought_true in H1 as (r & Hr & _).
  apply is_above_ema200_true in H2 as (p & e & _ & He & _).
  eauto.
Qed.

(** The state after the top-detection step: only the alert state may have
    changed, and the step has not raised. *)
Lemma top_step_returns cfg coin current_price coin_data sentiment answer s :
  exists is_top factor top_sent w,
    check_for_top_detection coin_data sentiment = Return (is_top, factor)
    /\ (if is_top
        then on_alerts (send_top_detection_alert cfg (clock answer) (accepts answer) coin
               current_price (rsi coin_data) (ema200 coin_data) factor)
        else ret false) s
       = (Return top_sent,
          {| detector := detector s; alerts := w;
             latest_prices := latest_prices s; logged := logged s |})
    /\ (is_top = false -> w = alerts s).
Proof.
  destruct (check_for_top_detection coin_data sentiment) as [[is_top factor]|e] eqn:Htop;
    [|rewrite check_for_top_detection_returns in Htop; discriminate].
  exists is_top, factor. destruct is_top.
  - destruct (top_detected_values _ _ _ Htop) as (r & e & -> & ->).
    destruct (send_top_detection_alert_returns cfg (clock answer) (accepts answer) coin
                current_price r e factor (alerts s)) as (sent & w' & Hsend).
    exists sent, w'. split; [reflexivity|]. split; [|discriminate].
    unfold on_alerts. now rewrite Hsend.
  - exists false, (alerts s). split; [reflexivity|]. split; [|reflexivity].
    unfold ret. now destruct s.
Qed.

(** X18.  When [check_for_dip_buy] raises on the data of a coin, the body
    of the loop stops with that exception: the trailing-stop step, the score
    and the log are skipped, so the detector state and the log are as before
    the pass; only the latest price has been recorded. *)
Theorem dip_buy_exception_cuts_the_pass
    cfg settings sqrt macro coin pass s coin_data current_price e :
  Fetch.fetch_data sqrt (fetched pass) = Return coin_data ->
  price coin_data = Some current_price ->
  check_for_dip_buy coin_data (coin_sentiment pass) = Raise e ->
  fst (analyse cfg settings sqrt macro coin pass s) = Raise e
  /\ detector (analyse_coin cfg settings sqrt macro coin pass s) = detector s
  /\ logged (analyse_coin cfg settings sqrt macro coin pass s) = logged s
  /\ latest_prices (analyse_coin cfg settings sqrt macro coin pass s)
     = <[coin := current_price]> (latest_prices s).
Proof.
  intros Hfetch Hprice Hdip.
  set (s1 := {| detector := detector s; alerts := alerts s;
                latest_prices := <[coin:=current_price]> (latest_prices s);
                logged := logged s |}).
  destruct (top_step_returns cfg coin current_price coin_data (coin_sentiment pass)
              (top_answer pass) s1) as (is_top & factor & top_sent & w & Htop & Hstep & _).
  assert (Hrun : analyse cfg settings sqrt macro coin pass s
                 = (Raise e, {| detector := detector s1; alerts := w;
                                latest_prices := latest_prices s1;
                                logged := logged s1 |})).
  { unfold analyse, bind at 1, lift at 1. rewrite Hfetch, Hprice.
    unfold bind at 1, record_price. fold s1.
    unfold bind at 1, lift at 1. rewrite Htop.
    unfold bind at 1. rewrite Hstep.
    unfold bind at 1, lift at 1. now rewrite Hdip. }
  unfold analyse_coin. rewrite Hrun. simpl. auto.
Qed.

Lemma dip_buy_exception_cuts_the_pass_witness :
  fst (analyse Config.default Settings.default (fun x => x) Inputs.empty_macro "solana"
         (Scenes.pass_with Scenes.three_days) Scenes.fresh) = Raise Py.AttributeError
  /\ detector (analyse_coin Config.default Settings.default (fun x => x)
                 Inputs.empty_macro "solana" (Scenes.pass_with Scenes.three_days)
                 Scenes.fresh) = detector Scenes.fresh
  /\ logged (analyse_coin Config.default Settings.default (fun x => x)
               Inputs.empty_macro "solana" (Scenes.pass_with Scenes.three_days)
               Scenes.fresh) = logged Scenes.fresh
  /\ latest_prices (analyse_coin Config.default Settings.default (fun x => x)
                      Inputs.empty_macro "solana" (Scenes.pass_with Scenes.three_days)
                      Scenes.fresh)
     = <["solana" := 102]> (latest_prices Scenes.fresh).
Proof.
  apply (dip_buy_exception_cuts_the_pass Config.default Settings.default (fun x => x)
           Inputs.empty_macro "solana" (Scenes.pass_with Scenes.three_days) Scenes.fresh
           Scenes.three_days_data 102 Py.AttributeError); reflexivity.
Defined.

Lemma no_top_without_ema200 data sentiment :
  ema200 data = None -> check_for_top_detection data sentiment = Return (false, 0).
Proof.
  intros He. rewrite check_for_top_detection_returns.
  unfold is_above_ema200. rewrite He.
  destruct (price data); now rewrite andb_false_r.
Qed.

(** X19.  A coin with fewer than twenty daily samples leaves no trace: on
    an empty frame the pass changes nothing at all; on one to nineteen samples
    the last price is recorded in [latest_prices], [check_for_dip_buy] raises
    [AttributeError] on the Bollinger entry bound to [None], and the detector
    state, the alert state and the log stay as they were. *)
Theorem short_history_leaves_no_trace cfg settings sqrt macro coin pass s :
  (fetched pass = [] -> analyse_coin cfg settings sqrt macro coin pass s = s)
  /\ (fetched pass <> [] -> (length (fetched pass) < 20)%nat ->
      fst (analyse cfg settings sqrt macro coin pass s) = Raise Py.AttributeError
      /\ detector (analyse_coin cfg settings sqrt macro coin pass s) = detector s
      /\ alerts (analyse_coin cfg settings sqrt macro coin pass s) = alerts s
      /\ logged (analyse_coin cfg settings sqrt macro coin pass s) = logged s
      /\ latest_prices (analyse_coin cfg settings sqrt macro coin pass s)
         = <[coin := last (map fst (fetched pass)) 0]> (latest_prices s)).
Proof.
  split.
  - intros Hempty. unfold analyse_coin, analyse, bind, lift. rewrite Hempty. reflexivity.
  - intros Hne Hshort.
    destruct (fetch_data_returns sqrt (fetched pass) Hne)
      as (coin_data & Hfetch & Hprice & _ & _ & _ & _ & _ & H200 & Hbb & _).
    specialize (Hbb Hshort).
    assert (He200 : ema200 coin_data = None).
    { destruct (ema200 coin_data) eqn:E; [|reflexivity].
      assert (200 <= length (fetched pass))%nat by (apply H200; eauto). lia. }
    pose proof (no_top_without_ema200 coin_data (coin_sentiment pass) He200) as Htop.
    pose proof (check_for_dip_buy_unbound_bands coin_data (coin_sentiment pass) Hbb)
      as Hdip.
    set (p := last (map fst (fetched pass)) 0) in *.
    assert (Hrun : analyse cfg settings sqrt macro coin pass s
                   = (Raise Py.AttributeError,
                      {| detector := detector s; alerts := alerts s;
                         latest_prices := <[coin := p]> (latest_prices s);
                         logged := logged s |})).
    { unfold analyse, bind at 1, lift at 1. rewrite Hfetch, Hprice.
      unfold bind at 1, record_price.
      unfold bind at 1, lift at 1. rewrite Htop.
      unfold bind at 1, ret.
      unfold bind at 1, lift at 1. now rewrite Hdip. }
    unfold analyse_coin. rewrite Hrun. simpl. auto.
Qed.

Lemma short_history_leaves_no_trace_witness :
  alerts (analyse_coin Config.default Settings.default (fun x => x) Inputs.empty_macro
            "solana" (Scenes.pass_with Scenes.three_days) Scenes.fresh)
  = alerts Scenes.fresh.
Proof.
  refine (proj1 (proj2 (proj2 (proj2
    (short_history_leaves_no_trace Config.default Settings.default (fun x => x)
       Inputs.empty_macro "solana" (Scenes.pass_with Scenes.three_days) Scenes.fresh)
    _ _)))).
  - discriminate.
  - simpl. lia.
Defined.

Lemma triple_lift_raise {A} (pre : State -> Prop) (r : Py.result A) exc :
  (forall e, r = Raise e -> forall s, pre s -> exc s) ->
  triple pre (lift r) (fun a s => r = Return a /\ pre s) exc.
Proof. intros H s Hs. unfold lift. destruct r; eauto. Qed.

Lemma triple_total {A} (m : M A) exc :
  (forall s, exists a s', m s = (Return a, s')) ->
  triple (fun _ => True) m (fun _ _ => True) exc.
Proof. intros H s _. destruct (H s) as (a & s' & ->). exact I. Qed.

Lemma fetch_data_never_raises sqrt df :
  exists coin_data, Fetch.fetch_data sqrt df = Return coin_data.
Proof.
  destruct df as [|row rest]; [simpl; eauto|].
  destruct (fetch_data_returns sqrt (row :: rest)) as (d & Hd & _); [discriminate|eauto].
Qed.

Lemma fetched_bands sqrt df coin_data :
  Fetch.fetch_data sqrt df = Return coin_data ->
  bollinger_bands coin_data = Py.IsNone
  \/ exists bb, bollinger_bands coin_data = Py.Bound bb
       /\ (upper bb = None \/ (is_Some (middle bb) /\ is_Some (lower bb))).
Proof.
  intros Hfetch. destruct df as [|row rest].
  - injection Hfetch as <-. right. eexists. split; [reflexivity|]. now left.
  - destruct (fetch_data_returns sqrt (row :: rest))
      as (d & Hd & _ & _ & _ & _ & _ & _ & _ & Hshort & Hlong & _); [discriminate|].
    rewrite Hfetch in Hd. injection Hd as <-.
    destruct (Nat.lt_ge_cases (length (row :: rest)) 20) as [Hlt|Hge].
    + left. now apply Hshort.
    + right. destruct (Hlong Hge) as (u & m & l & Hb).
      eexists. split; [exact Hb|]. right. simpl. eauto.
Qed.

Lemma signal_fields_returns details :
  (exists bb, bollinger_bands (details_data details) = Py.Bound bb
     /\ (upper bb = None \/ (is_Some (middle bb) /\ is_Some (lower bb)))) ->
  signal_fields details = Return tt.
Proof.
  intros (bb & Hbb & Hvals). unfold signal_fields. rewrite Hbb. simpl.
  destruct (upper bb); [|reflexivity].
  destruct Hvals as [[=]|[[m ->] [l ->]]]. reflexivity.
Qed.

Lemma send_discord_alert_returns cfg now post_ok coin score details w :
  signal_fields details = Return tt ->
  exists sent w', send_discord_alert cfg now post_ok coin score details w = (Return sent, w').
Proof.
  intros Hfields. unfold send_discord_alert.
  destruct (on_cooldown _ _ _ _); [eauto|].
  destruct (Py.lt score _); [eauto|]. rewrite Hfields.
  destruct (_send_discord_message _ _ _ _) as [[] w']; eauto.
Qed.

Lemma on_alerts_returns sender s :
  (exists sent w', sender (alerts s) = (Return sent, w')) ->
  exists a s', on_alerts sender s = (Return a, s').
Proof. intros (sent & w' & H). unfold on_alerts. rewrite H. eauto. Qed.

(** X20.  The only exception that can stop the body of the loop is the one
    of [check_for_dip_buy]: the fetch, the top detection, the senders called
    after a detection, the profit-taking and trailing-stop steps and the
    signal alert never raise on the data [fetch_data] produces. *)
Theorem only_dip_buy_stops_the_pass cfg settings sqrt macro coin pass s e :
  fst (analyse cfg settings sqrt macro coin pass s) = Raise e ->
  exists coin_data e',
    Fetch.fetch_data sqrt (fetched pass) = Return coin_data
    /\ is_Some (price coin_data)
    /\ check_for_dip_buy coin_data (coin_sentiment pass) = Raise e'.
Proof.
  set (exc := fun _ : State => exists coin_data e',
    Fetch.fetch_data sqrt (fetched pass) = Return coin_data
    /\ is_Some (price coin_data)
    /\ check_for_dip_buy coin_data (coin_sentiment pass) = Raise e').
  assert (Ht : triple (fun _ => True) (analyse cfg settings sqrt macro coin pass)
                 (fun _ _ => True) exc).
  { unfold analyse.
    destruct (fetch_data_never_raises sqrt (fetched pass)) as (coin_data & Hfetch).
    rewrite Hfetch.
    eapply triple_bind; [apply triple_lift_raise; discriminate|].
    intros cd. apply triple_pure. intros [= <-].
    destruct (price coin_data) as [current_price|] eqn:Hprice;
      [|apply triple_ret; auto].
    eapply triple_bind with (mid := fun _ _ => True).
    { apply triple_total. intros s0. unfold record_price. eauto. }
    intros _. rewrite check_for_top_detection_returns.
    eapply triple_bind; [apply triple_lift_raise; discriminate|].
    intros [is_top factor]. apply triple_pure. intros Htop.
    rewrite <- check_for_top_detection_returns with (sentiment := coin_sentiment pass)
      in Htop.
    eapply triple_bind with (mid := fun _ _ => True).
    { apply triple_total. intros s0. destruct is_top; [|unfold ret; eauto].
      destruct (top_detected_values _ _ _ Htop) as (r & e0 & -> & ->).
      apply on_alerts_returns, send_top_detection_alert_returns. }
    intros top_sent.
    eapply triple_bind.
    { apply triple_lift_raise. intros e' Hdip s0 _. exists coin_data, e'.
      rewrite Hprice. eauto. }
    intros is_dip. apply triple_pure. intros Hdip.
    eapply triple_bind with (mid := fun _ _ => True).
    { apply triple_total. intros s0. destruct is_dip; [|unfold ret; eauto].
      apply check_for_dip_buy_answers_true in Hdip
        as (r & p & e20 & bl & c7 & fgi & Hr & _ & He & _ & Hbb & _).
      unfold bind, lift. rewrite Hbb, Hr, He.
      apply on_alerts_returns, send_dip_buy_alert_returns. }
    intros dip_sent.
    eapply triple_bind with (mid := fun _ _ => True).
    { apply triple_total. intros s0. unfold on_alerts_total.
      apply on_alerts_returns. destruct (profit_taking_step _ _ _ _ _ _); eauto. }
    intros profit_sent.
    eapply triple_bind with (mid := fun _ _ => True).
    { apply triple_total. intros s0. unfold trailing_stop.
      destruct (Main.trailing_stop_step _ _ _ _ _) as [sent [st w]]. eauto. }
    intros trailing_sent. cbv zeta.
    eapply triple_bind with (mid := fun _ _ => True).
    { apply triple_total. intros s0.
      destruct (Py.ge _ _); [|unfold ret; eauto].
      apply on_alerts_returns, send_discord_alert_returns, signal_fields_returns. simpl.
      destruct (fetched_bands _ _ _ Hfetch) as [Hnone|Hbound]; [|exact Hbound].
      pose proof (check_for_dip_buy_unbound_bands coin_data (coin_sentiment pass) Hnone).
      congruence. }
    intros signal_sent. apply triple_total. intros s0. unfold log_result. eauto. }
  intros Hraise. specialize (Ht s I).
  destruct (analyse cfg settings sqrt macro coin pass s) as [[a|e0] s'];
    [discriminate|exact Ht].
Qed.

Lemma only_dip_buy_stops_the_pass_witness :
  exists coin_data e',
    Fetch.fetch_data (fun x => x) (fetched (Scenes.pass_with Scenes.three_days))
    = Return coin_data
    /\ is_Some (price coin_data)
    /\ check_for_dip_buy coin_data (coin_sentiment (Scenes.pass_with Scenes.three_days))
       = Raise e'.
Proof.
  apply (only_dip_buy_stops_the_pass Config.default Settings.default (fun x => x)
           Inputs.empty_macro "solana" (Scenes.pass_with Scenes.three_days) Scenes.fresh
           Py.AttributeError).
  reflexivity.
Defined.

End DetectorsInTheLoop.

(** ** Price alerts, profit targets and the keys of the trailing stop *)

Section TargetsAndKeys.
Import Config Settings Analysis DiscordAlert Categories.

Lemma send_message_configured embed url w :
  ~ unconfigured url ->
  exists w', _send_discord_message true embed url w = (true, w')
    /\ posted w' = (posted w ++ [embed])%list.
Proof.
  intros Hc. unfold _send_discord_message.
  destruct (bool_decide (url = EmptyString)) eqn:E1.
  { apply bool_decide_eq_true in E1. exfalso. apply Hc. now left. }
  destruct (bool_decide (url = "YOUR_DISCORD_WEBHOOK_URL_HERE")) eqn:E2.
  { apply bool_decide_eq_true in E2. exfalso. apply Hc. now right. }
  simpl. eauto.
Qed.

Lemma unconfigured_dec url : unconfigured url \/ ~ unconfigured url.
Proof.
  unfold unconfigured.
  destruct (decide (url = EmptyString)); [now left; left|].
  destruct (decide (url = "YOUR_DISCORD_WEBHOOK_URL_HERE")); [now left; right|].
  right. tauto.
Qed.

(** X21.  [check_price_alerts] answers [True] exactly when targets are
    configured for the coin, the coin is not on cooldown, the price is at or
    below the buy target or at or above the sell target, the webhook is
    configured and it accepts the message.  When both targets are met the
    alert that goes out is the buy alert. *)
Theorem price_alert_sent_iff cfg now post_ok coin current_price w :
  (fst (check_price_alerts cfg now post_ok coin current_price w) = true <->
   exists targets,
     PRICE_ALERTS cfg !! coin = Some targets
     /\ on_cooldown (last_price_alert_times w) coin now (PRICE_ALERT_COOLDOWN_HOURS cfg)
        = false
     /\ ((exists b, buy targets = Some b /\ current_price <= b)
         \/ (exists t, sell targets = Some t /\ t <= current_price))
     /\ ~ unconfigured (DISCORD_WEBHOOK_URL cfg)
     /\ post_ok = true)
  /\ (forall targets b,
        fst (check_price_alerts cfg now post_ok coin current_price w) = true ->
        PRICE_ALERTS cfg !! coin = Some targets ->
        buy targets = Some b -> current_price <= b ->
        posted (snd (check_price_alerts cfg now post_ok coin current_price w))
        = (posted w ++ [{| title := "Price Alert"; about := coin; color := 3447003 |}])%list).
Proof.
  unfold check_price_alerts.
  destruct (PRICE_ALERTS cfg !! coin) as [targets|];
    [|split; [split; [discriminate|now intros (? & [=] & _)]|discriminate]].
  destruct (on_cooldown _ _ _ _) eqn:Hcd.
  { split; [split; [discriminate|]|discriminate].
    intros (? & [= <-] & [=] & _). }
  cbv zeta.
  set (below := match buy targets with
                | Some buy_target => Py.le current_price buy_target
                | None => false end).
  set (above := match sell targets with
                | Some sell_target => Py.ge current_price sell_target
                | None => false end).
  assert (Hbelow : below = true <-> exists b, buy targets = Some b /\ current_price <= b).
  { unfold below. destruct (buy targets) as [b|].
    - rewrite le_true. split; [eauto|now intros (? & [= <-] & ?)].
    - split; [discriminate|now intros (? & [=] & _)]. }
  assert (Habove : above = true <-> exists t, sell targets = Some t /\ t <= current_price).
  { unfold above. destruct (sell targets) as [t|].
    - rewrite ge_true. split; [eauto|now intros (? & [= <-] & ?)].
    - split; [discriminate|now intros (? & [=] & _)]. }
  assert (Hno : forall e, _send_discord_message false e (DISCORD_WEBHOOK_URL cfg) w
                          = (false, w)).
  { intros e. unfold _send_discord_message. destruct (_ || _); reflexivity. }
  destruct below eqn:Eb; [|destruct above eqn:Ea]; simpl.
  - destruct (unconfigured_dec (DISCORD_WEBHOOK_URL cfg)) as [Hu|Hc].
    { rewrite (send_message_unconfigured _ _ _ _ Hu). simpl.
      split; [split; [discriminate|]|discriminate].
      intros (? & _ & _ & _ & Hc & _). contradiction. }
    destruct post_ok.
    + destruct (send_message_configured
                  {| title := "Price Alert"; about := coin; color := 3447003 |}
                  (DISCORD_WEBHOOK_URL cfg) w Hc) as (w' & Hsend & Hposted).
      rewrite Hsend. simpl. split.
      * split; [intros _|reflexivity]. exists targets.
        repeat split; try assumption. left. now apply Hbelow.
      * intros targets' b _ [= <-] _ _. exact Hposted.
    + rewrite Hno. simpl. split; [split; [discriminate|]|discriminate].
      intros (? & _ & _ & _ & _ & [=]).
  - destruct (unconfigured_dec (DISCORD_WEBHOOK_URL cfg)) as [Hu|Hc].
    { rewrite (send_message_unconfigured _ _ _ _ Hu). simpl.
      split; [split; [discriminate|]|discriminate].
      intros (? & _ & _ & _ & Hc & _). contradiction. }
    destruct post_ok.
    + destruct (send_message_configured
                  {| title := "Price Alert"; about := coin; color := 15158332 |}
                  (DISCORD_WEBHOOK_URL cfg) w Hc) as (w' & Hsend & Hposted).
      rewrite Hsend. simpl. split.
      * split; [intros _|reflexivity]. exists targets.
        repeat split; try assumption. right. now apply Habove.
      * intros targets' b _ [= <-] Hb Hle.
        assert (false = true) by (apply Hbelow; eauto). discriminate.
    + rewrite Hno. simpl. split; [split; [discriminate|]|discriminate].
      intros (? & _ & _ & _ & _ & [=]).
  - split; [|discriminate]. split; [discriminate|].
    intros (? & [= <-] & _ & [Hb|Ha] & _).
    + apply Hbelow in Hb. discriminate.
    + apply Habove in Ha. discriminate.
Qed.

End TargetsAndKeys.

(** ** The portfolio tracker *)

Section PortfolioTracker.
Import Config Settings Portfolio.

Lemma setitem_of_a_new_key {A : Type} (d : list (string * A)) key value :
  ~ In key (map fst d) -> setitem d key value = (d ++ [(key, value)])%list.
Proof.
  induction d as [|[k v] d IH]; simpl; intros Hnew; [reflexivity|].
  destruct (bool_decide (k = key)) eqn:E.
  - apply bool_decide_eq_true in E. tauto.
  - rewrite IH by tauto. reflexivity.
Qed.

Lemma sum_of_values_app coins coins' :
  sum_of_values (coins ++ coins') == sum_of_values coins + sum_of_values coins'.
Proof.
  induction coins as [|[k p] coins IH]; unfold sum_of_values in *; simpl.
  - ring.
  - rewrite IH. ring.
Qed.

(** What an entry of the summary records about its coin. *)
Lemma holdings_loop_adds quote items :
  forall total perf,
    NoDup (map fst items) ->
    (forall k, In k (map fst perf) -> ~ In k (map fst items)) ->
    exists added,
      snd (holdings_loop quote items total perf) = (perf ++ added)%list
      /\ fst (holdings_loop quote items total perf) == total + sum_of_values added
      /\ Forall (fun entry =>
           In (fst entry) (map fst items)
           /\ 0 < quantity (snd entry)
           /\ quote (fst entry)
              = Some (current_price (snd entry), daily_change_percent (snd entry))
           /\ current_value (snd entry)
              = current_price (snd entry) * quantity (snd entry)) added.
Proof.
  induction items as [|[coin details] items IH]; intros total perf Hnd Hfresh.
  - exists []. simpl. rewrite app_nil_r. split; [reflexivity|]. split; [|constructor].
    unfold sum_of_values. simpl. ring.
  - simpl in Hnd. inversion Hnd as [|? ? Hcoin Hnd']; subst.
    assert (Hskip :
      exists added,
        snd (holdings_loop quote items total perf) = (perf ++ added)%list
        /\ fst (holdings_loop quote items total perf) == total + sum_of_values added
        /\ Forall (fun entry =>
             In (fst entry) (map fst ((coin, details) :: items))
             /\ 0 < quantity (snd entry)
             /\ quote (fst entry)
                = Some (current_price (snd entry), daily_change_percent (snd entry))
             /\ current_value (snd entry)
                = current_price (snd entry) * quantity (snd entry)) added).
    { destruct (IH total perf Hnd') as (added & Hs & Ht & Hall).
      { intros k Hk Hin. apply (Hfresh k Hk). now right. }
      exists added. split; [exact Hs|]. split; [exact Ht|].
      eapply Forall_impl; [|exact Hall]. simpl. intros entry (Hin & Hrest).
      split; [now right|exact Hrest]. }
    simpl.
    destruct (Py.le (match details with Some q => q | None => 0 end) 0) eqn:Hq;
      [exact Hskip|].
    destruct (quote coin) as [[price change]|] eqn:Hquote; [|exact Hskip].
    apply le_false in Hq.
    rewrite setitem_of_a_new_key by (intros Hin; apply (Hfresh coin Hin); now left).
    set (entry := (coin, {| quantity := match details with Some q => q | None => 0 end;
                            current_price := price;
                            current_value :=
                              price * match details with Some q => q | None => 0 end;
                            daily_change_percent := change |})).
    destruct (IH (total + price * match details with Some q => q | None => 0 end)
                 (perf ++ [entry])%list Hnd') as (added & Hs & Ht & Hall).
    { intros k Hk Hin. rewrite map_app in Hk. apply in_app_or in Hk.
      destruct Hk as [Hk|[<-|[]]].
      - apply (Hfresh k Hk). now right.
      - unfold entry in Hin. simpl in Hin. apply Hcoin, list_elem_of_In, Hin. }
    exists (entry :: added). split; [|split].
    + rewrite Hs, <- app_assoc. reflexivity.
    + rewrite Ht. unfold sum_of_values. simpl. ring.
    + constructor.
      * simpl. split; [now left|]. split; [exact Hq|]. split; [exact Hquote|reflexivity].
      * eapply Forall_impl; [|exact Hall]. simpl. intros e (Hin & Hrest).
        split; [now right|exact Hrest].
Qed.

Lemma weighted_change_unfolded total coins :
  forall so_far,
    weighted_change total coins so_far == so_far + sum_of_products coins / total.
Proof.
  induction coins as [|[k p] coins IH]; intros so_far; simpl.
  - unfold sum_of_products. simpl. unfold Qdiv. ring.
  - rewrite IH. unfold sum_of_products. simpl. unfold Qdiv. ring.
Qed.


(** Below a common bound on the moves of the coins, the weighted sum stays
    strictly inside as soon as some value counts. *)
Lemma sum_of_products_strictly_inside bound coins :
  Forall (fun entry =>
    0 <= current_value (snd entry)
    /\ - bound < daily_change_percent (snd entry) < bound) coins ->
  0 <= sum_of_values coins
  /\ - bound * sum_of_values coins <= sum_of_products coins <= bound * sum_of_values coins
  /\ (0 < sum_of_values coins ->
      - bound * sum_of_values coins < sum_of_products coins < bound * sum_of_values coins).
Proof.
  induction 1 as [|[k p] coins (Hv & Hlo & Hhi) _ (IH0 & (IHlo & IHhi) & IHs)];
    unfold sum_of_values, sum_of_products in *; simpl in *.
  - lra.
  - split; [lra|]. split; [nra|].
    intros Hpos.
    destruct (Qlt_le_dec 0 (current_value p)) as [Hp|Hz].
    + nra.
    + assert (Hzero : current_value p == 0) by lra.
      assert (Hrest : 0 < fold_right
                (fun entry acc => current_value (snd entry) + acc) 0 coins) by lra.
      specialize (IHs Hrest). nra.
Qed.

Lemma track_portfolio_performance_returns settings quote summary :
  NoDup (map fst (PORTFOLIO_HOLDINGS settings)) ->
  track_portfolio_performance settings quote = Some summary ->
  total_value summary == sum_of_values (individual_coins summary)
  /\ Forall (fun entry =>
       In (fst entry) (map fst (PORTFOLIO_HOLDINGS settings))
       /\ 0 < quantity (snd entry)
       /\ quote (fst entry)
          = Some (current_price (snd entry), daily_change_percent (snd entry))
       /\ current_value (snd entry)
          = current_price (snd entry) * quantity (snd entry))
     (individual_coins summary)
  /\ (0 < total_value summary ->
      total_change_24h_percent summary
      == sum_of_products (individual_coins summary) / total_value summary)
  /\ (total_value summary <= 0 -> total_change_24h_percent summary = 0).
Proof.
  intros Hnd. unfold track_portfolio_performance.
  destruct (PORTFOLIO_HOLDINGS settings) as [|item items] eqn:Hitems; [discriminate|].
  destruct (holdings_loop_adds quote (item :: items) 0 [] Hnd)
    as (added & Hs & Ht & Hall); [now intros k []|].
  destruct (holdings_loop quote (item :: items) 0 []) as [total perf].
  simpl in Hs, Ht. subst perf.
  intros [= <-]. simpl.
  split; [rewrite Ht; ring|]. split; [exact Hall|].
  destruct (Py.gt total 0) eqn:Hgt.
  - split; [|apply gt_true in Hgt; lra].
    intros _. rewrite weighted_change_unfolded. ring.
  - split; [apply gt_false in Hgt; lra|reflexivity].
Qed.



End PortfolioTracker.

(** ** The portfolio alert *)

Section PortfolioAlert.
Import Config Settings Portfolio DiscordAlert Categories.

Lemma check_coins_triggered threshold coins :
  forall so_far,
    fst (check_coins threshold coins so_far) = true <->
    fst so_far = true
    \/ exists coin_id perf_data,
         In (coin_id, perf_data) coins
         /\ threshold <= Qabs (daily_change_percent perf_data).
Proof.
  induction coins as [|[coin perf] coins IH]; intros so_far; simpl.
  - split; [now left|]. intros [H|(? & ? & [] & _)]. exact H.
  - rewrite IH. destruct (Py.ge (Qabs (daily_change_percent perf)) threshold) eqn:E.
    + apply ge_true in E. simpl. split; [intros _|now left].
      right. exists coin, perf. split; [now left|exact E].
    + apply ge_false in E. split.
      * intros [H|(c & p & Hin & Hle)]; [now left|].
        right. exists c, p. split; [now right|exact Hle].
      * intros [H|(c & p & [[= <- <-]|Hin] & Hle)]; [now left|lra|].
        right. exists c, p. split; [exact Hin|exact Hle].
Qed.

Lemma checks_triggered thresholds summary :
  fst (check_individual (individual_coin_percent_change thresholds) summary
         (check_total (total_portfolio_percent_change thresholds) summary (false, [])))
  = true <->
  total_moved (total_portfolio_percent_change thresholds) summary
  \/ a_coin_moved (individual_coin_percent_change thresholds) summary.
Proof.
  assert (Htotal :
    fst (check_total (total_portfolio_percent_change thresholds) summary (false, []))
    = true <-> total_moved (total_portfolio_percent_change thresholds) summary).
  { unfold check_total, total_moved.
    destruct (total_portfolio_percent_change thresholds) as [th|].
    - destruct (Py.ge (Qabs (total_change_24h_percent summary)) th) eqn:E; simpl.
      + apply ge_true in E. split; [eauto|reflexivity].
      + apply ge_false in E. split; [discriminate|].
        intros (th' & [= <-] & Hle). lra.
    - simpl. split; [discriminate|]. now intros (? & [=] & _). }
  unfold check_individual, a_coin_moved.
  destruct (individual_coin_percent_change thresholds) as [th|].
  - rewrite check_coins_triggered, Htotal. split.
    + intros [H|(c & p & Hin & Hle)]; [now left|]. right. exists th, c, p. auto.
    + intros [H|(th' & c & p & [= <-] & Hin & Hle)]; [now left|]. right. eauto.
  - rewrite Htotal. split; [now left|].
    intros [H|(? & ? & ? & [=] & _)]. exact H.
Qed.

Lemma webhook_test url :
  bool_decide (url = EmptyString) || bool_decide (url = "YOUR_DISCORD_WEBHOOK_URL_HERE")
  = false <-> ~ unconfigured url.
Proof.
  unfold unconfigured. rewrite orb_false_iff, !bool_decide_eq_false. tauto.
Qed.

Lemma send_portfolio_alert_answers cfg settings now post_ok summary w :
  (fst (send_portfolio_alert cfg settings now post_ok summary w) = true <->
   ~ unconfigured (DISCORD_WEBHOOK_URL cfg)
   /\ on_cooldown (last_portfolio_alert_time w) "portfolio_alert" now
        (PORTFOLIO_ALERT_COOLDOWN_HOURS settings) = false
   /\ (total_moved (total_portfolio_percent_change (PORTFOLIO_ALERT_THRESHOLDS settings))
         summary
       \/ a_coin_moved
            (individual_coin_percent_change (PORTFOLIO_ALERT_THRESHOLDS settings)) summary)
   /\ post_ok = true)
  /\ (fst (send_portfolio_alert cfg settings now post_ok summary w) = true ->
      last_portfolio_alert_time (snd (send_portfolio_alert cfg settings now post_ok summary w))
      = <["portfolio_alert" := now]> (last_portfolio_alert_time w)
      /\ exists embed,
           Portfolio.posted (snd (send_portfolio_alert cfg settings now post_ok summary w))
           = (Portfolio.posted w ++ [embed])%list
           /\ total_value_field embed = total_value summary
           /\ total_change_field embed = total_change_24h_percent summary)
  /\ (fst (send_portfolio_alert cfg settings now post_ok summary w) = false ->
      snd (send_portfolio_alert cfg settings now post_ok summary w) = w).
Proof.
  unfold send_portfolio_alert.
  destruct (bool_decide _ || bool_decide _) eqn:Hurl.
  { simpl. split; [|split; [discriminate|reflexivity]].
    split; [discriminate|]. intros (Hc & _). apply webhook_test in Hc. congruence. }
  apply webhook_test in Hurl.
  destruct (on_cooldown _ _ _ _) eqn:Hcd.
  { simpl. split; [|split; [discriminate|reflexivity]].
    split; [discriminate|]. now intros (_ & [=] & _). }
  pose proof (checks_triggered (PORTFOLIO_ALERT_THRESHOLDS settings) summary) as Hchecks.
  destruct (check_individual _ _ _) as [alert_triggered alert_messages].
  simpl in Hchecks.
  destruct alert_triggered.
  - destruct post_ok; simpl.
    + split; [|split; [|discriminate]].
      * split; [intros _|reflexivity]. repeat split; try assumption.
        now apply Hchecks.
      * intros _. split; [reflexivity|]. eexists. split; [reflexivity|]. split; reflexivity.
    + split; [|split; [discriminate|reflexivity]].
      split; [discriminate|]. now intros (_ & _ & _ & [=]).
  - simpl. split; [|split; [discriminate|reflexivity]].
    split; [discriminate|]. intros (_ & _ & Hmoved & _).
    apply Hchecks in Hmoved. discriminate.
Qed.

(** X23.  [send_portfolio_alert] answers [True] exactly when the webhook is
    configured, the portfolio is not on cooldown, the total or some coin of
    the summary has moved by at least its threshold, and the webhook accepts
    the message.  The cooldown starts and one alert is posted when it answers
    [True]; its state is unchanged when it answers [False]. *)
Theorem portfolio_alert_sent_iff cfg settings now post_ok summary w :
  (fst (send_portfolio_alert cfg settings now post_ok summary w) = true <->
   ~ unconfigured (DISCORD_WEBHOOK_URL cfg)
   /\ on_cooldown (last_portfolio_alert_time w) "portfolio_alert" now
        (PORTFOLIO_ALERT_COOLDOWN_HOURS settings) = false
   /\ (total_moved (total_portfolio_percent_change (PORTFOLIO_ALERT_THRESHOLDS settings))
         summary
       \/ a_coin_moved
            (individual_coin_percent_change (PORTFOLIO_ALERT_THRESHOLDS settings)) summary)
   /\ post_ok = true)
  /\ (fst (send_portfolio_alert cfg settings now post_ok summary w) = true ->
      last_portfolio_alert_time (snd (send_portfolio_alert cfg settings now post_ok summary w))
      = <["portfolio_alert" := now]> (last_portfolio_alert_time w)
      /\ exists embed,
           Portfolio.posted (snd (send_portfolio_alert cfg settings now post_ok summary w))
           = (Portfolio.posted w ++ [embed])%list
           /\ total_value_field embed = total_value summary
           /\ total_change_field embed = total_change_24h_percent summary)
  /\ (fst (send_portfolio_alert cfg settings now post_ok summary w) = false ->
      snd (send_portfolio_alert cfg settings now post_ok summary w) = w).
Proof. apply send_portfolio_alert_answers. Qed.

(** X24.  While the hours elapsed since a portfolio alert went out are below
    [PORTFOLIO_ALERT_COOLDOWN_HOURS], every further call answers [False] and
    leaves the state as it is, whatever the summary says. *)
Theorem portfolio_cooldown_holds cfg settings now later post_ok post_ok' summary summary' w :
  fst (send_portfolio_alert cfg settings now post_ok summary w) = true ->
  hours_since later now < PORTFOLIO_ALERT_COOLDOWN_HOURS settings ->
  send_portfolio_alert cfg settings later post_ok' summary'
    (snd (send_portfolio_alert cfg settings now post_ok summary w))
  = (false, snd (send_portfolio_alert cfg settings now post_ok summary w)).
Proof.
  intros Hsent Hlt.
  destruct (send_portfolio_alert_answers cfg settings now post_ok summary w)
    as (_ & Hstate & _).
  destruct (Hstate Hsent) as (Hledger & _).
  unfold send_portfolio_alert at 1.
  destruct (bool_decide _ || bool_decide _); [reflexivity|].
  unfold on_cooldown. rewrite Hledger, lookup_insert_eq.
  apply lt_true in Hlt. rewrite Hlt. reflexivity.
Qed.

Lemma some_coin_moves_with_the_total settings quote summary total_threshold coin_threshold :
  NoDup (map fst (PORTFOLIO_HOLDINGS settings)) ->
  (forall coin price change, quote coin = Some (price, change) -> 0 <= price) ->
  0 < coin_threshold <= total_threshold ->
  track_portfolio_performance settings quote = Some summary ->
  total_moved (Some total_threshold) summary ->
  a_coin_moved (Some coin_threshold) summary.
Proof.
  intros Hnd Hquote (Hpos & Hle) Htrack (th & [= <-] & Hmoved).
  destruct (track_portfolio_performance_returns _ _ _ Hnd Htrack)
    as (Htotal & Hall & Hchange & Hzero).
  destruct (Forall_Exists_dec
              (fun entry : string * Performance =>
                 Qabs (daily_change_percent (snd entry)) < coin_threshold)
              (fun entry => match Qlt_le_dec (Qabs (daily_change_percent (snd entry)))
                                    coin_threshold with
                            | left H => left H
                            | right H => right (Qle_not_lt _ _ H)
                            end)
              (individual_coins summary)) as [Hquiet|Hloud].
  - exfalso.
    assert (Hinside : Forall (fun entry : string * Performance =>
              0 <= current_value (snd entry)
              /\ - coin_threshold < daily_change_percent (snd entry) < coin_threshold)
              (individual_coins summary)).
    { rewrite List.Forall_forall in *. intros [k p] Hin. simpl.
      specialize (Hall _ Hin). specialize (Hquiet _ Hin). simpl in Hall, Hquiet.
      destruct Hall as (_ & Hq & Hk & Hv).
      specialize (Hquote _ _ _ Hk).
      split; [rewrite Hv; nra|].
      apply Qabs_Qlt_condition in Hquiet. exact Hquiet. }
    destruct (sum_of_products_strictly_inside _ _ Hinside) as (H0 & _ & Hstrict).
    destruct (Qlt_le_dec 0 (total_value summary)) as [Hgt|Hno].
    + rewrite (Hchange Hgt) in Hmoved.
      assert (Hsum : 0 < sum_of_values (individual_coins summary)) by lra.
      specialize (Hstrict Hsum).
      set (T := total_value summary) in *.
      set (P := sum_of_products _) in *.
      set (V := sum_of_values _) in *.
      assert (HP : (P / T) * T == P) by (field; lra).
      assert (Hin : Qabs (P / T) < coin_threshold).
      { apply Qabs_Qlt_condition. split.
        - apply Qnot_le_lt. intros Hc. nra.
        - apply Qnot_le_lt. intros Hc. nra. }
      apply (Qlt_irrefl coin_threshold).
      eapply Qle_lt_trans; [eapply Qle_trans; [exact Hle|exact Hmoved]|exact Hin].
    + rewrite (Hzero Hno) in Hmoved. change (Qabs 0) with 0 in Hmoved. lra.
  - apply List.Exists_exists in Hloud. destruct Hloud as ([k p] & Hin & Hnot).
    simpl in Hnot. exists coin_threshold, k, p.
    split; [reflexivity|]. split; [exact Hin|]. apply Qnot_lt_le. exact Hnot.
Qed.

(** X25.  With a threshold for the coins that is positive and not above the
    threshold for the total (config.py has 10 and 10) and prices that are not
    negative, the total never triggers a portfolio alert by itself: whenever
    [send_portfolio_alert] answers [True] on a summary built by
    [track_portfolio_performance], some coin of the summary has moved by at
    least the threshold for the coins. *)
Theorem total_threshold_never_fires_alone cfg settings quote now post_ok w summary
    total_threshold coin_threshold :
  NoDup (map fst (PORTFOLIO_HOLDINGS settings)) ->
  (forall coin price change, quote coin = Some (price, change) -> 0 <= price) ->
  total_portfolio_percent_change (PORTFOLIO_ALERT_THRESHOLDS settings)
  = Some total_threshold ->
  individual_coin_percent_change (PORTFOLIO_ALERT_THRESHOLDS settings)
  = Some coin_threshold ->
  0 < coin_threshold <= total_threshold ->
  track_portfolio_performance settings quote = Some summary ->
  (total_moved (Some total_threshold) summary -> a_coin_moved (Some coin_threshold) summary)
  /\ (fst (send_portfolio_alert cfg settings now post_ok summary w) = true ->
      a_coin_moved (Some coin_threshold) summary).
Proof.
  intros Hnd Hquote Htot Hind Hth Htrack.
  assert (Hwith : total_moved (Some total_threshold) summary ->
                  a_coin_moved (Some coin_threshold) summary).
  { now apply (some_coin_moves_with_the_total settings quote). }
  split; [exact Hwith|].
  intros Hsent.
  destruct (send_portfolio_alert_answers cfg settings now post_ok summary w)
    as (Hiff & _).
  apply Hiff in Hsent. destruct Hsent as (_ & _ & Hmoved & _).
  rewrite Htot, Hind in Hmoved. destruct Hmoved as [H|H]; [now apply Hwith|exact H].
Qed.

End PortfolioAlert.

(** ** The daily summary report *)

Section DailySummary.
Import Config Settings SummaryReport Categories.

Lemma send_daily_summary_report_answers cfg settings now world w :
  (fst (send_daily_summary_report cfg settings now world w) = Return true <->
   ~ unconfigured (DISCORD_WEBHOOK_URL cfg)
   /\ (exists summary_minute,
         SUMMARY_REPORT_TIME settings = Some (hour now, summary_minute)
         /\ (summary_minute <= minute now)%Z)
   /\ (forall last, last_summary_sent_date w = Some last -> (date last < date now)%Z)
   /\ post_ok world = true)
  /\ (fst (send_daily_summary_report cfg settings now world w) = Return true ->
      snd (send_daily_summary_report cfg settings now world w)
      = {| last_summary_sent_date := Some now;
           posted := (posted w ++ [report_fields settings world])%list |})
  /\ (fst (send_daily_summary_report cfg settings now world w) <> Return true ->
      snd (send_daily_summary_report cfg settings now world w) = w).
Proof.
  unfold send_daily_summary_report.
  destruct (bool_decide _ || bool_decide _) eqn:Hurl.
  { simpl. split; [|split; [discriminate|reflexivity]].
    split; [discriminate|]. intros (Hc & _). apply webhook_test in Hc. congruence. }
  apply webhook_test in Hurl.
  destruct (last_summary_sent_date w) as [last|] eqn:Hlast.
  - destruct (date last =? date now)%Z eqn:Hsame.
    { apply Z.eqb_eq in Hsame. simpl.
      split; [|split; [discriminate|reflexivity]].
      split; [discriminate|]. intros (_ & _ & Hbefore & _).
      specialize (Hbefore last eq_refl). lia. }
    destruct (SUMMARY_REPORT_TIME settings) as [[summary_hour summary_minute]|].
    2:{ simpl. split; [|split; [discriminate|reflexivity]].
        split; [discriminate|]. now intros (_ & (? & [=] & _) & _). }
    destruct (hour now =? summary_hour)%Z eqn:Hhour;
      [destruct (summary_minute <=? minute now)%Z eqn:Hminute|]; simpl.
    + apply Z.eqb_eq in Hhour. apply Z.leb_le in Hminute.
      destruct (date last <? date now)%Z eqn:Hbefore.
      * apply Z.ltb_lt in Hbefore. destruct (post_ok world); simpl.
        -- split; [|split; [reflexivity|congruence]].
           split; [intros _|reflexivity]. split; [exact Hurl|].
           split; [exists summary_minute; split; [congruence|exact Hminute]|].
           split; [|reflexivity]. now intros ? [= <-].
        -- split; [|split; [discriminate|reflexivity]].
           split; [discriminate|]. now intros (_ & _ & _ & [=]).
      * apply Z.ltb_ge in Hbefore. simpl.
        split; [|split; [discriminate|reflexivity]].
        split; [discriminate|]. intros (_ & _ & Hb & _).
        specialize (Hb last eq_refl). lia.
    + apply Z.leb_gt in Hminute.
      split; [|split; [discriminate|reflexivity]].
      split; [discriminate|]. intros (_ & (m & [= Hh Hm'] & Hm) & _). lia.
    + apply Z.eqb_neq in Hhour.
      split; [|split; [discriminate|reflexivity]].
      split; [discriminate|]. intros (_ & (m & [= Hh Hm'] & _) & _). congruence.
  - destruct (SUMMARY_REPORT_TIME settings) as [[summary_hour summary_minute]|].
    2:{ simpl. split; [|split; [discriminate|reflexivity]].
        split; [discriminate|]. now intros (_ & (? & [=] & _) & _). }
    destruct (hour now =? summary_hour)%Z eqn:Hhour;
      [destruct (summary_minute <=? minute now)%Z eqn:Hminute|]; simpl.
    + apply Z.eqb_eq in Hhour. apply Z.leb_le in Hminute.
      destruct (post_ok world); simpl.
      * split; [|split; [reflexivity|congruence]].
        split; [intros _|reflexivity]. split; [exact Hurl|].
        split; [exists summary_minute; split; [congruence|exact Hminute]|].
        split; [|reflexivity]. discriminate.
      * split; [|split; [discriminate|reflexivity]].
        split; [discriminate|]. now intros (_ & _ & _ & [=]).
    + apply Z.leb_gt in Hminute.
      split; [|split; [discriminate|reflexivity]].
      split; [discriminate|]. intros (_ & (m & [= Hh Hm'] & Hm) & _). lia.
    + apply Z.eqb_neq in Hhour.
      split; [|split; [discriminate|reflexivity]].
      split; [discriminate|]. intros (_ & (m & [= Hh Hm'] & _) & _). congruence.
Qed.

(** X26.  [send_daily_summary_report] answers [True] exactly when the
    webhook is configured, the hour of the clock is the hour of
    [SUMMARY_REPORT_TIME] and its minute is not before the configured minute,
    the last report went out on an earlier date (or none went out yet), and
    the webhook accepts the report.  Then the time of the call is recorded and
    the report is posted; in every other case the state is unchanged. *)
Theorem summary_report_sent_iff cfg settings now world w :
  (fst (send_daily_summary_report cfg settings now world w) = Return true <->
   ~ unconfigured (DISCORD_WEBHOOK_URL cfg)
   /\ (exists summary_minute,
         SUMMARY_REPORT_TIME settings = Some (hour now, summary_minute)
         /\ (summary_minute <= minute now)%Z)
   /\ (forall last, last_summary_sent_date w = Some last -> (date last < date now)%Z)
   /\ post_ok world = true)
  /\ (fst (send_daily_summary_report cfg settings now world w) = Return true ->
      snd (send_daily_summary_report cfg settings now world w)
      = {| last_summary_sent_date := Some now;
           posted := (posted w ++ [report_fields settings world])%list |})
  /\ (fst (send_daily_summary_report cfg settings now world w) <> Return true ->
      snd (send_daily_summary_report cfg settings now world w) = w).
Proof. apply send_daily_summary_report_answers. Qed.

Lemma no_second_report cfg settings day polls :
  forall w last,
    last_summary_sent_date w = Some last -> date last = day ->
    Forall (fun poll : Z * World => date (fst poll) = day) polls ->
    calls cfg settings polls w = (Return 0%nat, w).
Proof.
  induction polls as [|[now world] polls IH]; intros w last Hlast Hday Hall;
    [reflexivity|].
  apply List.Forall_cons_iff in Hall. destruct Hall as [Hnow Hrest]. simpl in Hnow.
  assert (Hcall : send_daily_summary_report cfg settings now world w = (Return false, w)).
  { unfold send_daily_summary_report. rewrite Hlast.
    destruct (bool_decide _ || bool_decide _); [reflexivity|].
    rewrite Hnow, Hday, Z.eqb_refl. reflexivity. }
  simpl. rewrite Hcall, (IH w last Hlast Hday Hrest). reflexivity.
Qed.

Lemma calls_within_a_day cfg settings day polls :
  forall w,
    Forall (fun poll : Z * World => date (fst poll) = day) polls ->
    match calls cfg settings polls w with
    | (Py.Return n, w') =>
        (n <= 1)%nat /\ length (posted w') = (length (posted w) + n)%nat
    | (Py.Raise e, w') =>
        e = Py.AttributeError /\ SUMMARY_REPORT_TIME settings = None /\ w' = w
    end.
Proof.
  induction polls as [|[now world] polls IH]; intros w Hall.
  - simpl. split; [lia|lia].
  - apply List.Forall_cons_iff in Hall. destruct Hall as [Hnow Hrest]. simpl in Hnow.
    destruct (send_daily_summary_report_answers cfg settings now world w)
      as (Hiff & Hsent & Hnot).
    simpl.
    destruct (send_daily_summary_report cfg settings now world w) as [[sent|e] w1] eqn:Hcall.
    + simpl in Hsent, Hnot. destruct sent.
      * specialize (Hsent eq_refl). subst w1.
        rewrite (no_second_report cfg settings day polls
                   {| last_summary_sent_date := Some now;
                      posted := (posted w ++ [report_fields settings world])%list |}
                   now eq_refl Hnow Hrest).
        simpl. rewrite length_app. simpl. split; lia.
      * rewrite (Hnot ltac:(discriminate)).
        specialize (IH w Hrest).
        destruct (calls cfg settings polls w) as [[n|e] w2]; exact IH.
    + simpl in Hnot. rewrite <- (Hnot ltac:(discriminate)).
      unfold send_daily_summary_report in Hcall.
      destruct (bool_decide _ || bool_decide _); [discriminate|].
      destruct (match last_summary_sent_date w with
                | Some last => (date last =? date now)%Z
                | None => false
                end); [discriminate|].
      destruct (SUMMARY_REPORT_TIME settings) as [[h m]|].
      * destruct (_ && _); [|discriminate].
        destruct (match last_summary_sent_date w with
                  | Some last => (date last <? date now)%Z
                  | None => true
                  end); [|discriminate].
        destruct (post_ok world); discriminate.
      * injection Hcall as <- _. auto.
Qed.

(** X27.  Whatever the monitoring loop asks on one calendar day, in any
    order and whatever the services answer, at most one of its calls of
    [send_daily_summary_report] answers [True], and as many reports are
    posted.  A call can only raise when [SUMMARY_REPORT_TIME] is [None], and
    then nothing has been sent. *)
Theorem at_most_one_summary_a_day cfg settings day polls w :
  Forall (fun poll : Z * World => date (fst poll) = day) polls ->
  match calls cfg settings polls w with
  | (Py.Return n, w') =>
      (n <= 1)%nat /\ length (posted w') = (length (posted w) + n)%nat
  | (Py.Raise e, w') =>
      e = Py.AttributeError /\ SUMMARY_REPORT_TIME settings = None /\ w' = w
  end.
Proof. apply calls_within_a_day. Qed.

(** X28.  Setting [SUMMARY_REPORT_TIME] to [None] does not switch the report
    off: with a configured webhook, a call made on a date on which no report
    went out raises [AttributeError] (from [None.split]) and leaves the state
    as it is, so the calls of the monitoring loop stop at this one. *)
Theorem summary_time_none_raises cfg settings now world w :
  SUMMARY_REPORT_TIME settings = None ->
  ~ unconfigured (DISCORD_WEBHOOK_URL cfg) ->
  (forall last, last_summary_sent_date w = Some last -> date last <> date now) ->
  send_daily_summary_report cfg settings now world w = (Raise Py.AttributeError, w)
  /\ forall polls,
       calls cfg settings ((now, world) :: polls) w = (Raise Py.AttributeError, w).
Proof.
  intros Htime Hurl Hlast.
  assert (Hcall : send_daily_summary_report cfg settings now world w
                  = (Raise Py.AttributeError, w)).
  { unfold send_daily_summary_report. apply webhook_test in Hurl. rewrite Hurl, Htime.
    destruct (last_summary_sent_date w) as [last|]; [|reflexivity].
    specialize (Hlast last eq_refl). apply Z.eqb_neq in Hlast. rewrite Hlast.
    reflexivity. }
  split; [exact Hcall|]. intros polls. simpl. rewrite Hcall. reflexivity.
Qed.

End DailySummary.

(** ** The portfolio, the report and the targets on given inputs *)

Section PortfolioAndReport.
Import Config Settings Portfolio DiscordAlert Categories.


Lemma holdings_written_once : NoDup (map fst (PORTFOLIO_HOLDINGS Settings.default)).
Proof.
  apply NoDup_ListNoDup. simpl.
  repeat (constructor; [simpl; intuition discriminate|]). constructor.
Qed.

Lemma market_quotes_between coin price change :
  Market.quotes coin = Some (price, change) -> 0 <= price /\ - (2) <= change <= 12.
Proof.
  unfold Market.quotes. destruct (bool_decide _); intros [= <- <-]; lra.
Qed.


Lemma portfolio_cooldown_holds_witness :
  send_portfolio_alert Config.default Settings.default (Inputs.hours 6) true Market.risen
    (snd (send_portfolio_alert Config.default Settings.default (Inputs.hours 0) true
            Market.risen Portfolio.empty))
  = (false,
     snd (send_portfolio_alert Config.default Settings.default (Inputs.hours 0) true
            Market.risen Portfolio.empty)).
Proof.
  apply (portfolio_cooldown_holds Config.default Settings.default (Inputs.hours 0)
           (Inputs.hours 6) true true Market.risen Market.risen Portfolio.empty).
  - vm_compute. reflexivity.
  - vm_compute. reflexivity.
Defined.

Lemma total_threshold_never_fires_alone_witness :
  exists summary,
    track_portfolio_performance Settings.default Market.quotes = Some summary
    /\ (fst (send_portfolio_alert Config.default Settings.default (Inputs.hours 0) true
               summary Portfolio.empty) = true ->
        a_coin_moved (Some 10) summary).
Proof.
  eexists. split; [reflexivity|].
  refine (proj2
    (total_threshold_never_fires_alone Config.default Settings.default Market.quotes
       (Inputs.hours 0) true Portfolio.empty _ 10 10
       holdings_written_once _ eq_refl eq_refl _ eq_refl)).
  - intros coin price change Hq. apply (market_quotes_between _ _ _ Hq).
  - lra.
Defined.

Lemma at_most_one_summary_a_day_witness :
  match SummaryReport.calls Config.default Settings.default Market.evening
          SummaryReport.empty with
  | (Py.Return n, w') =>
      (n <= 1)%nat
      /\ length (SummaryReport.posted w')
         = (length (SummaryReport.posted SummaryReport.empty) + n)%nat
  | (Py.Raise e, w') =>
      e = Py.AttributeError /\ SUMMARY_REPORT_TIME Settings.default = None
      /\ w' = SummaryReport.empty
  end.
Proof.
  apply (at_most_one_summary_a_day Config.default Settings.default 0%Z Market.evening
           SummaryReport.empty).
  repeat constructor.
Defined.

Lemma summary_time_none_raises_witness :
  SummaryReport.send_daily_summary_report Config.default Market.settings_without_summary
    (Inputs.hours 22) Market.world SummaryReport.empty
  = (Raise Py.AttributeError, SummaryReport.empty)
  /\ forall polls,
       SummaryReport.calls Config.default Market.settings_without_summary
         ((Inputs.hours 22, Market.world) :: polls) SummaryReport.empty
       = (Raise Py.AttributeError, SummaryReport.empty).
Proof.
  apply (summary_time_none_raises Config.default Market.settings_without_summary
           (Inputs.hours 22) Market.world SummaryReport.empty).
  - reflexivity.
  - unfold unconfigured. simpl. intros [H|H]; discriminate.
  - discriminate.
Defined.

End PortfolioAndReport.

(** ** The profit-taking step of the analysis loop *)

Section ProfitTargets.
Import Config Settings Analysis DiscordAlert.

Lemma send_profit_taking_alert_effect cfg now post_ok coin price target pct qty w :
  (fst (send_profit_taking_alert cfg now post_ok coin price target pct qty w) = false ->
   snd (send_profit_taking_alert cfg now post_ok coin price target pct qty w) = w)
  /\ forall key,
       key <> (coin, Q2Qc target) ->
       last_profit_taking_alert_times
         (snd (send_profit_taking_alert cfg now post_ok coin price target pct qty w)) !! key
       = last_profit_taking_alert_times w !! key.
Proof.
  unfold send_profit_taking_alert.
  destruct (on_cooldown _ _ _ _); [split; reflexivity|].
  unfold _send_discord_message.
  destruct (bool_decide _ || bool_decide _); [split; reflexivity|].
  destruct post_ok; [|split; reflexivity].
  simpl. split; [discriminate|].
  intros key Hkey. apply lookup_insert_ne. congruence.
Qed.

Lemma profit_taking_loop_effect cfg coin price qty targets answers :
  forall i sent_so_far w,
    (fst (profit_taking_loop cfg coin price qty targets answers i sent_so_far w) = false ->
     sent_so_far = false
     /\ snd (profit_taking_loop cfg coin price qty targets answers i sent_so_far w) = w)
    /\ forall key,
         last_profit_taking_alert_times
           (snd (profit_taking_loop cfg coin price qty targets answers i sent_so_far w))
           !! key
         <> last_profit_taking_alert_times w !! key ->
         exists target reached,
           In target targets
           /\ target_price target = Some reached
           /\ reached <= price
           /\ key = (coin, Q2Qc reached).
Proof.
  induction targets as [|target targets IH]; intros i sent_so_far w; simpl.
  - split; [auto|]. intros key Hkey. congruence.
  - assert (Hskip :
      (fst (profit_taking_loop cfg coin price qty targets answers (S i) sent_so_far w)
       = false ->
       sent_so_far = false
       /\ snd (profit_taking_loop cfg coin price qty targets answers (S i) sent_so_far w)
          = w)
      /\ forall key,
           last_profit_taking_alert_times
             (snd (profit_taking_loop cfg coin price qty targets answers (S i)
                     sent_so_far w)) !! key
           <> last_profit_taking_alert_times w !! key ->
           exists target' reached,
             In target' (target :: targets)
             /\ target_price target' = Some reached
             /\ reached <= price
             /\ key = (coin, Q2Qc reached)).
    { destruct (IH (S i) sent_so_far w) as (Hfalse & Hkeys). split; [exact Hfalse|].
      intros key Hkey. destruct (Hkeys key Hkey) as (t & r & Hin & Hrest).
      exists t, r. split; [now right|exact Hrest]. }
    destruct (target_price target) as [reached|] eqn:Htarget; [|exact Hskip].
    destruct (sell_percentage target) as [pct|]; [|exact Hskip].
    destruct (Py.ge price reached) eqn:Hge; [|exact Hskip].
    apply ge_true in Hge.
    destruct (send_profit_taking_alert_effect cfg (clock (answers i)) (accepts (answers i))
                coin price reached pct qty w) as (Hquiet & Hother).
    destruct (send_profit_taking_alert cfg (clock (answers i)) (accepts (answers i))
                coin price reached pct qty w) as [sent w1].
    simpl in Hquiet, Hother.
    destruct (IH (S i) (if sent then true else sent_so_far) w1) as (Hfalse & Hkeys).
    split.
    + intros Hr. destruct (Hfalse Hr) as (Hflag & Hstate).
      destruct sent; [discriminate|]. rewrite Hstate. split; [exact Hflag|now apply Hquiet].
    + intros key Hkey.
      destruct (decide (last_profit_taking_alert_times
                          (snd (profit_taking_loop cfg coin price qty targets answers (S i)
                                  (if sent then true else sent_so_far) w1)) !! key
                        = last_profit_taking_alert_times w1 !! key)) as [Hsame|Hdiff].
      * exists target, reached. split; [now left|]. split; [exact Htarget|].
        split; [exact Hge|].
        destruct (decide (key = (coin, Q2Qc reached))) as [Heq|Hne]; [exact Heq|].
        exfalso. apply Hkey. rewrite Hsame. now apply Hother.
      * destruct (Hkeys key Hdiff) as (t & r & Hin & Hrest).
        exists t, r. split; [now right|exact Hrest].
Qed.

(** X29.  The profit-taking step of the analysis loop only starts the
    cooldown of targets the price has reached: a key of
    [last_profit_taking_alert_times] whose entry differs after the step is the
    pair of the coin and of a configured target price that is not above the
    current price, and the quantity held of the coin is positive.  When the
    step reports that nothing was sent, the alert state is unchanged. *)
Theorem profit_alerts_only_for_reached_targets cfg settings coin price answers w :
  (fst (profit_taking_step cfg settings coin price answers w) = false ->
   snd (profit_taking_step cfg settings coin price answers w) = w)
  /\ forall key,
       last_profit_taking_alert_times
         (snd (profit_taking_step cfg settings coin price answers w)) !! key
       <> last_profit_taking_alert_times w !! key ->
       0 < quantity_of (PORTFOLIO_HOLDINGS settings) coin
       /\ exists targets target reached,
            PROFIT_TAKING_ALERTS settings !! coin = Some targets
            /\ In target targets
            /\ target_price target = Some reached
            /\ reached <= price
            /\ key = (coin, Q2Qc reached).
Proof.
  unfold profit_taking_step.
  destruct (PROFIT_TAKING_ALERTS settings !! coin) as [[|target targets]|] eqn:Htargets;
    try (split; [reflexivity|intros key Hkey; simpl in Hkey; congruence]).
  destruct (Py.gt (quantity_of (PORTFOLIO_HOLDINGS settings) coin) 0) eqn:Hqty;
    [|split; [reflexivity|intros key Hkey; simpl in Hkey; congruence]].
  apply gt_true in Hqty.
  destruct (profit_taking_loop_effect cfg coin price
              (quantity_of (PORTFOLIO_HOLDINGS settings) coin) (target :: targets)
              answers 0%nat false w) as (Hfalse & Hkeys).
  split.
  - intros Hr. now apply Hfalse.
  - intros key Hkey. split; [exact Hqty|].
    destruct (Hkeys key Hkey) as (t & r & Hin & Hrest).
    exists (target :: targets), t, r. split; [reflexivity|]. split; [exact Hin|exact Hrest].
Qed.

End ProfitTargets.

(** ** The top detector on the dictionaries [fetch_data] builds *)

Section TopDetectionOnFetchedData.
Import DataFetcher Fetch Detectors Inputs.

Lemma ewm_from_keeps_a_share alpha xs :
  0 <= alpha <= 1 -> Forall (Qle 0) xs -> xs <> [] ->
  forall y, 0 <= y -> alpha * last xs 0 <= last (ewm_from alpha y xs) 0.
Proof.
  intros Ha Hxs. induction Hxs as [|x rest Hx Hrest IH]; intros Hne y Hy;
    [contradiction|].
  destruct rest as [|x' rest'].
  - simpl. nra.
  - change (last (x :: x' :: rest') 0) with (last (x' :: rest') 0).
    change (ewm_from alpha y (x :: x' :: rest'))
      with (((1 - alpha) * y + alpha * x)
            :: ewm_from alpha ((1 - alpha) * y + alpha * x) (x' :: rest')).
    change (last (((1 - alpha) * y + alpha * x)
                  :: ewm_from alpha ((1 - alpha) * y + alpha * x) (x' :: rest')) 0)
      with (last (ewm_from alpha ((1 - alpha) * y + alpha * x) (x' :: rest')) 0).
    apply IH; [discriminate|nra].
Qed.

Lemma ewm_mean_keeps_a_share alpha xs :
  0 <= alpha <= 1 -> Forall (Qle 0) xs -> xs <> [] ->
  alpha * last xs 0 <= last (ewm_mean alpha xs) 0.
Proof.
  intros Ha Hxs Hne. destruct Hxs as [|x rest Hx Hrest]; [contradiction|].
  destruct rest as [|x' rest'].
  - simpl. nra.
  - change (last (x :: x' :: rest') 0) with (last (x' :: rest') 0).
    change (last (ewm_mean alpha (x :: x' :: rest')) 0)
      with (last (ewm_from alpha x (x' :: rest')) 0).
    apply ewm_from_keeps_a_share; [exact Ha|exact Hrest|discriminate|exact Hx].
Qed.

(** The latest price weighs in the EMA with the factor alpha. *)
Lemma ema_keeps_a_share prices window e :
  (1 <= window)%Z -> Forall (Qle 0) prices ->
  _calculate_ema prices window = Return (Some e) ->
  2 / (inject_Z window + 1) * last prices 0 <= e.
Proof.
  intros Hw Hnonneg. unfold _calculate_ema.
  destruct (len prices <? window)%Z; [discriminate|].
  destruct (Z.ltb_spec window 1); [lia|].
  assert (Ha : 0 <= 2 / (inject_Z window + 1) <= 1).
  { pose proof (inject_Z_pos window Hw). apply unit_fraction; lra. }
  destruct prices as [|x rest]; [discriminate|].
  pose proof (ewm_mean_keeps_a_share _ (x :: rest) Ha Hnonneg ltac:(discriminate)) as Hshare.
  destruct (ewm_mean (2 / (inject_Z window + 1)) (x :: rest)) as [|e0 es] eqn:Ee;
    [discriminate|].
  intros [= <-]. exact Hshare.
Qed.

Lemma price_change_percent_from_a_positive_price n prices latest c :
  price_change_percent n prices latest = Some c -> - (100) < c -> 0 < latest.
Proof.
  unfold price_change_percent.
  destruct (n <=? length prices)%nat; [|discriminate].
  destruct (iloc_neg n prices) as [ago|]; [|discriminate].
  destruct (Py.gt ago 0) eqn:Hago; [|discriminate].
  apply gt_true in Hago. intros [= <-] Hc.
  assert (Hq : (latest - ago) / ago * ago == latest - ago) by (field; lra).
  nra.
Qed.

(** What [fetch_data] puts under the keys the top detector reads. *)
Lemma fetch_data_fields sqrt (df : frame) data :
  df <> [] -> fetch_data sqrt df = Return data ->
  price data = Some (last (map fst df) 0)
  /\ _calculate_ema (map fst df) 200 = Return (ema200 data)
  /\ price_change_7d_percent data
     = price_change_percent 7 (map fst df) (last (map fst df) 0)
  /\ price_change_30d_percent data
     = price_change_percent 30 (map fst df) (last (map fst df) 0).
Proof.
  intros Hne. unfold fetch_data.
  destruct df as [|row rest] eqn:Edf; [contradiction|]. rewrite <- Edf in *.
  unfold mbind, result_bind, Py.bind.
  destruct (_calculate_rsi (map fst df) 14) as [r|]; [|discriminate].
  destruct (_calculate_ema (map fst df) 20) as [e20|]; [|discriminate].
  destruct (_calculate_ema (map fst df) 50) as [e50|]; [|discriminate].
  destruct (_calculate_ema (map fst df) 200) as [e200|]; [|discriminate].
  destruct (_calculate_bollinger_bands sqrt (map fst df) 20 2) as [bb|]; [|discriminate].
  intros [= <-]. simpl. auto.
Qed.

(** On prices that are not negative, a 7-sample rise puts EMA200 above
    zero: the guard [ema200 > 0] of the detector then holds by itself. *)
Lemma fetched_ema200_is_positive sqrt (df : frame) data e c7 :
  Forall (fun row => 0 <= fst row) df ->
  fetch_data sqrt df = Return data ->
  ema200 data = Some e ->
  price_change_7d_percent data = Some c7 -> 50 < c7 ->
  0 < e.
Proof.
  intros Hnonneg Hfetch He H7 Hc7.
  destruct df as [|row rest] eqn:Edf.
  { injection Hfetch as <-. discriminate. }
  rewrite <- Edf in *.
  destruct (fetch_data_fields sqrt df data) as (_ & Hema & Hchange & _);
    [rewrite Edf; discriminate|exact Hfetch|].
  rewrite He in Hema. rewrite H7 in Hchange. symmetry in Hchange.
  assert (Hprices : Forall (Qle 0) (map fst df)).
  { apply Forall_map. exact Hnonneg. }
  pose proof (ema_keeps_a_share _ 200 e ltac:(lia) Hprices Hema) as Hshare.
  pose proof (price_change_percent_from_a_positive_price _ _ _ _ Hchange ltac:(lra)) as Hlast.
  change (2 / (inject_Z 200 + 1)) with (2 / 201) in Hshare.
  assert (H201 : 2 / 201 == 2 # 201) by reflexivity.
  rewrite H201 in Hshare. nra.
Qed.

Lemma nonnegative_prices_checked (df : frame) :
  forallb (fun row => Qle_bool 0 (fst row)) df = true ->
  Forall (fun row => 0 <= fst row) df.
Proof.
  intros Hall. apply List.Forall_forall. intros row Hin.
  apply Qle_bool_iff. revert row Hin. apply forallb_forall. exact Hall.
Qed.

(** C7.  On the dictionary [fetch_data] builds from prices that are not
    negative, [check_for_top_detection] always returns; it fires exactly when
    RSI is above 80, the price is at least 1.5 times EMA200, the 7-sample
    change is above 50 and the 30-sample change is above 100, whatever the
    sentiment; the intensity is (7d + 30d) / 200 when it fires and 0 when it
    does not.  On RSI 88, price 2.5 times EMA200, +60% and +120% it returns
    (true, 0.9). *)
Theorem top_detection_fires_as_stated sqrt (df : frame) data sentiment :
  Forall (fun row => 0 <= fst row) df ->
  fetch_data sqrt df = Return data ->
  (exists fired intensity,
    check_for_top_detection data sentiment = Return (fired, intensity)
    /\ (fired = true <->
        exists r p e c7 c30,
          rsi data = Some r /\ price data = Some p /\ ema200 data = Some e
          /\ price_change_7d_percent data = Some c7
          /\ price_change_30d_percent data = Some c30
          /\ 80 < r /\ (150 # 100) * e <= p /\ 50 < c7 /\ 100 < c30)
    /\ (fired = true ->
        exists c7 c30,
          price_change_7d_percent data = Some c7
          /\ price_change_30d_percent data = Some c30
          /\ intensity = (c7 + c30) / 200)
    /\ (fired = false -> intensity = 0))
  /\ (exists intensity,
       check_for_top_detection sample_data_top sample_sentiment_top
       = Return (true, intensity) /\ intensity == 9 # 10).
Proof.
  intros Hnonneg Hfetch.
  split; [|exists (180 # 200); split; reflexivity].
  rewrite check_for_top_detection_returns.
  destruct (is_rsi_overbought data && is_above_ema200 data && fst (parabolic data)) eqn:E.
  - apply andb_true_iff in E as [E H3]. apply andb_true_iff in E as [H1 H2].
    pose proof H3 as H3'.
    apply is_rsi_overbought_true in H1 as (r & Hr & Hr80).
    apply is_above_ema200_true in H2 as (p & e & Hp & He & Hpos & Hpe).
    apply parabolic_true in H3 as (c7 & c30 & H7 & H30 & Hc7 & Hc30).
    eexists _, _. split; [reflexivity|]. split; [|split].
    + split; [intros _|reflexivity]. exists r, p, e, c7, c30. tauto.
    + intros _. exists c7, c30. split; [assumption|]. split; [assumption|].
      now apply parabolic_factor_value.
    + discriminate.
  - eexists _, _. split; [reflexivity|]. split; [|split].
    + split; [discriminate|].
      intros (r & p & e & c7 & c30 & Hr & Hp & He & H7 & H30 & ? & ? & ? & ?).
      assert (Hpos : 0 < e)
        by (eapply fetched_ema200_is_positive; eassumption).
      assert (B1 : is_rsi_overbought data = true)
        by (apply is_rsi_overbought_true; eauto).
      assert (B2 : is_above_ema200 data = true)
        by (apply is_above_ema200_true; eauto 6).
      assert (B3 : fst (parabolic data) = true) by (apply parabolic_true; eauto 6).
      rewrite B1, B2, B3 in E. discriminate E.
    + discriminate.
    + reflexivity.
Qed.

End TopDetectionOnFetchedData.

Section TopDetectionOnARise.
Import DataFetcher Fetch Detectors Inputs.

Lemma parabolic_rise_is_fetched :
  fetch_data (fun x => x) Examples.parabolic_rise = Return Examples.parabolic_data.
Proof. vm_compute. reflexivity. Qed.

Lemma parabolic_rise_is_nonnegative :
  Forall (fun row => 0 <= fst row) Examples.parabolic_rise.
Proof. apply nonnegative_prices_checked. vm_compute. reflexivity. Qed.

Lemma top_detection_fires_as_stated_witness :
  exists intensity,
    check_for_top_detection Examples.parabolic_data empty_sentiment
    = Return (true, intensity)
    /\ exists r p e c7 c30,
         rsi Examples.parabolic_data = Some r
         /\ price Examples.parabolic_data = Some p
         /\ ema200 Examples.parabolic_data = Some e
         /\ price_change_7d_percent Examples.parabolic_data = Some c7
         /\ price_change_30d_percent Examples.parabolic_data = Some c30
         /\ 80 < r /\ (150 # 100) * e <= p /\ 50 < c7 /\ 100 < c30.
Proof.
  destruct (proj1 (top_detection_fires_as_stated (fun x => x) Examples.parabolic_rise
                     Examples.parabolic_data empty_sentiment
                     parabolic_rise_is_nonnegative parabolic_rise_is_fetched))
    as (fired & intensity & Hcheck & Hiff & _).
  assert (Hfired : fired = true).
  { revert Hcheck. vm_compute. intros [= <- _]. reflexivity. }
  exists intensity. split.
  - rewrite <- Hfired. exact Hcheck.
  - apply Hiff. exact Hfired.
Defined.

End TopDetectionOnARise.
